(** * Dunnes Shopping Optimiser: coupon rules and the ten-week planner

    A shallow embedding of [src/utils/couponRules.ts] and
    [src/utils/optimizer.ts].

    Modelling conventions.
    - A JavaScript [number] holding an amount of money is an exact rational
      ([Q]); comparisons are the boolean tests of the source, [Math.round]
      rounds half up.  Binary floating-point rounding error is not modelled.
    - A [Date] is a whole number of days ([Z]); [setDate (getDate () + n)]
      adds [n].  No time of day takes part in any comparison of the planner.
    - [Coupon] objects are shared and mutated ([used], [usedDate]) after a
      [ShoppingEntry] already points at them, so they live in a heap and are
      referred to by their index in allocation order.
    - [Math.random] is an oracle: the n-th coupon created receives the n-th
      suffix of a stream given to the planner. *)

From Stdlib Require Import ZArith QArith Qround Qminmax Lqa Lia String.
From stdpp Require Import base tactics list.

Open Scope Q_scope.

(** ** JavaScript numbers and [Math] *)

Module Js.

Definition ge (a b : Q) : bool := Qle_bool b a.
Definition le (a b : Q) : bool := Qle_bool a b.
Definition lt (a b : Q) : bool := negb (Qle_bool b a).
Definition gt (a b : Q) : bool := negb (Qle_bool a b).
(** [a !== b] on numbers *)
Definition neq (a b : Q) : bool := negb (Qeq_bool a b).

Definition min (a b : Q) : Q := if le a b then a else b.
Definition max (a b : Q) : Q := if ge a b then a else b.

(** [Math.round]: the nearest integer, a tie going up. *)
Definition round (x : Q) : Q := inject_Z (Qfloor (x + 0.5)).

(** [Math.round (x * 100) / 100] *)
Definition round2 (x : Q) : Q := round (x * 100) / 100.

End Js.

(** ** Types ([src/types]) *)

Inductive CouponType : Set := small | large.

(** A [Date], in whole days. *)
Definition Date : Set := Z.

(** The identifier built by [createCoupon]:
    [`${type}-${earnedDate.getTime()}-${random suffix}`]. *)
Record CouponId : Set := mkCouponId {
  id_type : CouponType;
  id_time : Date;
  id_random : string
}.

Record Coupon : Set := mkCoupon {
  id : CouponId;
  type : CouponType;
  value : Q;
  minSpend : Q;
  earnedDate : Date;
  validFrom : Date;
  validUntil : Date;
  used : bool;
  usedDate : option Date
}.

(** A reference to a [Coupon] object: its index in the heap. *)
Abbreviation ref := nat (only parsing).

Inductive Status : Set := planned | completed | missed.

Record ShoppingEntry : Set := mkEntry {
  entry_id : nat;                 (* [`entry-${n}`] *)
  date : Date;
  plannedAmount : Q;
  couponEarned : option ref;
  couponUsed : option ref;
  savings : Q;
  status : Status
}.

(** ** Coupon rules ([couponRules.ts]) *)

Record Rule : Set := mkRule {
  rule_minSpend : Q;
  couponValue : Q;
  minUseSpend : Q;
  validDays : Z
}.

Definition COUPON_RULES (t : CouponType) : Rule :=
  match t with
  | small => {| rule_minSpend := 25; couponValue := 5;
                minUseSpend := 25; validDays := 6 |}
  | large => {| rule_minSpend := 50; couponValue := 10;
                minUseSpend := 50; validDays := 9 |}
  end.

(** [createCoupon]; [suffix] is what
    [Math.random().toString(36).substr(2, 9)] evaluated to. *)
Definition createCoupon (suffix : string) (t : CouponType) (earned : Date)
  : Coupon :=
  let rules := COUPON_RULES t in
  let validFrom := (earned + 1)%Z in
  let validUntil := (validFrom + validDays rules)%Z in
  {| id := mkCouponId t earned suffix;
     type := t;
     value := couponValue rules;
     minSpend := minUseSpend rules;
     earnedDate := earned;
     validFrom := validFrom;
     validUntil := validUntil;
     used := false;
     usedDate := None |}.

Definition getCouponEarned (suffix : string) (spendAmount : Q)
  (earned : Date) : option Coupon :=
  if Js.ge spendAmount (rule_minSpend (COUPON_RULES large)) then
    Some (createCoupon suffix large earned)
  else if Js.ge spendAmount (rule_minSpend (COUPON_RULES small)) then
    Some (createCoupon suffix small earned)
  else None.

Definition canUseCoupon (coupon : Coupon) (spendAmount : Q) (d : Date)
  : bool :=
  negb (used coupon) && Js.ge spendAmount (minSpend coupon)
  && (validFrom coupon <=? d)%Z && (d <=? validUntil coupon)%Z.

Definition isCouponExpired (coupon : Coupon) (currentDate : Date) : bool :=
  (validUntil coupon <? currentDate)%Z.

(** ** Per-week helpers of the planner ([optimizer.ts]) *)

Definition determineOptimalShopsPerWeek (weeklyBudget : Q) : nat :=
  if Js.ge weeklyBudget 100 then 2%nat
  else if Js.ge weeklyBudget 75 then
    (if Js.ge weeklyBudget 90 then 2%nat else 1%nat)
  else 1%nat.

Definition optimizeSpendForCoupon (plannedAmount remainingBudget : Q) : Q :=
  if Js.ge plannedAmount 45 && Js.lt plannedAmount 50
     && Js.ge remainingBudget 50 then 50
  else if Js.ge plannedAmount 50 then Js.max 50 plannedAmount
  else if Js.ge plannedAmount 20 && Js.lt plannedAmount 25
          && Js.ge remainingBudget 25 then 25
  else if Js.ge plannedAmount 25 && Js.lt plannedAmount 50 then
    Js.min 49.99 plannedAmount
  else plannedAmount.

(** Lines 77-78 of the planner: the adjustment, then the clamp. *)
Definition adjustSpend (plannedAmount remainingBudget : Q) : Q :=
  Js.min (optimizeSpendForCoupon plannedAmount remainingBudget)
         remainingBudget.

(** ** Arrays *)

(** [Array.prototype.indexOf] on an array of object references: the first
    position holding [x], or [-1]. *)
Fixpoint indexOf (l : list ref) (x : ref) : Z :=
  match l with
  | [] => -1
  | y :: l' =>
      if decide (y = x) then 0
      else let i := indexOf l' x in
           if (i <? 0)%Z then -1 else i + 1
  end%Z.

(** [l.splice (start, 1)], for its effect on [l]: a negative [start] counts
    from the end, and a start past the end removes nothing. *)
Definition splice1 {A} (l : list A) (start : Z) : list A :=
  let len := Z.of_nat (length l) in
  let s := if (start <? 0)%Z then Z.max (len + start) 0
           else Z.min start len in
  delete (Z.to_nat s) l.

(** [l.sort (cmp)]: the sort of the language is stable; a comparator result
    above zero puts the second argument first. *)
Fixpoint insertBy {A} (cmp : A -> A -> Q) (x : A) (l : list A) : list A :=
  match l with
  | [] => [x]
  | y :: l' => if Js.gt (cmp x y) 0 then y :: insertBy cmp x l'
               else x :: y :: l'
  end.

Definition sortBy {A} (cmp : A -> A -> Q) (l : list A) : list A :=
  foldr (insertBy cmp) [] l.

(** ** The planner state: the local variables of [optimizeShoppingPlan] *)

Record PlanState : Set := mkState {
  heap : list Coupon;             (* the coupon objects created so far *)
  entries : list ShoppingEntry;
  activeCoupons : list ref;
  totalSpend : Q;
  totalSavings : Q;
  missedSavings : Q;
  couponsEarned : nat;
  couponsUsed : nat;
  entryId : nat
}.

Definition initialState : PlanState :=
  {| heap := []; entries := []; activeCoupons := [];
     totalSpend := 0; totalSavings := 0; missedSavings := 0;
     couponsEarned := 0; couponsUsed := 0; entryId := 0 |}.

(** [c.value] through a reference.  A reference held by the planner always
    resolves (see [active_valid] below); the [None] branches here and in the
    tests that follow are never taken. *)
Definition valueOf (h : list Coupon) (r : ref) : Q :=
  match h !! r with Some c => value c | None => 0 end.

(** Lines 38-43: the expiry sweep. *)
Definition isExpiredUnused (h : list Coupon) (entryDate : Date) (r : ref)
  : bool :=
  match h !! r with
  | Some c => (validUntil c <? entryDate)%Z && negb (used c)
  | None => false
  end.

Definition dropExpired (st : PlanState) (r : ref) : PlanState :=
  {| heap := heap st;
     entries := entries st;
     activeCoupons :=
       splice1 (activeCoupons st) (indexOf (activeCoupons st) r);
     totalSpend := totalSpend st;
     totalSavings := totalSavings st;
     missedSavings := missedSavings st + valueOf (heap st) r;
     couponsEarned := couponsEarned st;
     couponsUsed := couponsUsed st;
     entryId := entryId st |}.

Definition removeExpired (entryDate : Date) (st : PlanState) : PlanState :=
  let expiredCoupons :=
    List.filter (isExpiredUnused (heap st) entryDate) (activeCoupons st) in
  fold_left dropExpired expiredCoupons st.

(** Lines 46-51: the coupons usable on [entryDate], best first. *)
Definition isUsable (h : list Coupon) (entryDate : Date) (r : ref) : bool :=
  match h !! r with
  | Some c => negb (used c) && (validFrom c <=? entryDate)%Z
              && (entryDate <=? validUntil c)%Z
  | None => false
  end.

Definition compareCoupons (h : list Coupon) (a b : ref) : Q :=
  match h !! a, h !! b with
  | Some ca, Some cb =>
      if Js.neq (value ca) (value cb) then value cb - value ca
      else inject_Z (validUntil ca - validUntil cb)
  | _, _ => 0
  end.

Definition usableCoupons (entryDate : Date) (st : PlanState) : list ref :=
  sortBy (compareCoupons (heap st))
         (List.filter (isUsable (heap st) entryDate) (activeCoupons st)).

(** Lines 55-57: what the entries dated within the week already plan. *)
Definition spentInWeek (weekStartDate : Date) (es : list ShoppingEntry) : Q :=
  fold_left (fun sum e => sum + plannedAmount e)
    (List.filter
       (fun e => (weekStartDate <=? date e)%Z
                 && (date e <? weekStartDate + 7)%Z) es)
    0.

(** Lines 60-74: try to apply the best available coupon. *)
Record Redemption : Set := mkRedemption {
  red_amount : Q;
  red_coupon : option ref;
  red_savings : Q;
  red_state : PlanState
}.

Definition markUsed (entryDate : Date) (c : Coupon) : Coupon :=
  {| id := id c; type := type c; value := value c; minSpend := minSpend c;
     earnedDate := earnedDate c; validFrom := validFrom c;
     validUntil := validUntil c;
     used := true; usedDate := Some entryDate |}.

Definition redeem (entryDate : Date) (plannedAmount : Q) (st : PlanState)
  : Redemption :=
  let none := mkRedemption plannedAmount None 0 st in
  match usableCoupons entryDate st with
  | [] => none
  | bestCoupon :: _ =>
      match heap st !! bestCoupon with
      | Some c =>
          if Js.ge plannedAmount (minSpend c) then
            {| red_amount := Js.max plannedAmount (minSpend c);
               red_coupon := Some bestCoupon;
               red_savings := value c;
               red_state :=
                 {| heap := <[bestCoupon := markUsed entryDate c]> (heap st);
                    entries := entries st;
                    activeCoupons := activeCoupons st;
                    totalSpend := totalSpend st;
                    totalSavings := totalSavings st;
                    missedSavings := missedSavings st;
                    couponsEarned := couponsEarned st;
                    couponsUsed := S (couponsUsed st);
                    entryId := entryId st |} |}
          else none
      | None => none
      end
  end.

(** Lines 80-100: earn a coupon if the spend qualifies, record the entry and
    add it to the totals. *)
Definition recordShop (rnd : nat -> string) (entryDate : Date)
  (plannedAmount : Q) (couponUsed : option ref) (savings : Q)
  (st : PlanState) : PlanState :=
  let earned :=
    getCouponEarned (rnd (length (heap st))) plannedAmount entryDate in
  let couponEarned :=
    match earned with Some _ => Some (length (heap st)) | None => None end in
  let entry :=
    {| entry_id := entryId st;
       date := entryDate;
       plannedAmount := Js.round2 plannedAmount;
       couponEarned := couponEarned;
       couponUsed := couponUsed;
       savings := savings;
       status := planned |} in
  {| heap := match earned with Some c => heap st ++ [c] | None => heap st end;
     entries := entries st ++ [entry];
     activeCoupons :=
       match couponEarned with
       | Some r => activeCoupons st ++ [r]
       | None => activeCoupons st
       end;
     totalSpend := totalSpend st + plannedAmount;
     totalSavings := totalSavings st + savings;
     missedSavings := missedSavings st;
     couponsEarned :=
       match earned with
       | Some _ => S (couponsEarned st)
       | None => couponsEarned st
       end;
     couponsUsed := couponsUsed st;
     entryId := S (entryId st) |}.

(** ** [optimizeShoppingPlan] *)

Module Result.
Record t : Set := mk {
  coupons : list Coupon;     (* the coupon objects the entries point to *)
  entries : list ShoppingEntry;
  totalSpend : Q;
  totalSavings : Q;
  missedSavings : Q;
  couponsEarned : nat;
  couponsUsed : nat
}.
End Result.

(** Lines 108-115: the value returned. *)
Definition resultOf (st : PlanState) : Result.t :=
  {| Result.coupons := heap st;
     Result.entries := entries st;
     Result.totalSpend := Js.round2 (totalSpend st);
     Result.totalSavings := Js.round2 (totalSavings st);
     Result.missedSavings := Js.round2 (missedSavings st);
     Result.couponsEarned := couponsEarned st;
     Result.couponsUsed := couponsUsed st |}.

Section Planner.

Variable weeklyBudget : Q.
Variable startDate : Date.
Variable rnd : nat -> string.

Definition totalBudget : Q := weeklyBudget * 10.

(** Line 34.  [shopsThisWeek - 1] is zero only when [shopInWeek] is. *)
Definition dayOffset (shopsThisWeek shopInWeek : nat) : Z :=
  if (shopInWeek =? 0)%nat then 0%Z
  else (6 / (Z.of_nat shopsThisWeek - 1) * Z.of_nat shopInWeek)%Z.

(** The body of the inner loop, lines 32-100. *)
Definition planShop (weekStartDate : Date) (weeklyAmount : Q)
  (shopsThisWeek shopInWeek : nat) (st : PlanState) : PlanState :=
  let entryDate := (weekStartDate + dayOffset shopsThisWeek shopInWeek)%Z in
  let st := removeExpired entryDate st in
  let remainingBudget := totalBudget - totalSpend st in
  let remainingWeeklyAmount :=
    weeklyAmount - spentInWeek weekStartDate (entries st) in
  let plannedAmount :=
    remainingWeeklyAmount
    / inject_Z (Z.of_nat shopsThisWeek - Z.of_nat shopInWeek) in
  let red := redeem entryDate plannedAmount st in
  let plannedAmount := adjustSpend (red_amount red) remainingBudget in
  recordShop rnd entryDate plannedAmount (red_coupon red) (red_savings red)
    (red_state red).

(** The inner loop: [todo] iterations remain, the next one is
    [shopInWeek]. *)
Fixpoint planShops (weekStartDate : Date) (weeklyAmount : Q)
  (shopsThisWeek todo shopInWeek : nat) (st : PlanState) : PlanState :=
  match todo with
  | O => st
  | S todo' =>
      let st := planShop weekStartDate weeklyAmount shopsThisWeek
                  shopInWeek st in
      if Js.ge (totalSpend st) totalBudget then st
      else planShops weekStartDate weeklyAmount shopsThisWeek todo'
             (S shopInWeek) st
  end.

(** The outer loop, lines 22-106. *)
Fixpoint planWeeks (todo week : nat) (st : PlanState) : PlanState :=
  match todo with
  | O => st
  | S todo' =>
      let weekStartDate := (startDate + Z.of_nat week * 7)%Z in
      let weeklyAmount :=
        Js.min weeklyBudget (totalBudget - totalSpend st) in
      if Js.le weeklyAmount 0 then st
      else
        let shopsThisWeek := determineOptimalShopsPerWeek weeklyAmount in
        let st := planShops weekStartDate weeklyAmount shopsThisWeek
                    shopsThisWeek 0 st in
        if Js.ge (totalSpend st) totalBudget then st
        else planWeeks todo' (S week) st
  end.

Definition finalState : PlanState := planWeeks 10 0 initialState.

Definition optimizeShoppingPlan : Result.t := resultOf finalState.

End Planner.

(** ** Observations on a plan, used to state its properties *)

Definition sumPlanned (es : list ShoppingEntry) : Q :=
  foldr (fun e acc => plannedAmount e + acc) 0 es.

Definition sumSavings (es : list ShoppingEntry) : Q :=
  foldr (fun e acc => savings e + acc) 0 es.

Definition countUsed (h : list Coupon) : nat :=
  length (List.filter used h).

Definition redeemedRefs (es : list ShoppingEntry) : list ref :=
  omap couponUsed es.

Definition earnedRefs (es : list ShoppingEntry) : list ref :=
  omap couponEarned es.

#[local] Instance Qle_decision (a b : Q) : Decision (a <= b) :=
  match Qlt_le_dec b a with
  | left H => right (Qlt_not_le _ _ H)
  | right H => left H
  end.

#[local] Instance Qlt_decision (a b : Q) : Decision (a < b) :=
  match Qlt_le_dec a b with
  | left H => left H
  | right H => right (Qle_not_lt _ _ H)
  end.

(** The threshold-seeking adjustment as the specification words it: five
    cases tried in order, then the clamp to the remaining overall budget. *)
Definition thresholdSeeking (s r : Q) : Q :=
  let nudged :=
    if decide (45 <= s /\ s < 50 /\ 50 <= r) then 50
    else if decide (50 <= s) then Qmax 50 s
    else if decide (20 <= s /\ s < 25 /\ 25 <= r) then 25
    else if decide (25 <= s /\ s < 50) then Qmin 49.99 s
    else s in
  Qmin nudged r.

(** ** Notions used to state and prove the properties *)

(** The total value of the coupons a list of references points to. *)
Definition sumValue (h : list Coupon) (rs : list ref) : Q :=
  foldr (fun r acc => valueOf h r + acc) 0 rs.

(** Setting [used] and [usedDate] on the coupon behind [r]. *)
Definition useCoupon (d : Date) (r : ref) (c : Coupon) (st : PlanState)
  : PlanState :=
  {| heap := <[r := markUsed d c]> (heap st);
     entries := entries st;
     activeCoupons := activeCoupons st;
     totalSpend := totalSpend st;
     totalSavings := totalSavings st;
     missedSavings := missedSavings st;
     couponsEarned := couponsEarned st;
     couponsUsed := S (couponsUsed st);
     entryId := entryId st |}.

(** The coupons no longer in the active array. *)
Definition removedRefs (st : PlanState) : list ref :=
  List.filter (fun r => bool_decide (r ∉ activeCoupons st))
              (seq 0 (length (heap st))).

Definition tierOk (c : Coupon) : Prop :=
  (value c = 5 /\ minSpend c = 25) \/ (value c = 10 /\ minSpend c = 50).

(** What holds of the local variables between two statements of the loop
    body; [pending] is the coupon just marked used whose entry is not yet
    pushed. *)
Record InvP (pending : option ref) (st : PlanState) : Prop := mkInv {
  active_valid :
    Forall (fun r => (r < length (heap st))%nat) (activeCoupons st);
  active_nodup : NoDup (activeCoupons st);
  used_active :
    forall r c, heap st !! r = Some c -> used c = true ->
                r ∈ activeCoupons st;
  tiers : Forall tierOk (heap st);
  earned_count : couponsEarned st = length (heap st);
  earned_refs : earnedRefs (entries st) = seq 0 (length (heap st));
  used_count : couponsUsed st = countUsed (heap st);
  used_entries :
    couponsUsed st = length (redeemedRefs (entries st) ++ option_list pending);
  redeemed_nodup :
    NoDup (redeemedRefs (entries st) ++ option_list pending);
  redeemed_used :
    forall r, r ∈ redeemedRefs (entries st) ++ option_list pending
              <-> exists c, heap st !! r = Some c /\ used c = true;
  savings_sum : totalSavings st == sumSavings (entries st);
  savings_whole : exists k : Z, totalSavings st == inject_Z k;
  spend_sum :
    sumPlanned (entries st)
      - inject_Z (Z.of_nat (length (entries st))) * 0.005
    <= totalSpend st
    /\ totalSpend st
       <= sumPlanned (entries st)
          + inject_Z (Z.of_nat (length (entries st))) * 0.005;
  missed_sum : missedSavings st == sumValue (heap st) (removedRefs st)
}.

Definition Inv : PlanState -> Prop := InvP None.

(** The tentative spend of a shop, line 59, read in the swept state. *)
Definition tentative (ws : Date) (wa : Q) (shops i : nat) (st : PlanState)
  : Q :=
  (wa - spentInWeek ws (entries st))
  / inject_Z (Z.of_nat shops - Z.of_nat i).

(** [a] is at least as good a coupon to redeem as [b]: a higher value, or
    the same value and an expiry that is not later. *)
Definition notWorse (h : list Coupon) (a b : ref) : Prop :=
  exists ca cb,
    h !! a = Some ca /\ h !! b = Some cb
    /\ (value cb < value ca
        \/ (value ca == value cb /\ (validUntil ca <= validUntil cb)%Z)).

(** Every entry that redeems a coupon plans at least its minimum spend. *)
Definition redeemedMeetMinimum (st : PlanState) : Prop :=
  forall e, e ∈ entries st ->
  forall r, couponUsed e = Some r ->
  exists c, heap st !! r = Some c /\ minSpend c <= plannedAmount e.

Definition datedBefore (limit : Date) (st : PlanState) : Prop :=
  forall e, e ∈ entries st -> (date e < limit)%Z.

(** The remaining overall budget covers a tier minimum that the tentative
    spend reaches. *)
Definition covers (weeklyBudget : Q) (ws : Date) (wa : Q) (shops i : nat)
  (st : PlanState) : Prop :=
  forall m, m = 25 \/ m = 50 ->
            m <= tentative ws wa shops i st ->
            m <= totalBudget weeklyBudget - totalSpend st.

(** Blank the random suffix of a coupon's identifier. *)
Definition eraseId (c : Coupon) : Coupon :=
  {| id := mkCouponId (id_type (id c)) (id_time (id c)) EmptyString;
     type := type c; value := value c; minSpend := minSpend c;
     earnedDate := earnedDate c; validFrom := validFrom c;
     validUntil := validUntil c; used := used c; usedDate := usedDate c |}.

Definition eraseState (st : PlanState) : PlanState :=
  {| heap := eraseId <$> heap st;
     entries := entries st;
     activeCoupons := activeCoupons st;
     totalSpend := totalSpend st;
     totalSavings := totalSavings st;
     missedSavings := missedSavings st;
     couponsEarned := couponsEarned st;
     couponsUsed := couponsUsed st;
     entryId := entryId st |}.

Definition eraseRedemption (r : Redemption) : Redemption :=
  {| red_amount := red_amount r; red_coupon := red_coupon r;
     red_savings := red_savings r; red_state := eraseState (red_state r) |}.

Definition eraseResult (r : Result.t) : Result.t :=
  {| Result.coupons := eraseId <$> Result.coupons r;
     Result.entries := Result.entries r;
     Result.totalSpend := Result.totalSpend r;
     Result.totalSavings := Result.totalSavings r;
     Result.missedSavings := Result.missedSavings r;
     Result.couponsEarned := Result.couponsEarned r;
     Result.couponsUsed := Result.couponsUsed r |}.

(** The oracle that always answers the empty suffix. *)
Definition blank : nat -> string := fun _ => EmptyString.

(** Every coupon object carries the identifier it was created with. *)
Definition idsAsCreated (rnd : nat -> string) (st : PlanState) : Prop :=
  forall x c, heap st !! x = Some c ->
              id c = mkCouponId (type c) (earnedDate c) (rnd x).

(** What a run shows: per entry the date, the planned amount, the coupon
    earned, the coupon redeemed and the savings, then the totals. *)
Record Row : Set := row {
  row_date : Z;
  row_amount : Q;
  row_earned : option nat;
  row_used : option nat;
  row_savings : Q
}.

Record View : Set := mkView {
  rows : list Row;
  view_totalSpend : Q;
  view_totalSavings : Q;
  view_missedSavings : Q;
  view_couponsEarned : nat;
  view_couponsUsed : nat
}.

Definition view (r : Result.t) : View :=
  {| rows :=
       List.map
         (fun e => row (date e) (Qred (plannedAmount e)) (couponEarned e)
                       (couponUsed e) (Qred (savings e)))
         (Result.entries r);
     view_totalSpend := Qred (Result.totalSpend r);
     view_totalSavings := Qred (Result.totalSavings r);
     view_missedSavings := Qred (Result.missedSavings r);
     view_couponsEarned := Result.couponsEarned r;
     view_couponsUsed := Result.couponsUsed r |}.

(** ** What is known when the planner reaches a shop *)

(** The facts that hold each time the inner loop body runs: the state
    invariants, the remaining budget covering the tier minima, the earlier
    entries dated before this shop, the week and slot of the shop, and the
    bounds on the weekly amount and on the tentative spend. *)
Record ShopContext (weeklyBudget : Q) (startDate ws : Date) (wa : Q)
  (shops i : nat) (st : PlanState) : Prop := mkShopContext {
  ctx_inv : Inv st;
  ctx_covers : covers weeklyBudget ws wa shops i st;
  ctx_dated : datedBefore (ws + dayOffset shops i)%Z st;
  ctx_week :
    exists w : nat, (w < 10)%nat /\ ws = (startDate + Z.of_nat w * 7)%Z;
  ctx_slot : (i < shops)%nat /\ (shops <= 2)%nat;
  ctx_amount : 0 < wa /\ wa <= weeklyBudget;
  ctx_tentative :
    0 < tentative ws wa shops i st /\ tentative ws wa shops i st <= wa;
  ctx_remaining : 0 < totalBudget weeklyBudget - totalSpend st
}.

(** The entries so far are numbered from zero, all planned, dated on the
    first or the seventh day of one of the ten weeks, in strictly increasing
    order of date. *)
Definition scheduled (startDate : Date) (st : PlanState) : Prop :=
  entryId st = length (entries st)
  /\ (forall k e, entries st !! k = Some e ->
        entry_id e = k /\ status e = planned
        /\ exists w : nat,
             (w < 10)%nat
             /\ (date e = startDate + Z.of_nat w * 7
                 \/ date e = startDate + Z.of_nat w * 7 + 6)%Z)
  /\ (forall j k ej ek,
        (j < k)%nat -> entries st !! j = Some ej ->
        entries st !! k = Some ek -> (date ej < date ek)%Z).

(** ** Callers of the planner

    The components that consume the plan, modelled as far as they compute
    on it. *)

(** [CalendarView], [getEntriesForDate]: the entries shown in one day
    cell.  [isSameDay] on whole days is equality. *)
Module CalendarView.
Definition getEntriesForDate (entries : list ShoppingEntry) (d : Date) :
  list ShoppingEntry :=
  List.filter (fun entry => (date entry =? d)%Z) entries.
End CalendarView.


(** What one run of the loop body (lines 41-100) does to the state, [e]
    being the entry it pushes: [d] is the date of the shop, [p] the
    tentative spend, [f] the adjusted spend, [earned] the coupon the
    spend earns. *)
Record ShopStep (d : Date) (p f : Q) (earned : option Coupon)
  (st st' : PlanState) (e : ShoppingEntry) : Prop := mkShopStep {
  step_entries : entries st' = entries st ++ [e];
  step_date : date e = d;
  step_amount : plannedAmount e = Js.round2 f;
  step_earned :
    couponEarned e
    = match earned with Some _ => Some (length (heap st)) | None => None end;
  step_used :
    match couponUsed e with
    | None =>
        savings e = 0
        /\ heap st' = heap st ++ option_list earned
        /\ couponsUsed st' = couponsUsed st
    | Some x =>
        exists c,
          heap st !! x = Some c /\ x ∈ activeCoupons st
          /\ used c = false
          /\ (validFrom c <= d)%Z /\ (d <= validUntil c)%Z
          /\ minSpend c <= p
          /\ savings e = value c
          /\ heap st' = <[x := markUsed d c]> (heap st) ++ option_list earned
          /\ couponsUsed st' = S (couponsUsed st)
    end;
  step_totalSpend : totalSpend st' = totalSpend st + f;
  step_totalSavings : totalSavings st' = totalSavings st + savings e;
  step_couponsEarned :
    couponsEarned st'
    = match earned with
      | Some _ => S (couponsEarned st)
      | None => couponsEarned st
      end
}.

(** A coupon as [createCoupon] built it, marked used since or not; a used
    one carries the day of its use, within its validity window. *)
Definition couponOk (c : Coupon) : Prop :=
  exists sfx t D,
    c = createCoupon sfx t D
    \/ exists d, c = markUsed d (createCoupon sfx t D)
                 /\ (D + 1 <= d)%Z
                 /\ (d <= D + 1 + validDays (COUPON_RULES t))%Z.

(** The references of an entry resolve to the coupon earned on its day and
    to the coupon used on its day, whose value is the saving. *)
Definition entryLinked (h : list Coupon) (e : ShoppingEntry) : Prop :=
  (forall x, couponEarned e = Some x ->
     exists c, h !! x = Some c /\ earnedDate c = date e)
  /\ match couponUsed e with
     | None => savings e = 0
     | Some x =>
         exists c, h !! x = Some c /\ used c = true
                   /\ usedDate c = Some (date e) /\ savings e = value c
     end.

Definition lifecycle (st : PlanState) : Prop :=
  Forall couponOk (heap st) /\ Forall (entryLinked (heap st)) (entries st).

(** The coupon an entry earns goes by the amount it records. *)
Definition earnsByAmount (h : list Coupon) (e : ShoppingEntry) : Prop :=
  match couponEarned e with
  | Some x =>
      exists c,
        h !! x = Some c
        /\ ((type c = large /\ 50 <= plannedAmount e)
            \/ (type c = small /\ 25 <= plannedAmount e
                /\ plannedAmount e <= 49.99))
  | None => plannedAmount e <= 25
  end.

(** An entry that uses a coupon earns one worth at least as much. *)
Definition redeemerEarns (h : list Coupon) (e : ShoppingEntry) : Prop :=
  forall x, couponUsed e = Some x ->
    exists cx y cy,
      h !! x = Some cx /\ couponEarned e = Some y /\ h !! y = Some cy
      /\ value cx <= value cy.

Definition tiered (st : PlanState) : Prop :=
  Forall (earnsByAmount (heap st)) (entries st)
  /\ Forall (redeemerEarns (heap st)) (entries st)
  /\ ((couponsUsed st < couponsEarned st)%nat
      \/ (couponsEarned st = 0%nat /\ couponsUsed st = 0%nat))
  /\ 0 <= totalSavings st
  /\ totalSavings st * 5 <= totalSpend st.

(** [SavingsSummary]: the two percentages of lines 19-21 and the
    conditions of the two tips (lines 102 and 112). *)
Module SavingsSummary.


Definition efficiency (result : Result.t) : Q :=
  if (0 <? Result.couponsEarned result)%nat then
    inject_Z (Z.of_nat (Result.couponsUsed result))
    / inject_Z (Z.of_nat (Result.couponsEarned result)) * 100
  else 0.

Definition showsMissedTip (result : Result.t) : bool :=
  Js.gt (Result.missedSavings result) 0.

Definition showsPraise (result : Result.t) : bool :=
  Js.ge (efficiency result) 80.

End SavingsSummary.

(** No coupon was redeemed so far. *)
Definition nothingRedeemed (st : PlanState) : Prop :=
  couponsUsed st = 0%nat
  /\ totalSavings st == 0
  /\ Forall (fun e => couponUsed e = None /\ savings e = 0) (entries st).

(** [App], [getAllCoupons] (lines 65-77 of [App.tsx]): the coupon objects
    the entries of the current plan earned, in the order of the entries;
    empty without a plan. *)
Module App.
Definition getAllCoupons (optimizationResult : option Result.t)
  : list Coupon :=
  match optimizationResult with
  | None => []
  | Some result =>
      omap (fun entry =>
              match couponEarned entry with
              | Some r => Result.coupons result !! r
              | None => None
              end)
           (Result.entries result)
  end.
End App.

(** [CouponTracker]: the four buckets of lines 20-23 and the styling of a
    coupon card (lines 28-49).  [today] is the [new Date()] of the render;
    dates are compared as in the source, by their time values.
    [differenceInDays] is the function of date-fns. *)
Module CouponTracker.

Inductive Icon : Set := CheckCircle | XCircle | Clock | AlertTriangle | Gift.

Section Tracker.

Variable differenceInDays : Date -> Date -> Z.
Variable today : Date.

Definition isActive (c : Coupon) : bool :=
  negb (used c) && (validFrom c <=? today)%Z && (today <=? validUntil c)%Z.
Definition isUpcoming (c : Coupon) : bool :=
  negb (used c) && (today <? validFrom c)%Z.
Definition isExpired (c : Coupon) : bool :=
  negb (used c) && (validUntil c <? today)%Z.

Definition activeCoupons (coupons : list Coupon) : list Coupon :=
  List.filter isActive coupons.
Definition upcomingCoupons (coupons : list Coupon) : list Coupon :=
  List.filter isUpcoming coupons.
Definition usedCoupons (coupons : list Coupon) : list Coupon :=
  List.filter used coupons.
Definition expiredCoupons (coupons : list Coupon) : list Coupon :=
  List.filter isExpired coupons.

Definition getCouponStatusColor (coupon : Coupon) : string :=
  if used coupon then "border-green-300 bg-green-50"
  else if (validUntil coupon <? today)%Z then "border-red-300 bg-red-50"
  else if (today <? validFrom coupon)%Z then "border-blue-300 bg-blue-50"
  else
    let daysLeft := differenceInDays (validUntil coupon) today in
    if (daysLeft <=? 2)%Z then "border-orange-300 bg-orange-50"
    else "border-green-300 bg-green-50".

(** The icon component and its class. *)
Definition getCouponIcon (coupon : Coupon) : Icon * string :=
  if used coupon then (CheckCircle, "w-5 h-5 text-green-600"%string)
  else if (validUntil coupon <? today)%Z then
    (XCircle, "w-5 h-5 text-red-600"%string)
  else if (today <? validFrom coupon)%Z then
    (Clock, "w-5 h-5 text-blue-600"%string)
  else
    let daysLeft := differenceInDays (validUntil coupon) today in
    if (daysLeft <=? 2)%Z then (AlertTriangle, "w-5 h-5 text-orange-600"%string)
    else (Gift, "w-5 h-5 text-green-600"%string).

End Tracker.

End CouponTracker.

(** [ShoppingCalendar], lines 16-36: the colour and the icon of an entry.
    [isPast] and [isToday] are the functions of date-fns, read at the time
    of the render. *)
Module ShoppingCalendar.

Inductive Icon : Set := CheckCircle | AlertCircle | Clock | Calendar.

(** [s === t] on a status *)
Definition Status_eqb (s t : Status) : bool :=
  match s, t with
  | planned, planned | completed, completed | missed, missed => true
  | _, _ => false
  end.

Section Calendar.

Variable isPast : Date -> bool.
Variable isToday : Date -> bool.

Definition getEntryStatusColor (entry : ShoppingEntry) : string :=
  if Status_eqb (status entry) completed then
    "bg-green-100 border-green-300"
  else if Status_eqb (status entry) missed then
    "bg-red-100 border-red-300"
  else if isPast (date entry) && Status_eqb (status entry) planned then
    "bg-orange-100 border-orange-300"
  else if isToday (date entry) then "bg-blue-100 border-blue-300"
  else "bg-white border-gray-200".

Definition getStatusIcon (entry : ShoppingEntry) : Icon * string :=
  if Status_eqb (status entry) completed then
    (CheckCircle, "w-5 h-5 text-green-600"%string)
  else if Status_eqb (status entry) missed then
    (AlertCircle, "w-5 h-5 text-red-600"%string)
  else if isPast (date entry) && Status_eqb (status entry) planned then
    (Clock, "w-5 h-5 text-orange-600"%string)
  else if isToday (date entry) then
    (Calendar, "w-5 h-5 text-blue-600"%string)
  else (Calendar, "w-5 h-5 text-gray-400"%string).

End Calendar.

End ShoppingCalendar.

(** [BudgetInput], [handleSubmit] (lines 18-43).  The argument is what
    [parseFloat] made of the text typed, [None] for [NaN]; the outcome is
    the error set or the budget handed to [onBudgetSet]. *)
Module BudgetInput.

Inductive Error : Set :=
  | InvalidAmount   (* 'Please enter a valid budget amount' *)
  | TooLow          (* 'Budget should be at least 20 per week' *)
  | TooHigh.        (* 'Budget seems too high. Please check the amount' *)

Inductive Outcome : Set :=
  | setError (e : Error)
  | onBudgetSet (budget : Q).

Definition handleSubmit (budgetNum : option Q) : Outcome :=
  match budgetNum with
  | None => setError InvalidAmount
  | Some n =>
      if Js.le n 0 then setError InvalidAmount
      else if Js.lt n 20 then setError TooLow
      else if Js.gt n 500 then setError TooHigh
      else onBudgetSet n
  end.

End BudgetInput.

(** ** Moving a plan in time

    Every date of a coupon, an entry, a state or a result moved by [k]
    days; the date in a coupon's identifier moves along. *)
Definition shiftCoupon (k : Z) (c : Coupon) : Coupon :=
  {| id := mkCouponId (id_type (id c)) (id_time (id c) + k)%Z
             (id_random (id c));
     type := type c; value := value c; minSpend := minSpend c;
     earnedDate := (earnedDate c + k)%Z;
     validFrom := (validFrom c + k)%Z;
     validUntil := (validUntil c + k)%Z;
     used := used c;
     usedDate := (fun d => (d + k)%Z) <$> usedDate c |}.





(** * Properties *)

(** ** Sample runs *)

Example getCouponEarned_samples :
  type <$> getCouponEarned EmptyString 50 0%Z = Some large
  /\ type <$> getCouponEarned EmptyString 49.99 0%Z = Some small
  /\ type <$> getCouponEarned EmptyString 25 0%Z = Some small
  /\ getCouponEarned EmptyString 24.99 0%Z = None.
Proof. by repeat split. Qed.

Example adjustSpend_samples :
  adjustSpend 48 100 = 50 /\ adjustSpend 48 49 = 48
  /\ adjustSpend 60 100 = 60 /\ adjustSpend 22 100 = 25
  /\ adjustSpend 22 24 = 22 /\ adjustSpend 30 100 = 30
  /\ adjustSpend 49.995 49.995 = 49.99 /\ adjustSpend 10 100 = 10
  /\ adjustSpend 60 55 = 55.
Proof. by repeat split. Qed.

(** 30 a week: one shop a week, a small coupon earned at each and redeemed
    at the next. *)
Example plan_30 :
  view (optimizeShoppingPlan 30 0%Z blank)
  = mkView
      [row 0 30 (Some 0%nat) None 0;
       row 7 30 (Some 1%nat) (Some 0%nat) 5;
       row 14 30 (Some 2%nat) (Some 1%nat) 5;
       row 21 30 (Some 3%nat) (Some 2%nat) 5;
       row 28 30 (Some 4%nat) (Some 3%nat) 5;
       row 35 30 (Some 5%nat) (Some 4%nat) 5;
       row 42 30 (Some 6%nat) (Some 5%nat) 5;
       row 49 30 (Some 7%nat) (Some 6%nat) 5;
       row 56 30 (Some 8%nat) (Some 7%nat) 5;
       row 63 30 (Some 9%nat) (Some 8%nat) 5]
      300 45 0 10 9.
Proof. vm_compute. reflexivity. Qed.

(** 110 a week: two shops of 55 a week, on the first and the seventh day;
    each earns a large coupon and, from the second on, redeems the previous
    one. *)
Example plan_110_first_shops :
  take 3 (rows (view (optimizeShoppingPlan 110 0%Z blank)))
  = [row 0 55 (Some 0%nat) None 0;
     row 6 55 (Some 1%nat) (Some 0%nat) 10;
     row 7 55 (Some 2%nat) (Some 1%nat) 10].
Proof. vm_compute. reflexivity. Qed.

(** 90 a week: shops of 50 and 40.  Only the best coupon usable on the date
    is tried, a large one here, and the tentative spends of 45 and 40 miss
    its minimum; the small coupons are never tried and nothing is ever
    redeemed.  In the second week's first shop the small coupon earned the
    day before would pass [canUseCoupon]. *)
Example plan_90_redeems_nothing :
  Result.couponsUsed (optimizeShoppingPlan 90 0%Z blank) = 0%nat
  /\ Result.couponsEarned (optimizeShoppingPlan 90 0%Z blank) = 20%nat
  /\ Result.missedSavings (optimizeShoppingPlan 90 0%Z blank) == 130
  /\ let st := planWeeks 90 0%Z blank 1 0 initialState in
     usableCoupons 7%Z st = [0; 1]%nat
     /\ tentative 7%Z 90 2 0 st == 45
     /\ (type <$> heap st !! 1%nat) = Some small
     /\ (fun c => canUseCoupon c 45 7%Z) <$> heap st !! 1%nat = Some true.
Proof. vm_compute. by repeat split. Qed.

(** ** Comparisons *)

Module JsFacts.

Lemma ge_spec a b : Js.ge a b = true <-> b <= a.
Proof. apply Qle_bool_iff. Qed.

Lemma le_spec a b : Js.le a b = true <-> a <= b.
Proof. apply Qle_bool_iff. Qed.

Lemma ge_false a b : Js.ge a b = false <-> a < b.
Proof.
  unfold Js.ge. split.
  - intros H. apply Qnot_le_lt. intros Hle.
    apply Qle_bool_iff in Hle. congruence.
  - intros H. destruct (Qle_bool b a) eqn:E; [|reflexivity].
    apply Qle_bool_iff in E. lra.
Qed.

Lemma le_false a b : Js.le a b = false <-> b < a.
Proof. apply ge_false. Qed.

Lemma lt_spec a b : Js.lt a b = true <-> a < b.
Proof.
  unfold Js.lt. rewrite negb_true_iff. apply ge_false.
Qed.

Lemma lt_false a b : Js.lt a b = false <-> b <= a.
Proof.
  unfold Js.lt. rewrite negb_false_iff. apply Qle_bool_iff.
Qed.

Lemma min_case a b : (a <= b /\ Js.min a b = a) \/ (b < a /\ Js.min a b = b).
Proof.
  unfold Js.min. destruct (Js.le a b) eqn:E.
  - left. split; [by apply le_spec | done].
  - right. split; [by apply le_false | done].
Qed.

Lemma max_case a b : (b <= a /\ Js.max a b = a) \/ (a < b /\ Js.max a b = b).
Proof.
  unfold Js.max. destruct (Js.ge a b) eqn:E.
  - left. split; [by apply ge_spec | done].
  - right. split; [by apply ge_false | done].
Qed.

Lemma Qmin_case a b : (a <= b /\ Qmin a b = a) \/ (b < a /\ Qmin a b = b).
Proof.
  unfold Qmin, GenericMinMax.gmin. destruct (a ?= b) eqn:E.
  - left. split; [|done]. apply Qeq_alt in E. lra.
  - left. split; [|done]. apply Qlt_alt in E. lra.
  - right. split; [|done]. by apply Qgt_alt in E.
Qed.

Lemma Qmax_case a b : (b <= a /\ Qmax a b = a) \/ (a < b /\ Qmax a b = b).
Proof.
  unfold Qmax, GenericMinMax.gmax. destruct (a ?= b) eqn:E.
  - left. split; [|done]. apply Qeq_alt in E. lra.
  - right. split; [|done]. by apply Qlt_alt in E.
  - left. split; [|done]. apply Qgt_alt in E. lra.
Qed.

End JsFacts.

(** Turn every boolean comparison in sight into the order fact it decides. *)
Ltac js_cases :=
  repeat match goal with
  | |- context [Js.ge ?a ?b] =>
      let E := fresh "E" in
      destruct (Js.ge a b) eqn:E;
      [apply JsFacts.ge_spec in E | apply JsFacts.ge_false in E]
  | |- context [Js.le ?a ?b] =>
      let E := fresh "E" in
      destruct (Js.le a b) eqn:E;
      [apply JsFacts.le_spec in E | apply JsFacts.le_false in E]
  | |- context [Js.lt ?a ?b] =>
      let E := fresh "E" in
      destruct (Js.lt a b) eqn:E;
      [apply JsFacts.lt_spec in E | apply JsFacts.lt_false in E]
  end.

(** [lra] does not know division: turn a division by a constant into a
    multiplication. *)
Ltac qdiv :=
  unfold Qdiv in *;
  repeat match goal with
  | |- context [/ (?n # ?d)] =>
      let v := eval cbv in (/ (n # d)) in change (/ (n # d)) with v
  | H : context [/ (?n # ?d)] |- _ =>
      let v := eval cbv in (/ (n # d)) in change (/ (n # d)) with v in H
  end.

(** Reduce the projections of a state written out as a record. *)
Ltac fields :=
  cbn [heap entries activeCoupons totalSpend totalSavings missedSavings
       couponsEarned couponsUsed entryId] in *.

(** ** The coupon rules *)

(** C3. [getCouponEarned] classifies a spend by the two thresholds: a large
    coupon exactly from 50 up, a small one exactly on [25, 50), none exactly
    below 25; the coupon returned is the one [createCoupon] builds for that
    tier and date. *)
Theorem getCouponEarned_classifies (sfx : string) (s : Q) (t : Date) :
  (getCouponEarned sfx s t = Some (createCoupon sfx large t) <-> 50 <= s)
  /\ (getCouponEarned sfx s t = Some (createCoupon sfx small t)
      <-> 25 <= s /\ s < 50)
  /\ (getCouponEarned sfx s t = None <-> s < 25)
  /\ (type <$> getCouponEarned sfx s t = Some large <-> 50 <= s)
  /\ (type <$> getCouponEarned sfx s t = Some small <-> 25 <= s /\ s < 50).
Proof.
  unfold getCouponEarned. cbn [COUPON_RULES rule_minSpend].
  js_cases; cbn; repeat split; intros; try discriminate; try lra; try done.
Qed.

(** C4. A coupon built for earn date [D] becomes valid on [D + 1]; it expires
    on [D + 7] when small and on [D + 10] when large, that is 6 and 9 days
    after activation; it starts unused. *)
Theorem createCoupon_dates (sfx : string) (t : CouponType) (D : Date) :
  let c := createCoupon sfx t D in
  validFrom c = (D + 1)%Z
  /\ validUntil c = (match t with small => D + 7 | large => D + 10 end)%Z
  /\ validUntil c
     = (validFrom c + match t with small => 6 | large => 9 end)%Z
  /\ used c = false
  /\ earnedDate c = D /\ type c = t.
Proof.
  destruct t; cbn; repeat split; lia.
Qed.

(** ** Shops per week and the spend adjustment *)

(** C7. The number of shops planned for a week: two from 100 up, two on
    [90, 100), one on [75, 90), one below 75; in short two exactly when the
    weekly amount is at least 90. *)
Theorem determineOptimalShopsPerWeek_cases (w : Q) :
  ((100 <= w /\ determineOptimalShopsPerWeek w = 2%nat)
   \/ (90 <= w /\ w < 100 /\ determineOptimalShopsPerWeek w = 2%nat)
   \/ (75 <= w /\ w < 90 /\ determineOptimalShopsPerWeek w = 1%nat)
   \/ (w < 75 /\ determineOptimalShopsPerWeek w = 1%nat))
  /\ (determineOptimalShopsPerWeek w = 2%nat <-> 90 <= w)
  /\ (determineOptimalShopsPerWeek w = 1%nat <-> w < 90).
Proof.
  unfold determineOptimalShopsPerWeek.
  js_cases;
    (split;
     [ first [ left; split; [lra | reflexivity]
             | right; left; split; [lra | split; [lra | reflexivity]]
             | right; right; left; split; [lra | split; [lra | reflexivity]]
             | right; right; right; split; [lra | reflexivity] ]
     | split; split; intros; first [lra | reflexivity | discriminate] ]).
Qed.

(** C8. The adjustment the planner applies to a tentative spend, lines 77-78,
    is the five-case threshold policy of the specification followed by the
    clamp to the remaining overall budget. *)
Theorem adjustSpend_is_thresholdSeeking (s r : Q) :
  adjustSpend s r = thresholdSeeking s r.
Proof.
  unfold adjustSpend, thresholdSeeking, optimizeSpendForCoupon.
  assert (Hm : forall a, Js.min a r = Qmin a r).
  { intros a. destruct (JsFacts.min_case a r) as [[? ->]|[? ->]];
      destruct (JsFacts.Qmin_case a r) as [[? ->]|[? ->]]; try done; lra. }
  rewrite Hm. f_equal.
  assert (Hmin : Js.min 49.99 s = Qmin 49.99 s).
  { destruct (JsFacts.min_case 49.99 s) as [[? ->]|[? ->]];
      destruct (JsFacts.Qmin_case 49.99 s) as [[? ->]|[? ->]]; try done; lra. }
  assert (Hmax : Js.max 50 s = Qmax 50 s).
  { destruct (JsFacts.max_case 50 s) as [[? ->]|[? ->]];
      destruct (JsFacts.Qmax_case 50 s) as [[? ->]|[? ->]]; try done; lra. }
  rewrite Hmin, Hmax.
  repeat case_decide; js_cases; cbn; try done; exfalso;
    repeat match goal with
    | H : ~ (_ /\ _) |- _ => apply H; clear H; repeat split; lra
    | H : ~ (_ <= _) |- _ => apply H; clear H; lra
    | H : _ /\ _ |- _ => destruct H
    end; lra.
Qed.

(** ** Arrays: [indexOf], [splice] and the stable sort *)

Section ArrayFacts.

Lemma indexOf_app (pre l : list ref) (x : ref) :
  x ∉ pre -> indexOf (pre ++ x :: l) x = Z.of_nat (length pre).
Proof.
  induction pre as [|y pre IH]; intros Hx; cbn [indexOf app length].
  - by rewrite decide_True.
  - apply not_elem_of_cons in Hx as [Hne Hx].
    rewrite decide_False by congruence. rewrite (IH Hx).
    destruct (Z.ltb_spec (Z.of_nat (length pre)) 0); lia.
Qed.

Lemma splice1_at_length {A} (pre l : list A) (x : A) :
  splice1 (pre ++ x :: l) (Z.of_nat (length pre)) = pre ++ l.
Proof.
  unfold splice1. rewrite length_app. cbn [length].
  destruct (Z.ltb_spec (Z.of_nat (length pre)) 0); [lia|].
  rewrite Z.min_l by lia. rewrite Nat2Z.id.
  apply delete_middle.
Qed.

(** What [forEach (c => splice (indexOf c, 1))] over the filtered copy leaves
    of the array: the elements the filter rejected, in order. *)
Lemma splice_filtered (P : ref -> bool) (pre l : list ref) :
  Forall (fun r => P r = false) pre ->
  fold_left (fun a c => splice1 a (indexOf a c)) (List.filter P l) (pre ++ l)
  = pre ++ List.filter (fun r => negb (P r)) l.
Proof.
  revert pre. induction l as [|x l IH]; intros pre Hpre; cbn [List.filter].
  - done.
  - destruct (P x) eqn:Px; cbn [negb fold_left].
    + assert (x ∉ pre) as Hx.
      { intros Hin. rewrite Forall_forall in Hpre.
        specialize (Hpre _ Hin). congruence. }
      rewrite (indexOf_app _ _ _ Hx), splice1_at_length. by apply IH.
    + rewrite (cons_middle x pre l), app_assoc.
      rewrite IH; [by rewrite <- app_assoc|].
      apply Forall_app. split; [done | by constructor].
Qed.

Lemma elem_of_Lfilter {A} (f : A -> bool) (l : list A) (x : A) :
  x ∈ List.filter f l <-> x ∈ l /\ f x = true.
Proof. by rewrite !list_elem_of_In, filter_In. Qed.

Lemma NoDup_Lfilter {A} (f : A -> bool) (l : list A) :
  NoDup l -> NoDup (List.filter f l).
Proof. rewrite !NoDup_ListNoDup. apply List.NoDup_filter. Qed.

Lemma insertBy_elem_of {A} (cmp : A -> A -> Q) (x y : A) (l : list A) :
  y ∈ insertBy cmp x l <-> y = x \/ y ∈ l.
Proof.
  induction l as [|z l IH]; cbn.
  - rewrite list_elem_of_singleton, elem_of_nil. tauto.
  - destruct (Js.gt _ _); rewrite !elem_of_cons; [rewrite IH|]; tauto.
Qed.

Lemma sortBy_elem_of {A} (cmp : A -> A -> Q) (y : A) (l : list A) :
  y ∈ sortBy cmp l <-> y ∈ l.
Proof.
  induction l as [|z l IH]; cbn; [done|].
  rewrite insertBy_elem_of, elem_of_cons, IH. tauto.
Qed.

(** The head of the sorted array comes before or ties with every element,
    when the comparator decides a total preorder [R] on the elements. *)
Lemma sortBy_head {A} (cmp : A -> A -> Q) (R : A -> A -> Prop)
  (D : A -> Prop) (l : list A) :
  (forall a b, D a -> D b -> Js.gt (cmp a b) 0 = false -> R a b) ->
  (forall a b, D a -> D b -> Js.gt (cmp a b) 0 = true -> R b a) ->
  (forall a, D a -> R a a) ->
  (forall a b c, D a -> D b -> D c -> R a b -> R b c -> R a c) ->
  Forall D l ->
  forall h t, sortBy cmp l = h :: t -> forall y, y ∈ l -> R h y.
Proof.
  intros Hle Hgt Hrefl Htrans.
  induction l as [|x l IH]; intros HD h t Hs y Hy.
  - by apply elem_of_nil in Hy.
  - apply Forall_cons in HD as [Dx HD]. specialize (IH HD).
    assert (Dh : forall z, z ∈ sortBy cmp l -> D z).
    { intros z Hz. apply sortBy_elem_of in Hz.
      rewrite Forall_forall in HD. by apply HD. }
    assert (Dy : D y).
    { apply elem_of_cons in Hy as [->|Hy]; [done|].
      rewrite Forall_forall in HD. by apply HD. }
    change (insertBy cmp x (sortBy cmp l) = h :: t) in Hs.
    destruct (sortBy cmp l) as [|h0 s] eqn:Es; cbn in Hs.
    + injection Hs as <- <-.
      apply elem_of_cons in Hy as [->|Hy]; [by apply Hrefl|].
      apply (sortBy_elem_of cmp) in Hy. rewrite Es in Hy.
      by apply elem_of_nil in Hy.
    + assert (Dh0 : D h0) by (apply Dh; left).
      destruct (Js.gt (cmp x h0) 0) eqn:E; injection Hs as <- <-.
      * apply elem_of_cons in Hy as [->|Hy]; [by apply Hgt|].
        by eapply IH.
      * apply elem_of_cons in Hy as [->|Hy]; [by apply Hrefl|].
        apply (Htrans x h0 y); [done..| by apply Hle | by eapply IH].
Qed.

End ArrayFacts.

(** ** The pieces of one shop *)

Section StepFacts.

Lemma fold_dropExpired (E : list ref) (st : PlanState) :
  fold_left dropExpired E st
  = {| heap := heap st;
       entries := entries st;
       activeCoupons :=
         fold_left (fun a c => splice1 a (indexOf a c)) E (activeCoupons st);
       totalSpend := totalSpend st;
       totalSavings := totalSavings st;
       missedSavings :=
         fold_left (fun m r => m + valueOf (heap st) r) E (missedSavings st);
       couponsEarned := couponsEarned st;
       couponsUsed := couponsUsed st;
       entryId := entryId st |}.
Proof.
  revert st. induction E as [|r E IH]; intros st; cbn [fold_left].
  - by destruct st.
  - by rewrite IH.
Qed.

Lemma fold_add_sumValue (h : list Coupon) (E : list ref) (m : Q) :
  fold_left (fun m r => m + valueOf h r) E m == m + sumValue h E.
Proof.
  revert m. induction E as [|r E IH]; intros m; cbn [fold_left sumValue foldr].
  - lra.
  - rewrite IH. fold (sumValue h E). lra.
Qed.

(** The sweep, as a whole: the expired unused coupons leave the active array,
    their values join the missed savings, and nothing else changes. *)
Lemma removeExpired_eq (d : Date) (st : PlanState) :
  removeExpired d st
  = {| heap := heap st;
       entries := entries st;
       activeCoupons :=
         List.filter (fun r => negb (isExpiredUnused (heap st) d r))
                     (activeCoupons st);
       totalSpend := totalSpend st;
       totalSavings := totalSavings st;
       missedSavings :=
         fold_left (fun m r => m + valueOf (heap st) r)
           (List.filter (isExpiredUnused (heap st) d) (activeCoupons st))
           (missedSavings st);
       couponsEarned := couponsEarned st;
       couponsUsed := couponsUsed st;
       entryId := entryId st |}.
Proof.
  unfold removeExpired. rewrite fold_dropExpired. f_equal.
  apply (splice_filtered _ []). constructor.
Qed.

Lemma usableCoupons_elem_of (d : Date) (st : PlanState) (r : ref) :
  r ∈ usableCoupons d st
  <-> r ∈ activeCoupons st /\ isUsable (heap st) d r = true.
Proof.
  unfold usableCoupons. by rewrite sortBy_elem_of, elem_of_Lfilter.
Qed.

Lemma isUsable_inv (h : list Coupon) (d : Date) (r : ref) :
  isUsable h d r = true ->
  exists c, h !! r = Some c /\ used c = false
            /\ (validFrom c <= d)%Z /\ (d <= validUntil c)%Z.
Proof.
  unfold isUsable. destruct (h !! r) as [c|]; [|done].
  intros H. apply andb_true_iff in H as [H H3].
  apply andb_true_iff in H as [H1 H2].
  exists c. repeat split; [by destruct (used c) | lia | lia].
Qed.

(** The two outcomes of lines 60-74. *)
Lemma redeem_cases (d : Date) (p : Q) (st : PlanState) :
  redeem d p st = mkRedemption p None 0 st
  \/ exists best rest c,
       usableCoupons d st = best :: rest
       /\ heap st !! best = Some c
       /\ minSpend c <= p
       /\ redeem d p st
          = mkRedemption p (Some best) (value c) (useCoupon d best c st).
Proof.
  unfold redeem. destruct (usableCoupons d st) as [|best rest] eqn:Eu;
    [by left|].
  destruct (heap st !! best) as [c|] eqn:Ec; [|by left].
  destruct (Js.ge p (minSpend c)) eqn:Ege; [|by left].
  right. exists best, rest, c. repeat split; try done.
  - by apply JsFacts.ge_spec.
  - unfold Js.max. by rewrite Ege.
Qed.

End StepFacts.

(** ** Observations under the updates the planner makes *)

Section ObserverFacts.

Lemma earnedRefs_snoc (es : list ShoppingEntry) (e : ShoppingEntry) :
  earnedRefs (es ++ [e])
  = earnedRefs es ++ match couponEarned e with Some r => [r] | None => [] end.
Proof.
  unfold earnedRefs. rewrite omap_app. cbn. by destruct (couponEarned e).
Qed.

Lemma redeemedRefs_snoc (es : list ShoppingEntry) (e : ShoppingEntry) :
  redeemedRefs (es ++ [e])
  = redeemedRefs es ++ match couponUsed e with Some r => [r] | None => [] end.
Proof.
  unfold redeemedRefs. rewrite omap_app. cbn. by destruct (couponUsed e).
Qed.

Lemma sumSavings_snoc (es : list ShoppingEntry) (e : ShoppingEntry) :
  sumSavings (es ++ [e]) == sumSavings es + savings e.
Proof.
  induction es as [|x es IH]; cbn.
  - lra.
  - fold (sumSavings (es ++ [e])). fold (sumSavings es). lra.
Qed.

Lemma sumPlanned_snoc (es : list ShoppingEntry) (e : ShoppingEntry) :
  sumPlanned (es ++ [e]) == sumPlanned es + plannedAmount e.
Proof.
  induction es as [|x es IH]; cbn.
  - lra.
  - fold (sumPlanned (es ++ [e])). fold (sumPlanned es). lra.
Qed.

Lemma countUsed_snoc (h : list Coupon) (c : Coupon) :
  used c = false -> countUsed (h ++ [c]) = countUsed h.
Proof.
  intros Hc. unfold countUsed. rewrite List.filter_app, length_app.
  cbn. rewrite Hc. cbn. lia.
Qed.

Lemma countUsed_insert (h : list Coupon) (r : ref) (c c' : Coupon) :
  h !! r = Some c -> used c = false -> used c' = true ->
  countUsed (<[r := c']> h) = S (countUsed h).
Proof.
  intros Hr Hc Hc'.
  assert (E : take r h ++ c :: drop (S r) h = h) by by apply take_drop_middle.
  rewrite insert_take_drop by by eapply lookup_lt_Some.
  transitivity (S (countUsed (take r h ++ c :: drop (S r) h)));
    [|by rewrite E].
  unfold countUsed. rewrite !List.filter_app, !length_app. cbn [List.filter].
  rewrite Hc, Hc'. cbn [length]. lia.
Qed.

Lemma valueOf_insert (h : list Coupon) (r r' : ref) (c c' : Coupon) :
  h !! r = Some c -> value c' = value c ->
  valueOf (<[r := c']> h) r' = valueOf h r'.
Proof.
  intros Hr Hv. unfold valueOf.
  destruct (decide (r = r')) as [<-|Hne].
  - rewrite list_lookup_insert_eq by (by eapply lookup_lt_Some).
    by rewrite Hr.
  - by rewrite list_lookup_insert_ne.
Qed.

Lemma valueOf_snoc (h : list Coupon) (c : Coupon) (r : ref) :
  (r < length h)%nat -> valueOf (h ++ [c]) r = valueOf h r.
Proof.
  intros Hr. unfold valueOf. by rewrite lookup_app_l.
Qed.

Lemma sumValue_cons (h : list Coupon) (r : ref) (rs : list ref) :
  sumValue h (r :: rs) = valueOf h r + sumValue h rs.
Proof. reflexivity. Qed.

Lemma sumValue_ext (h h' : list Coupon) (rs : list ref) :
  Forall (fun r => valueOf h' r = valueOf h r) rs ->
  sumValue h' rs = sumValue h rs.
Proof.
  induction 1 as [|r rs Hr _ IH]; [done|].
  by rewrite !sumValue_cons, Hr, IH.
Qed.

Lemma sumValue_app (h : list Coupon) (rs rs' : list ref) :
  sumValue h (rs ++ rs') == sumValue h rs + sumValue h rs'.
Proof.
  induction rs as [|r rs IH].
  - rewrite app_nil_l. change (sumValue h []) with 0. lra.
  - rewrite <- app_comm_cons, !sumValue_cons. lra.
Qed.

Lemma sumValue_perm (h : list Coupon) (rs rs' : list ref) :
  rs ≡ₚ rs' -> sumValue h rs == sumValue h rs'.
Proof.
  induction 1 as [|r rs rs' _ IH|r r' rs|rs1 rs2 rs3 _ IH1 _ IH2];
    rewrite ?sumValue_cons; change (sumValue h []) with 0; lra.
Qed.

(** [Math.round (x * 100) / 100] moves [x] by at most half a cent. *)
Lemma round2_close (x : Q) :
  x - 0.005 <= Js.round2 x /\ Js.round2 x <= x + 0.005.
Proof.
  unfold Js.round2, Js.round.
  pose proof (Qfloor_le (x * 100 + 0.5)) as Hle.
  pose proof (Qlt_floor (x * 100 + 0.5)) as Hlt.
  rewrite inject_Z_plus in Hlt.
  set (f := inject_Z (Qfloor (x * 100 + 0.5))) in *.
  change (inject_Z 1) with 1 in Hlt. clearbody f.
  unfold Qdiv. change (/ 100) with 0.01. lra.
Qed.

Lemma round2_mono (x y : Q) : x <= y -> Js.round2 x <= Js.round2 y.
Proof.
  intros Hxy. unfold Js.round2, Js.round.
  apply Qmult_le_compat_r; [|done].
  rewrite <- Zle_Qle. apply Qfloor_resp_le. lra.
Qed.

End ObserverFacts.

(** ** Invariants of the planner state *)

Section InvFacts.

Lemma Inv_initial : Inv initialState.
Proof.
  split; cbn; try done; try constructor; try lra.
  - by intros ?%elem_of_nil.
  - by intros (c & Hc & _).
  - by exists 0%Z.
Qed.

Lemma isUsable_not_expired (h : list Coupon) (d : Date) (r : ref) :
  isUsable h d r = true -> isExpiredUnused h d r = false.
Proof.
  intros (c & Hc & _ & _ & Hd)%isUsable_inv.
  unfold isExpiredUnused. rewrite Hc.
  apply andb_false_iff. left. lia.
Qed.

Lemma Inv_removeExpired (d : Date) (st : PlanState) :
  Inv st -> Inv (removeExpired d st).
Proof.
  intros [Hval Hnd Hua Ht Hec Her Huc Hue Hrn Hru Hsv Hsw Hsp Hms].
  rewrite removeExpired_eq. split; fields; try done.
  - rewrite Forall_forall in Hval |- *. intros r Hr.
    apply elem_of_Lfilter in Hr as [Hr _]. by apply Hval.
  - by apply NoDup_Lfilter.
  - intros r c Hr Hu. apply elem_of_Lfilter. split.
    + by apply (Hua r c).
    + unfold isExpiredUnused. rewrite Hr, Hu. cbn. by rewrite andb_false_r.
  - unfold removedRefs in Hms |- *. fields.
    set (P := isExpiredUnused (heap st) d).
    set (L := seq 0 (length (heap st))) in *.
    rewrite fold_add_sumValue, Hms, <- sumValue_app.
    apply sumValue_perm. symmetry.
    apply NoDup_Permutation.
    + apply NoDup_Lfilter, NoDup_seq.
    + apply NoDup_app. split; [apply NoDup_Lfilter, NoDup_seq|].
      split; [|by apply NoDup_Lfilter].
      intros x Hx Hx'.
      apply elem_of_Lfilter in Hx as [_ Hx].
      apply elem_of_Lfilter in Hx' as [Hx' _].
      apply bool_decide_eq_true in Hx. by apply Hx.
    + intros x. rewrite elem_of_app.
      repeat (rewrite elem_of_Lfilter || rewrite bool_decide_eq_true).
      rewrite Forall_forall in Hval.
      assert (x ∈ activeCoupons st -> x ∈ L) as HL.
      { intros Hx. subst L. apply elem_of_seq.
        specialize (Hval _ Hx). lia. }
      destruct (decide (x ∈ activeCoupons st)) as [Hin|Hin];
        destruct (P x) eqn:Px; cbn; intuition congruence.
Qed.

Lemma markUsed_tierOk (d : Date) (c : Coupon) :
  tierOk c -> tierOk (markUsed d c).
Proof. done. Qed.

Lemma InvP_useCoupon (d : Date) (best : ref) (c : Coupon) (st : PlanState) :
  Inv st -> best ∈ activeCoupons st -> heap st !! best = Some c ->
  used c = false ->
  InvP (Some best) (useCoupon d best c st).
Proof.
  intros [Hval Hnd Hua Ht Hec Her Huc Hue Hrn Hru Hsv Hsw Hsp Hms] Hin Hc Hu.
  assert (Hlt : (best < length (heap st))%nat) by by eapply lookup_lt_Some.
  change (option_list None) with (@nil nat) in Hrn, Hru, Hue.
  rewrite app_nil_r in Hrn, Hru, Hue.
  unfold useCoupon.
  split; unfold removedRefs in *; fields; rewrite ?length_insert;
    change (option_list (Some best)) with [best]; try done.
  - intros r c' Hr Hu'. destruct (decide (r = best)) as [->|Hne]; [done|].
    rewrite list_lookup_insert_ne in Hr by done. by eapply Hua.
  - apply Forall_insert; [done|]. apply markUsed_tierOk.
    rewrite Forall_forall in Ht. apply Ht. by eapply list_elem_of_lookup_2.
  - rewrite Huc. symmetry. by eapply countUsed_insert.
  - rewrite length_app, Hue. cbn [length]. lia.
  - apply NoDup_app. split; [done|]. split.
    + intros r Hr ->%list_elem_of_singleton.
      apply Hru in Hr as (c' & Hc' & Hu'). congruence.
    + apply NoDup_singleton.
  - intros r. rewrite elem_of_app, list_elem_of_singleton, Hru.
    destruct (decide (r = best)) as [->|Hne].
    + rewrite list_lookup_insert_eq by done. split; [|by right].
      intros _. by exists (markUsed d c).
    + rewrite list_lookup_insert_ne by done. intuition congruence.
  - rewrite Hms.
    rewrite (sumValue_ext (heap st) (<[best:=markUsed d c]> (heap st)));
      [reflexivity|].
    apply Forall_forall. intros r _. by eapply valueOf_insert.
Qed.

Lemma getCouponEarned_inv (sfx : string) (s : Q) (d : Date) (c : Coupon) :
  getCouponEarned sfx s d = Some c ->
  exists t, c = createCoupon sfx t d.
Proof.
  unfold getCouponEarned. repeat case_match; intros [= <-]; eauto.
Qed.

Lemma createCoupon_tierOk (sfx : string) (t : CouponType) (d : Date) :
  tierOk (createCoupon sfx t d).
Proof. destruct t; [by left | by right]. Qed.

Lemma Inv_recordShop (rnd : nat -> string) (d : Date) (f : Q)
  (cu : option ref) (sv : Q) (st : PlanState) :
  InvP cu st -> (exists k : Z, sv == inject_Z k) ->
  Inv (recordShop rnd d f cu sv st).
Proof.
  intros [Hval Hnd Hua Ht Hec Her Huc Hue Hrn Hru Hsv Hsw Hsp Hms] [k Hk].
  assert (Hwhole : exists k' : Z, totalSavings st + sv == inject_Z k').
  { destruct Hsw as [k0 Hk0]. exists (k0 + k)%Z.
    rewrite inject_Z_plus. lra. }
  pose proof (round2_close f) as [Hr1 Hr2].
  assert (Hredeemed :
    forall e, couponUsed e = cu ->
      redeemedRefs (entries st ++ [e]) ++ option_list None
      = redeemedRefs (entries st) ++ option_list cu).
  { intros e He. rewrite redeemedRefs_snoc, He.
    change (option_list None) with (@nil nat). rewrite app_nil_r.
    by destruct cu. }
  assert (Hlen :
    inject_Z (Z.of_nat (length (entries st) + 1))
    == inject_Z (Z.of_nat (length (entries st))) + 1).
  { rewrite Nat2Z.inj_add, inject_Z_plus. reflexivity. }
  unfold recordShop.
  destruct (getCouponEarned _ f d) as [c|] eqn:Ec.
  - apply getCouponEarned_inv in Ec as [t ->].
    set (c := createCoupon _ t d).
    set (n := length (heap st)).
    assert (Hn : n ∉ activeCoupons st).
    { intros Hn. rewrite Forall_forall in Hval.
      specialize (Hval _ Hn). fold n in Hval. lia. }
    split; unfold removedRefs in *; fields;
      rewrite ?Hredeemed by done; try done;
      rewrite ?length_app; cbn [length]; fold n; try done.
    + apply Forall_app. split.
      * eapply Forall_impl; [done|]. cbn. lia.
      * constructor; [lia | constructor].
    + apply NoDup_app. split; [done|]. split; [|apply NoDup_singleton].
      by intros r Hr ->%list_elem_of_singleton.
    + intros r c' Hr Hu. apply elem_of_app. left.
      apply lookup_app_Some in Hr as [Hr|[_ Hr]]; [by eapply Hua|].
      apply list_lookup_singleton_Some in Hr as [_ <-].
      by destruct t.
    + apply Forall_app. split; [done|].
      constructor; [apply createCoupon_tierOk | constructor].
    + rewrite Hec. fold n. lia.
    + rewrite earnedRefs_snoc, Her. cbn [couponEarned]. fold n.
      by rewrite Nat.add_1_r, seq_S.
    + rewrite Huc. symmetry. apply countUsed_snoc. by destruct t.
    + intros r. rewrite Hru. split; intros (c' & Hc' & Hu').
      * exists c'. split; [|done]. by apply lookup_app_l_Some.
      * apply lookup_app_Some in Hc' as [Hr|[_ Hr]]; [by exists c'|].
        apply list_lookup_singleton_Some in Hr as [_ <-]. by destruct t.
    + rewrite sumSavings_snoc. cbn [savings]. lra.
    + rewrite sumPlanned_snoc, Hlen. cbn [plannedAmount]. lra.
    + rewrite Hms. rewrite Nat.add_1_r, seq_S, List.filter_app.
      cbn [List.filter Nat.add].
      rewrite bool_decide_eq_false_2
        by (intros H; apply H, elem_of_app; right; by left).
      rewrite app_nil_r.
      assert (Hf :
        List.filter (fun r => bool_decide (r ∉ activeCoupons st ++ [n]))
                    (seq 0 n)
        = List.filter (fun r => bool_decide (r ∉ activeCoupons st))
                      (seq 0 n)).
      { apply filter_ext_in. intros r Hr%in_seq.
        apply bool_decide_ext. rewrite elem_of_app, list_elem_of_singleton.
        intuition lia. }
      rewrite Hf.
      rewrite (sumValue_ext (heap st) (heap st ++ [c])); [reflexivity|].
      apply Forall_forall. intros r Hr%elem_of_Lfilter.
      destruct Hr as [Hr%elem_of_seq _]. apply valueOf_snoc. fold n. lia.
  - split; unfold removedRefs in *; fields;
      rewrite ?Hredeemed by done; try done;
      rewrite ?length_app; cbn [length]; try done.
    + rewrite earnedRefs_snoc. cbn [couponEarned]. by rewrite app_nil_r.
    + rewrite sumSavings_snoc. cbn [savings]. lra.
    + rewrite sumPlanned_snoc, Hlen. cbn [plannedAmount]. lra.
Qed.

End InvFacts.

(** ** One shop, and lifting an invariant through the two loops *)

Section PlanFacts.

Variable weeklyBudget : Q.
Variable startDate : Date.
Variable rnd : nat -> string.

Lemma planShop_cases (ws : Date) (wa : Q) (shops i : nat) (st : PlanState) :
  let d := (ws + dayOffset shops i)%Z in
  let st0 := removeExpired d st in
  let p := tentative ws wa shops i st0 in
  let f := adjustSpend p (totalBudget weeklyBudget - totalSpend st0) in
  planShop weeklyBudget rnd ws wa shops i st = recordShop rnd d f None 0 st0
  \/ exists best rest c,
       usableCoupons d st0 = best :: rest
       /\ heap st0 !! best = Some c
       /\ minSpend c <= p
       /\ planShop weeklyBudget rnd ws wa shops i st
          = recordShop rnd d f (Some best) (value c)
              (useCoupon d best c st0).
Proof.
  intros d st0 p f. unfold planShop. fold d. fold st0.
  change ((_ - spentInWeek ws (entries st0)) / _) with p.
  destruct (redeem_cases d p st0) as [->|(best & rest & c & Hu & Hc & Hp & ->)].
  - by left.
  - right. by exists best, rest, c.
Qed.

Lemma usable_head (d : Date) (st : PlanState) (best : ref) (rest : list ref) :
  usableCoupons d st = best :: rest ->
  best ∈ activeCoupons st /\ isUsable (heap st) d best = true.
Proof.
  intros Hu. apply usableCoupons_elem_of. rewrite Hu. by left.
Qed.

Lemma Inv_planShop (ws : Date) (wa : Q) (shops i : nat) (st : PlanState) :
  Inv st -> Inv (planShop weeklyBudget rnd ws wa shops i st).
Proof.
  intros HI.
  pose proof (Inv_removeExpired (ws + dayOffset shops i)%Z st HI) as HI0.
  destruct (planShop_cases ws wa shops i st)
    as [->|(best & rest & c & Hu & Hc & Hp & ->)].
  - apply Inv_recordShop; [done | by exists 0%Z].
  - apply Inv_recordShop.
    + apply usable_head in Hu as [Hin Hus].
      apply isUsable_inv in Hus as (c' & Hc' & Hunused & _).
      apply InvP_useCoupon; [done..|congruence].
    + apply tiers in HI0. rewrite Forall_forall in HI0.
      destruct (HI0 c) as [[-> _]|[-> _]];
        [by eapply list_elem_of_lookup_2 | by exists 5%Z | by exists 10%Z].
Qed.

(** A property of the state kept by every shop holds when the loops end. *)
Lemma planShops_preserves (I : PlanState -> Prop) :
  (forall ws wa shops i st,
     I st -> I (planShop weeklyBudget rnd ws wa shops i st)) ->
  forall ws wa shops todo i st,
    I st -> I (planShops weeklyBudget rnd ws wa shops todo i st).
Proof.
  intros Hstep ws wa shops todo.
  induction todo as [|todo IH]; intros i st HI; cbn [planShops]; [done|].
  destruct (Js.ge _ _); [by apply Hstep|]. by apply IH, Hstep.
Qed.

Lemma planWeeks_preserves (I : PlanState -> Prop) :
  (forall ws wa shops i st,
     I st -> I (planShop weeklyBudget rnd ws wa shops i st)) ->
  forall todo week st,
    I st -> I (planWeeks weeklyBudget startDate rnd todo week st).
Proof.
  intros Hstep todo.
  induction todo as [|todo IH]; intros week st HI; cbn [planWeeks]; [done|].
  destruct (Js.le _ _); [done|].
  destruct (Js.ge _ _); [by apply planShops_preserves|].
  by apply IH, planShops_preserves.
Qed.

Lemma Inv_finalState : Inv (finalState weeklyBudget startDate rnd).
Proof.
  unfold finalState. apply planWeeks_preserves; [|apply Inv_initial].
  intros. by apply Inv_planShop.
Qed.

End PlanFacts.

(** ** Rounding to cents *)

Lemma Qfloor_unique (y : Q) (z : Z) :
  inject_Z z <= y -> y < inject_Z (z + 1) -> Qfloor y = z.
Proof.
  intros Hle Hlt.
  pose proof (Qfloor_le y) as H1. pose proof (Qlt_floor y) as H2.
  assert (z < Qfloor y + 1)%Z by (rewrite Zlt_Qlt; lra).
  assert (Qfloor y < z + 1)%Z by (rewrite Zlt_Qlt; lra).
  lia.
Qed.

(** A whole number of euros is its own rounding. *)
Lemma round2_whole (x : Q) (k : Z) : x == inject_Z k -> Js.round2 x == x.
Proof.
  intros Hx. unfold Js.round2, Js.round.
  rewrite (Qfloor_unique (x * 100 + 0.5) (k * 100)).
  - rewrite inject_Z_mult, Hx. change (inject_Z 100) with 100. field.
  - rewrite inject_Z_mult, Hx. change (inject_Z 100) with 100. lra.
  - rewrite inject_Z_plus, inject_Z_mult, Hx.
    change (inject_Z 100) with 100. change (inject_Z 1) with 1. lra.
Qed.

(** ** Conservation of the totals *)

(** Every coupon created is in the active array or has left it. *)
Lemma active_removed_count (st : PlanState) :
  Inv st ->
  (length (activeCoupons st) + length (removedRefs st))%nat
  = length (heap st).
Proof.
  intros HI. pose proof (active_valid _ _ HI) as Hval.
  pose proof (active_nodup _ _ HI) as Hnd.
  rewrite Forall_forall in Hval.
  transitivity (length (seq 0 (length (heap st)))); [|apply length_seq].
  rewrite <- length_app. apply Permutation_length, NoDup_Permutation.
  - apply NoDup_app. split; [done|]. split.
    + intros x Hx [_ Hn%bool_decide_eq_true]%elem_of_Lfilter. by apply Hn.
    + apply NoDup_Lfilter, NoDup_seq.
  - apply NoDup_seq.
  - intros x. unfold removedRefs.
    rewrite elem_of_app, elem_of_Lfilter, bool_decide_eq_true, elem_of_seq.
    split.
    + intros [Hx|[Hx _]]; [specialize (Hval _ Hx)|]; lia.
    + intros Hx. destruct (decide (x ∈ activeCoupons st)); [by left|].
      right. split; [lia | done].
Qed.

(** C2, against the one-cent tolerance.  With a weekly budget of
    100.0078125 the ten weeks spend exactly the total budget, reported as
    1000.08, while the twenty entries, each rounded on its own, add up to
    1000.06. *)
Lemma totalSpend_off_by_two_cents :
  let r := optimizeShoppingPlan (12801 # 128) 0%Z (fun _ => EmptyString) in
  0 < 12801 # 128
  /\ Result.totalSpend r - sumPlanned (Result.entries r) == 0.02
  /\ ~ (- 0.01 <= Result.totalSpend r - sumPlanned (Result.entries r)
        /\ Result.totalSpend r - sumPlanned (Result.entries r) <= 0.01).
Proof.
  assert (E : Result.totalSpend
                (optimizeShoppingPlan (12801 # 128) 0%Z
                   (fun _ => EmptyString))
              - sumPlanned
                  (Result.entries
                     (optimizeShoppingPlan (12801 # 128) 0%Z
                        (fun _ => EmptyString))) == 0.02)
    by (vm_compute; reflexivity).
  cbv zeta. split; [reflexivity|]. split; [exact E|].
  rewrite E. intros [_ H]. revert H. vm_compute. intros H. by apply H.
Qed.

(** C2, as the code has it.  The reported total spend is the rounded running
    total, while every entry is rounded on its own: the two differ by at most
    half a cent per entry plus half a cent.  The reported savings are the sum
    of the entries' savings; [couponsUsed] counts the coupons whose [used]
    flag is set when planning ends; [couponsEarned] counts the coupons
    created, each of them pushed on the active array by the entry that
    earned it, and so counts the coupons still in the active array together
    with those the sweep removed. *)
Theorem totals_conserved (b : Q) (d : Date) (rnd : nat -> string) :
  let r := optimizeShoppingPlan b d rnd in
  let n := inject_Z (Z.of_nat (length (Result.entries r))) in
  (- ((n + 1) * 0.005)
     <= Result.totalSpend r - sumPlanned (Result.entries r)
   /\ Result.totalSpend r - sumPlanned (Result.entries r)
      <= (n + 1) * 0.005)
  /\ Result.totalSavings r == sumSavings (Result.entries r)
  /\ Result.couponsUsed r = countUsed (Result.coupons r)
  /\ Result.couponsUsed r = length (redeemedRefs (Result.entries r))
  /\ Result.couponsEarned r = length (Result.coupons r)
  /\ earnedRefs (Result.entries r) = seq 0 (Result.couponsEarned r)
  /\ Result.couponsEarned r
     = (length (activeCoupons (finalState b d rnd))
        + length (removedRefs (finalState b d rnd)))%nat.
Proof.
  pose proof (active_removed_count _ (Inv_finalState b d rnd)) as Hcount.
  destruct (Inv_finalState b d rnd)
    as [Hval Hnd Hua Ht Hec Her Huc Hue Hrn Hru Hsv [k Hk] Hsp Hms].
  unfold optimizeShoppingPlan, resultOf.
  cbn [Result.totalSpend Result.entries Result.totalSavings
       Result.couponsUsed Result.coupons Result.couponsEarned].
  set (st := finalState b d rnd) in *.
  pose proof (round2_close (totalSpend st)) as [Hr1 Hr2].
  repeat split; try done; try lra.
  - rewrite (round2_whole _ k Hk). done.
  - change (option_list None) with (@nil nat) in Hue.
    by rewrite app_nil_r in Hue.
  - by rewrite Hec.
  - by rewrite Hec, Hcount.
Qed.

(** ** A budget that is not positive *)

(** The guard of line 27. *)
Lemma planWeeks_stops (b : Q) (s : Date) (rnd : nat -> string)
  (todo week : nat) (st : PlanState) :
  Js.le (Js.min b (totalBudget b - totalSpend st)) 0 = true ->
  planWeeks b s rnd todo week st = st.
Proof.
  intros H. destruct todo as [|todo]; [done|].
  cbn [planWeeks]. by rewrite H.
Qed.

(** C9. With a weekly budget of zero or less the first test of the loop
    guard ends the planning: no entry, no coupon, every total zero.  The
    planner is a total function and takes this path without any failure. *)
Theorem nonpositive_budget_empty (b : Q) (d : Date) (rnd : nat -> string) :
  b <= 0 ->
  let r := optimizeShoppingPlan b d rnd in
  Result.entries r = [] /\ Result.coupons r = []
  /\ Result.totalSpend r == 0 /\ Result.totalSavings r == 0
  /\ Result.missedSavings r == 0
  /\ Result.couponsEarned r = 0%nat /\ Result.couponsUsed r = 0%nat.
Proof.
  intros Hb.
  assert (E : finalState b d rnd = initialState).
  { unfold finalState. apply planWeeks_stops.
    apply JsFacts.le_spec. unfold totalBudget. cbn [totalSpend initialState].
    destruct (JsFacts.min_case b (b * 10 - 0)) as [[_ ->]|[_ ->]]; lra. }
  cbv zeta. unfold optimizeShoppingPlan, resultOf. rewrite E.
  cbn [Result.entries Result.coupons Result.totalSpend Result.totalSavings
       Result.missedSavings Result.couponsEarned Result.couponsUsed
       initialState heap entries totalSpend totalSavings missedSavings
       couponsEarned couponsUsed].
  repeat split; reflexivity.
Qed.

Lemma nonpositive_budget_empty_witness :
  (-5 <= 0)
  /\ Result.entries (optimizeShoppingPlan (-5) 0%Z (fun _ => EmptyString))
     = [].
Proof.
  split; [lra|].
  apply (nonpositive_budget_empty (-5) 0%Z (fun _ => EmptyString)). lra.
Defined.

(** ** The expiry sweep *)

Lemma filter_negb_twice {A} (P : A -> bool) (l : list A) :
  List.filter (fun r => negb (P r)) (List.filter (fun r => negb (P r)) l)
  = List.filter (fun r => negb (P r)) l
  /\ List.filter P (List.filter (fun r => negb (P r)) l) = [].
Proof.
  induction l as [|x l [IH1 IH2]]; [done|].
  cbn [List.filter]. destruct (P x) eqn:Px; cbn [negb List.filter]; [done|].
  by rewrite Px, IH1, IH2.
Qed.

(** A second sweep on the same date finds nothing left to remove. *)
Lemma removeExpired_idem (d : Date) (st : PlanState) :
  removeExpired d (removeExpired d st) = removeExpired d st.
Proof.
  rewrite (removeExpired_eq d (removeExpired d st)).
  rewrite (removeExpired_eq d st). fields.
  destruct (filter_negb_twice (isExpiredUnused (heap st) d)
              (activeCoupons st)) as [-> ->].
  done.
Qed.

Lemma isExpiredUnused_spec (h : list Coupon) (d : Date) (r : ref) :
  isExpiredUnused h d r = true
  <-> exists c, h !! r = Some c /\ used c = false /\ (validUntil c < d)%Z.
Proof.
  unfold isExpiredUnused. destruct (h !! r) as [c|]; cbn.
  - rewrite andb_true_iff, negb_true_iff, Z.ltb_lt. split.
    + intros [? ?]. by exists c.
    + intros (c' & [= <-] & ? & ?). done.
  - split; [done | by intros (c & ? & _)].
Qed.

Lemma sumValue_whole (h : list Coupon) (rs : list ref) :
  Forall tierOk h -> exists k : Z, sumValue h rs == inject_Z k.
Proof.
  intros Ht. induction rs as [|r rs [k Hk]]; [by exists 0%Z|].
  rewrite sumValue_cons.
  assert (exists v : Z, valueOf h r == inject_Z v) as [v Hv].
  { unfold valueOf. destruct (h !! r) as [c|] eqn:Hc; [|by exists 0%Z].
    rewrite Forall_forall in Ht.
    destruct (Ht c) as [[-> _]|[-> _]];
      [by eapply list_elem_of_lookup_2 | by exists 5%Z | by exists 10%Z]. }
  exists (v + k)%Z. rewrite inject_Z_plus. lra.
Qed.

(** C6. The sweep that opens every shop removes from the active array
    exactly the unused coupons whose expiry is strictly before the shop's
    date, keeps the others in order, and adds the values of the removed ones
    to the missed savings; nothing else changes, and sweeping again removes
    nothing more.  Over a whole plan no coupon sits twice in the active
    array and the missed savings are the sum, one term per coupon, of the
    values of the coupons that left the active array, all of them unused. *)
Theorem expiry_sweep_counts_once :
  (forall (d : Date) (st : PlanState),
     let st' := removeExpired d st in
     (forall r, r ∈ activeCoupons st'
        <-> r ∈ activeCoupons st
            /\ ~ (exists c, heap st !! r = Some c /\ used c = false
                            /\ (validUntil c < d)%Z))
     /\ activeCoupons st'
        = List.filter (fun r => negb (isExpiredUnused (heap st) d r))
                      (activeCoupons st)
     /\ missedSavings st'
        == missedSavings st
           + sumValue (heap st)
               (List.filter (isExpiredUnused (heap st) d) (activeCoupons st))
     /\ heap st' = heap st /\ entries st' = entries st
     /\ totalSpend st' = totalSpend st /\ totalSavings st' = totalSavings st
     /\ removeExpired d st' = st')
  /\ (forall b rnd ws wa shops i st,
        planShop b rnd ws wa shops i st
        = planShop b rnd ws wa shops i
            (removeExpired (ws + dayOffset shops i)%Z st))
  /\ (forall b s rnd,
        NoDup (activeCoupons (finalState b s rnd))
        /\ missedSavings (finalState b s rnd)
           == sumValue (heap (finalState b s rnd))
                (removedRefs (finalState b s rnd))
        /\ Result.missedSavings (optimizeShoppingPlan b s rnd)
           == missedSavings (finalState b s rnd)
        /\ Forall (fun r => exists c, heap (finalState b s rnd) !! r = Some c
                                      /\ used c = false)
             (removedRefs (finalState b s rnd))).
Proof.
  split; [|split].
  - intros d st st'. subst st'. split; [|split; [|split]].
    + intros r. rewrite removeExpired_eq. fields.
      rewrite elem_of_Lfilter, negb_true_iff, <- isExpiredUnused_spec.
      destruct (isExpiredUnused (heap st) d r); intuition congruence.
    + by rewrite removeExpired_eq.
    + rewrite removeExpired_eq. fields. apply fold_add_sumValue.
    + rewrite removeExpired_idem. by rewrite removeExpired_eq.
  - intros. unfold planShop. by rewrite removeExpired_idem.
  - intros b s rnd.
    destruct (Inv_finalState b s rnd)
      as [Hval Hnd Hua Ht Hec Her Huc Hue Hrn Hru Hsv Hsw Hsp Hms].
    unfold optimizeShoppingPlan, resultOf. cbn [Result.missedSavings].
    generalize dependent (finalState b s rnd). intros st **.
    split; [done|]. split; [done|]. split.
    + destruct (sumValue_whole (heap st) (removedRefs st) Ht) as [k Hk].
      apply (round2_whole _ k). lra.
    + apply Forall_forall. intros r Hr. unfold removedRefs in Hr.
      apply elem_of_Lfilter in Hr as [Hr%elem_of_seq Hn].
      apply bool_decide_eq_true in Hn.
      destruct (lookup_lt_is_Some_2 (heap st) r) as [c Hc]; [lia|].
      exists c. split; [done|]. destruct (used c) eqn:Hu; [|done].
      by destruct Hn; eapply Hua.
Qed.

(** The scenario of the specification: a small coupon earned on day 5
    expires on day 12; a shop on day 12 leaves it alone, the first shop
    after day 12 moves its 5 euros to the missed savings, and a later sweep
    adds nothing. *)
Example sweep_small_coupon_after_day_12 :
  let c := createCoupon EmptyString small 5%Z in
  let st := {| heap := [c]; entries := []; activeCoupons := [0%nat];
               totalSpend := 0; totalSavings := 0; missedSavings := 0;
               couponsEarned := 1; couponsUsed := 0; entryId := 0 |} in
  validUntil c = 12%Z
  /\ removeExpired 12%Z st = st
  /\ activeCoupons (removeExpired 13%Z st) = []
  /\ missedSavings (removeExpired 13%Z st) = 5
  /\ removeExpired 20%Z (removeExpired 13%Z st) = removeExpired 13%Z st.
Proof. repeat split. Qed.

(** ** Choosing the coupon to redeem *)

Lemma gt_spec (a b : Q) : Js.gt a b = true <-> b < a.
Proof. unfold Js.gt. rewrite negb_true_iff. apply JsFacts.ge_false. Qed.

Lemma gt_false (a b : Q) : Js.gt a b = false <-> a <= b.
Proof. unfold Js.gt. rewrite negb_false_iff. apply Qle_bool_iff. Qed.

Lemma neq_spec (a b : Q) : Js.neq a b = false <-> a == b.
Proof. unfold Js.neq. rewrite negb_false_iff. apply Qeq_bool_iff. Qed.

Lemma neq_true (a b : Q) : Js.neq a b = true <-> ~ a == b.
Proof.
  unfold Js.neq. rewrite negb_true_iff. split.
  - intros H E. apply Qeq_bool_iff in E. congruence.
  - intros H. destruct (Qeq_bool a b) eqn:E; [|done].
    by apply Qeq_bool_iff in E.
Qed.

Lemma compareCoupons_le (h : list Coupon) (a b : ref) :
  is_Some (h !! a) -> is_Some (h !! b) ->
  Js.gt (compareCoupons h a b) 0 = false -> notWorse h a b.
Proof.
  intros [ca Ha] [cb Hb]. unfold compareCoupons. rewrite Ha, Hb.
  intros Hc%gt_false. exists ca, cb. split; [done|]. split; [done|].
  destruct (Js.neq (value ca) (value cb)) eqn:E.
  - apply neq_true in E. left.
    destruct (Qlt_le_dec (value cb) (value ca)) as [|Hle]; [done|].
    exfalso. apply E. lra.
  - apply neq_spec in E. right. split; [done|].
    change 0 with (inject_Z 0) in Hc. rewrite <- Zle_Qle in Hc. lia.
Qed.

Lemma compareCoupons_gt (h : list Coupon) (a b : ref) :
  is_Some (h !! a) -> is_Some (h !! b) ->
  Js.gt (compareCoupons h a b) 0 = true -> notWorse h b a.
Proof.
  intros [ca Ha] [cb Hb]. unfold compareCoupons. rewrite Ha, Hb.
  intros Hc%gt_spec. exists cb, ca. split; [done|]. split; [done|].
  destruct (Js.neq (value ca) (value cb)) eqn:E.
  - left. lra.
  - apply neq_spec in E. right. split; [lra|].
    change 0 with (inject_Z 0) in Hc. rewrite <- Zlt_Qlt in Hc. lia.
Qed.

Lemma notWorse_refl (h : list Coupon) (a : ref) :
  is_Some (h !! a) -> notWorse h a a.
Proof.
  intros [ca Ha]. exists ca, ca. repeat split; try done.
  right. split; [reflexivity | lia].
Qed.

Lemma notWorse_trans (h : list Coupon) (a b c : ref) :
  notWorse h a b -> notWorse h b c -> notWorse h a c.
Proof.
  intros (ca & cb & Ha & Hb & Hab) (cb' & cc & Hb' & Hc & Hbc).
  assert (cb' = cb) as -> by congruence.
  exists ca, cc. split; [done|]. split; [done|].
  destruct Hab as [Hab|[Hab1 Hab2]], Hbc as [Hbc|[Hbc1 Hbc2]].
  - left. lra.
  - left. lra.
  - left. lra.
  - right. split; [lra | lia].
Qed.

(** The head of [usableCoupons] is an active coupon usable on the date, and
    no active coupon usable on the date is better. *)
Lemma usable_best (d : Date) (st : PlanState) (best : ref)
  (rest : list ref) :
  usableCoupons d st = best :: rest ->
  forall r, r ∈ activeCoupons st -> isUsable (heap st) d r = true ->
            notWorse (heap st) best r.
Proof.
  intros Hu r Hr Hus. unfold usableCoupons in Hu.
  eapply (sortBy_head (compareCoupons (heap st)) (notWorse (heap st))
            (fun r => is_Some (heap st !! r))); try exact Hu.
  - intros. by apply compareCoupons_le.
  - intros. by apply compareCoupons_gt.
  - intros. by apply notWorse_refl.
  - intros a b c _ _ _. apply notWorse_trans.
  - apply Forall_forall. intros x [_ Hx]%elem_of_Lfilter.
    apply isUsable_inv in Hx as (c & Hc & _). by exists c.
  - by apply elem_of_Lfilter.
Qed.

Lemma recordShop_entry (rnd : nat -> string) (d : Date) (f : Q)
  (cu : option ref) (sv : Q) (st : PlanState) :
  exists e,
    entries (recordShop rnd d f cu sv st) = entries st ++ [e]
    /\ date e = d /\ couponUsed e = cu /\ savings e = sv
    /\ plannedAmount e = Js.round2 f.
Proof. eexists. by repeat split. Qed.

Lemma recordShop_heap (rnd : nat -> string) (d : Date) (f : Q)
  (cu : option ref) (sv : Q) (st : PlanState) (r : ref) (c : Coupon) :
  heap st !! r = Some c -> heap (recordShop rnd d f cu sv st) !! r = Some c.
Proof.
  intros Hr. unfold recordShop. fields.
  destruct (getCouponEarned _ _ _); [by apply lookup_app_l_Some | done].
Qed.

Lemma removeExpired_heap (d : Date) (st : PlanState) :
  heap (removeExpired d st) = heap st.
Proof. by rewrite removeExpired_eq. Qed.

Lemma removeExpired_entries (d : Date) (st : PlanState) :
  entries (removeExpired d st) = entries st.
Proof. by rewrite removeExpired_eq. Qed.

Lemma removeExpired_totalSpend (d : Date) (st : PlanState) :
  totalSpend (removeExpired d st) = totalSpend st.
Proof. by rewrite removeExpired_eq. Qed.

Lemma removeExpired_active (d : Date) (st : PlanState) (r : ref) :
  r ∈ activeCoupons (removeExpired d st)
  <-> r ∈ activeCoupons st /\ isExpiredUnused (heap st) d r = false.
Proof.
  rewrite removeExpired_eq. fields.
  by rewrite elem_of_Lfilter, negb_true_iff.
Qed.

(** C5. A shop redeems at most one coupon: its entry has one optional
    [couponUsed], and every other coupon object is left as it was.  The
    coupon redeemed is an active one that [canUseCoupon] accepts for the
    tentative spend and the shop's date; the entry's savings are its value;
    among the active coupons that are unused and within their validity
    window on that date none has a higher value, and none of equal value
    expires earlier.  Over a whole plan no coupon is redeemed by two
    entries, and the redeemed coupons are exactly those whose [used] flag is
    set: the flag goes from false to true once and never back. *)
Theorem redeems_best_coupon_once :
  (forall b rnd ws wa shops i st,
     let d := (ws + dayOffset shops i)%Z in
     let st' := planShop b rnd ws wa shops i st in
     exists e,
       entries st' = entries st ++ [e] /\ date e = d
       /\ (forall r c, heap st !! r = Some c -> used c = true ->
                       heap st' !! r = Some c)
       /\ (couponUsed e = None ->
           forall r c, heap st !! r = Some c -> heap st' !! r = Some c)
       /\ (forall r, couponUsed e = Some r ->
           exists c,
             heap st !! r = Some c /\ r ∈ activeCoupons st
             /\ canUseCoupon c (tentative ws wa shops i st) d = true
             /\ savings e = value c
             /\ heap st' !! r = Some (markUsed d c)
             /\ (forall r' c', r' <> r -> heap st !! r' = Some c' ->
                               heap st' !! r' = Some c')
             /\ (forall r' c',
                   r' ∈ activeCoupons st -> heap st !! r' = Some c' ->
                   used c' = false ->
                   (validFrom c' <= d)%Z -> (d <= validUntil c')%Z ->
                   value c' <= value c
                   /\ (value c' == value c ->
                       (validUntil c <= validUntil c')%Z))))
  /\ (forall b s rnd,
        let r := optimizeShoppingPlan b s rnd in
        NoDup (redeemedRefs (Result.entries r))
        /\ (forall x, x ∈ redeemedRefs (Result.entries r)
              <-> exists c, Result.coupons r !! x = Some c
                            /\ used c = true)).
Proof.
  split.
  - intros b rnd ws wa shops i st d st'. subst st'.
    pose proof (removeExpired_heap d st) as Hh.
    pose proof (removeExpired_entries d st) as He.
    assert (Ht : tentative ws wa shops i (removeExpired d st)
                 = tentative ws wa shops i st).
    { unfold tentative. by rewrite He. }
    pose proof (planShop_cases b rnd ws wa shops i st) as Hcases.
    cbv zeta in Hcases. fold d in Hcases.
    destruct Hcases as [->|(best & rest & c & Hu & Hc & Hp & ->)].
    + destruct (recordShop_entry rnd d
                  (adjustSpend (tentative ws wa shops i (removeExpired d st))
                     (totalBudget b - totalSpend (removeExpired d st)))
                  None 0 (removeExpired d st))
        as (e & Hes & Hd & Hcu & _).
      exists e. rewrite Hes, He. repeat split; try done.
      * intros r c Hr _. apply recordShop_heap. by rewrite Hh.
      * intros _ r c Hr. apply recordShop_heap. by rewrite Hh.
      * intros r Hr. congruence.
    + destruct (recordShop_entry rnd d
                  (adjustSpend (tentative ws wa shops i (removeExpired d st))
                     (totalBudget b - totalSpend (removeExpired d st)))
                  (Some best) (value c) (useCoupon d best c (removeExpired d st)))
        as (e & Hes & Hd & Hcu & Hsv & _).
      pose proof (usable_head _ _ _ _ Hu) as [Hin Hus].
      pose proof (isUsable_inv _ _ _ Hus) as (c0 & Hc0 & Hun & Hvf & Hvu).
      assert (c0 = c) as -> by congruence.
      rewrite Hh in Hc.
      assert (Hbest : (best < length (heap st))%nat)
        by by eapply lookup_lt_Some.
      exists e. unfold useCoupon in Hes |- *. fields.
      rewrite Hes, He. repeat split; try done.
      * intros r c' Hr Hused. apply recordShop_heap. unfold useCoupon. fields.
        rewrite Hh. rewrite list_lookup_insert_ne; [done|].
        intros <-. congruence.
      * intros Hnone. congruence.
      * intros r Hr. assert (r = best) as -> by congruence.
        exists c. split; [done|]. split.
        { by apply removeExpired_active in Hin as [Hin _]. }
        split.
        { unfold canUseCoupon. rewrite Hun. cbn [negb andb].
          rewrite <- Ht.
          rewrite (proj2 (JsFacts.ge_spec _ _) Hp). cbn [andb].
          apply andb_true_iff. split; lia. }
        split; [done|]. split.
        { apply recordShop_heap. fields. rewrite Hh.
          by apply list_lookup_insert_eq. }
        split.
        { intros r' c' Hne Hr'. apply recordShop_heap. fields. rewrite Hh.
          by rewrite list_lookup_insert_ne. }
        intros r' c' Hr'in Hr' Hun' Hvf' Hvu'.
        assert (Hr'us : isUsable (heap (removeExpired d st)) d r' = true).
        { rewrite Hh. unfold isUsable. rewrite Hr', Hun'. cbn [negb andb].
          apply andb_true_iff. split; lia. }
        assert (Hr'act : r' ∈ activeCoupons (removeExpired d st)).
        { apply removeExpired_active. split; [done|].
          rewrite <- Hh. by apply isUsable_not_expired. }
        destruct (usable_best _ _ _ _ Hu r' Hr'act Hr'us)
          as (ca & cb & Ha & Hb & Hab).
        rewrite Hh in Ha, Hb.
        assert (ca = c) as -> by congruence.
        assert (cb = c') as -> by congruence.
        destruct Hab as [Hlt|[Heq Hle]]; split; try lra; try done.
  - intros b s rnd r. subst r.
    destruct (Inv_finalState b s rnd)
      as [Hval Hnd Hua Ht Hec Her Huc Hue Hrn Hru Hsv Hsw Hsp Hms].
    change (option_list None) with (@nil nat) in Hrn, Hru.
    rewrite app_nil_r in Hrn, Hru.
    by split.
Qed.

(** ** A redeemed coupon's minimum spend survives the adjustment *)

Section RedeemedMinimum.

Variable weeklyBudget : Q.
Variable startDate : Date.
Variable rnd : nat -> string.

Abbreviation total := (totalBudget weeklyBudget).

(** What a shop adds: one entry, its spend on the running total. *)
Lemma planShop_effect (ws : Date) (wa : Q) (shops i : nat) (st : PlanState) :
  let d := (ws + dayOffset shops i)%Z in
  let p := tentative ws wa shops i st in
  let f := adjustSpend p (total - totalSpend st) in
  let st' := planShop weeklyBudget rnd ws wa shops i st in
  exists e,
    entries st' = entries st ++ [e]
    /\ date e = d
    /\ plannedAmount e = Js.round2 f
    /\ totalSpend st' = totalSpend st + f
    /\ (forall r, couponUsed e = Some r ->
          exists c, heap st !! r = Some c /\ minSpend c <= p)
    /\ (forall r c, heap st !! r = Some c ->
          exists c', heap st' !! r = Some c' /\ minSpend c' = minSpend c).
Proof.
  intros d p f st'. subst st'.
  pose proof (removeExpired_heap d st) as Hh.
  pose proof (removeExpired_entries d st) as He.
  pose proof (removeExpired_totalSpend d st) as Hts.
  assert (Ht : tentative ws wa shops i (removeExpired d st) = p).
  { unfold tentative, p, tentative. by rewrite He. }
  pose proof (planShop_cases weeklyBudget rnd ws wa shops i st) as Hcases.
  cbv zeta in Hcases. fold d in Hcases. rewrite Ht, Hts in Hcases.
  fold f in Hcases.
  destruct Hcases as [->|(best & rest & c & Hu & Hc & Hp & ->)].
  - destruct (recordShop_entry rnd d f None 0 (removeExpired d st))
      as (e & Hes & Hd & Hcu & _ & Hpl).
    exists e. rewrite Hes, He. repeat split; try done.
    + unfold recordShop. fields. by rewrite Hts.
    + intros r Hr. congruence.
    + intros r c Hr. exists c. split; [|done].
      apply recordShop_heap. by rewrite Hh.
  - destruct (recordShop_entry rnd d f (Some best) (value c)
                (useCoupon d best c (removeExpired d st)))
      as (e & Hes & Hd & Hcu & _ & Hpl).
    rewrite Hh in Hc.
    exists e. unfold useCoupon in Hes |- *. fields.
    rewrite Hes, He. repeat split; try done.
    + unfold recordShop. fields. by rewrite Hts.
    + intros r Hr. assert (r = best) as -> by congruence. by exists c.
    + intros r c' Hr. destruct (decide (r = best)) as [->|Hne].
      * assert (c' = c) as -> by congruence.
        exists (markUsed d c). split; [|done].
        apply recordShop_heap. fields. rewrite Hh.
        apply list_lookup_insert_eq. by eapply lookup_lt_Some.
      * exists c'. split; [|done].
        apply recordShop_heap. fields. rewrite Hh.
        by rewrite list_lookup_insert_ne.
Qed.

(** The adjustment and the clamp keep a spend at or above a tier minimum
    that the remaining budget covers. *)
Lemma adjustSpend_keeps_minimum (m p r : Q) :
  m = 25 \/ m = 50 -> m <= p -> m <= r -> m <= adjustSpend p r.
Proof.
  intros Hm Hp Hr. unfold adjustSpend, optimizeSpendForCoupon.
  destruct (JsFacts.min_case 49.99 p) as [[? ->]|[? ->]];
    destruct (JsFacts.max_case 50 p) as [[? ->]|[? ->]];
    destruct Hm as [-> | ->];
    js_cases; cbn [andb];
    match goal with
    | |- _ <= Js.min ?a ?b =>
        destruct (JsFacts.min_case a b) as [[? ->]|[? ->]]
    end; lra.
Qed.

(** The first of two shops in a week spends 50, or half the weekly
    amount when that is more. *)
Lemma adjustSpend_first_of_two (p wa rem : Q) :
  p == wa / 2 -> 90 <= wa -> wa <= rem ->
  (wa <= 100 /\ adjustSpend p rem == 50)
  \/ (100 <= wa /\ adjustSpend p rem == wa / 2).
Proof.
  intros Hp Hwa Hrem. unfold adjustSpend, optimizeSpendForCoupon.
  destruct (JsFacts.min_case 49.99 p) as [[? ->]|[? ->]];
    destruct (JsFacts.max_case 50 p) as [[? ->]|[? ->]];
    js_cases; cbn [andb];
    match goal with
    | |- context [Js.min ?a ?b] =>
        destruct (JsFacts.min_case a b) as [[? ->]|[? ->]]
    end; qdiv; first [left; split; lra | right; split; lra].
Qed.

Lemma shops_one_or_two (w : Q) :
  determineOptimalShopsPerWeek w = 1%nat
  \/ (determineOptimalShopsPerWeek w = 2%nat /\ 90 <= w).
Proof.
  unfold determineOptimalShopsPerWeek.
  js_cases; first [by left | right; split; [done | lra]].
Qed.

Lemma spentInWeek_none (ws : Date) (es : list ShoppingEntry) :
  (forall e, e ∈ es -> (date e < ws)%Z) -> spentInWeek ws es = 0.
Proof.
  intros Hd. unfold spentInWeek.
  assert (List.filter
            (fun e => (ws <=? date e)%Z && (date e <? ws + 7)%Z) es = [])
    as ->; [|done].
  induction es as [|e es IH]; [done|]. cbn [List.filter].
  assert ((ws <=? date e)%Z = false) as ->.
  { apply Z.leb_gt, Hd. by left. }
  cbn [andb]. apply IH. intros e' He'. apply Hd. by right.
Qed.

Lemma spentInWeek_snoc (ws : Date) (es : list ShoppingEntry)
  (e : ShoppingEntry) :
  (forall e', e' ∈ es -> (date e' < ws)%Z) -> date e = ws ->
  spentInWeek ws (es ++ [e]) = 0 + plannedAmount e.
Proof.
  intros Hd He. pose proof (spentInWeek_none ws es Hd) as Hn.
  unfold spentInWeek in *. rewrite List.filter_app, fold_left_app, Hn.
  cbn [List.filter]. rewrite He.
  assert ((ws <=? ws)%Z && (ws <? ws + 7)%Z = true) as ->; [|done].
  apply andb_true_iff. split; lia.
Qed.

Lemma round2_keeps_minimum (m f : Q) :
  m = 25 \/ m = 50 -> m <= f -> m <= Js.round2 f.
Proof.
  intros Hm Hf. apply round2_mono in Hf.
  assert (Js.round2 m == m) as <-; [|done].
  destruct Hm as [-> | ->]; [by apply (round2_whole _ 25)
                            | by apply (round2_whole _ 50)].
Qed.

Lemma redeemedMeetMinimum_planShop (ws : Date) (wa : Q) (shops i : nat)
  (st : PlanState) :
  Inv st -> redeemedMeetMinimum st -> covers weeklyBudget ws wa shops i st ->
  redeemedMeetMinimum (planShop weeklyBudget rnd ws wa shops i st).
Proof.
  intros HI HG Hcov.
  destruct (planShop_effect ws wa shops i st)
    as (e & Hes & Hd & Hpl & Hts & Hcu & Hmono).
  intros e' He' r Hr. rewrite Hes in He'.
  apply elem_of_app in He' as [He'|He'%list_elem_of_singleton].
  - destruct (HG e' He' r Hr) as (c & Hc & Hm).
    destruct (Hmono r c Hc) as (c' & Hc' & Hm').
    exists c'. split; [done|]. by rewrite Hm'.
  - subst e'. destruct (Hcu r Hr) as (c & Hc & Hm).
    destruct (Hmono r c Hc) as (c' & Hc' & Hm').
    exists c'. split; [done|]. rewrite Hm', Hpl.
    assert (Htier : minSpend c = 25 \/ minSpend c = 50).
    { pose proof (tiers _ _ HI) as Ht. rewrite Forall_forall in Ht.
      destruct (Ht c) as [[_ ?]|[_ ?]];
        [by eapply list_elem_of_lookup_2 | by left | by right]. }
    apply round2_keeps_minimum; [done|].
    apply adjustSpend_keeps_minimum; [done..|]. by apply Hcov.
Qed.

Lemma tentative_only_shop (ws : Date) (wa : Q) (st : PlanState) :
  tentative ws wa 1 0 st == wa - spentInWeek ws (entries st).
Proof.
  unfold tentative. change (inject_Z (Z.of_nat 1 - Z.of_nat 0)) with 1.
  qdiv. lra.
Qed.

Lemma tentative_first_of_two (ws : Date) (wa : Q) (st : PlanState) :
  tentative ws wa 2 0 st == (wa - spentInWeek ws (entries st)) / 2.
Proof. reflexivity. Qed.

Lemma tentative_second_of_two (ws : Date) (wa : Q) (st : PlanState) :
  tentative ws wa 2 1 st == wa - spentInWeek ws (entries st).
Proof.
  unfold tentative. change (inject_Z (Z.of_nat 2 - Z.of_nat 1)) with 1.
  qdiv. lra.
Qed.

Lemma datedBefore_snoc (limit : Date) (st st' : PlanState)
  (e : ShoppingEntry) :
  entries st' = entries st ++ [e] ->
  (forall e', e' ∈ entries st -> (date e' < limit)%Z) ->
  (date e < limit)%Z -> datedBefore limit st'.
Proof.
  intros Hes Hold He e' He'. rewrite Hes in He'.
  apply elem_of_app in He' as [He'|He'%list_elem_of_singleton];
    [by apply Hold | by subst e'].
Qed.

(** One week of shops keeps the invariants, and dates its entries within
    the week. *)
Lemma week_good (week : nat) (st : PlanState) :
  let ws := (startDate + Z.of_nat week * 7)%Z in
  let wa := Js.min weeklyBudget (total - totalSpend st) in
  let shops := determineOptimalShopsPerWeek wa in
  let st' := planShops weeklyBudget rnd ws wa shops shops 0 st in
  Js.le wa 0 = false ->
  Inv st -> redeemedMeetMinimum st -> datedBefore ws st ->
  Inv st' /\ redeemedMeetMinimum st' /\ datedBefore (ws + 7)%Z st'.
Proof.
  intros ws wa shops st' Hpos%JsFacts.le_false HI HG HD. subst st'.
  assert (Hrem : wa <= total - totalSpend st).
  { subst wa.
    destruct (JsFacts.min_case weeklyBudget (total - totalSpend st))
      as [[? ->]|[? ->]]; lra. }
  pose proof (spentInWeek_none ws (entries st) HD) as Hspent.
  assert (Hcov0 : covers weeklyBudget ws wa shops 0 st).
  { intros m _ Hm.
    destruct (shops_one_or_two wa) as [E|[E _]]; fold shops in E;
      rewrite E in Hm.
    - rewrite tentative_only_shop, Hspent in Hm. lra.
    - rewrite tentative_first_of_two, Hspent in Hm. revert Hm. qdiv. lra. }
  pose proof (Inv_planShop weeklyBudget rnd ws wa shops 0 st HI) as HI1.
  pose proof (redeemedMeetMinimum_planShop ws wa shops 0 st HI HG Hcov0)
    as HG1.
  destruct (planShop_effect ws wa shops 0 st)
    as (e0 & Hes0 & Hd0 & Hpl0 & Hts0 & _).
  cbn [dayOffset Nat.eqb] in Hd0. rewrite Z.add_0_r in Hd0.
  assert (HD1 : datedBefore (ws + 7)%Z
                  (planShop weeklyBudget rnd ws wa shops 0 st)).
  { eapply datedBefore_snoc; [done| |lia].
    intros e' He'. specialize (HD e' He'). lia. }
  destruct (shops_one_or_two wa) as [E|[E Hwa]]; fold shops in E.
  - rewrite E in *. cbn [planShops]. by destruct (Js.ge _ _).
  - rewrite E in *. cbn [planShops].
    destruct (Js.ge _ _); [done|].
    set (st1 := planShop weeklyBudget rnd ws wa 2 0 st) in *.
    assert (Hcov1 : covers weeklyBudget ws wa 2 1 st1).
    { intros m Hm Hle.
      rewrite tentative_second_of_two, Hes0 in Hle.
      rewrite (spentInWeek_snoc ws (entries st) e0 HD Hd0), Hpl0 in Hle.
      rewrite Hts0.
      set (p0 := tentative ws wa 2 0 st) in *.
      assert (Hp0 : p0 == wa / 2).
      { subst p0. rewrite tentative_first_of_two, Hspent. qdiv. lra. }
      set (f0 := adjustSpend p0 (total - totalSpend st)) in *.
      destruct (adjustSpend_first_of_two p0 wa (total - totalSpend st)
                  Hp0 Hwa Hrem) as [[Hw Hf]|[Hw Hf]]; fold f0 in Hf;
        clearbody f0 p0.
      - pose proof (round2_whole f0 50 Hf) as Hr.
        destruct Hm as [-> | ->]; lra.
      - revert Hf. qdiv. destruct Hm as [-> | ->]; lra. }
    pose proof (Inv_planShop weeklyBudget rnd ws wa 2 1 st1 HI1) as HI2.
    pose proof (redeemedMeetMinimum_planShop ws wa 2 1 st1 HI1 HG1 Hcov1)
      as HG2.
    destruct (planShop_effect ws wa 2 1 st1)
      as (e1 & Hes1 & Hd1 & _).
    change (dayOffset 2 1) with 6%Z in Hd1.
    assert (HD2 : datedBefore (ws + 7)%Z
                    (planShop weeklyBudget rnd ws wa 2 1 st1)).
    { eapply datedBefore_snoc; [done| |lia]. apply HD1. }
    by destruct (Js.ge _ _).
Qed.

Lemma planWeeks_good (todo week : nat) (st : PlanState) :
  Inv st -> redeemedMeetMinimum st ->
  datedBefore (startDate + Z.of_nat week * 7)%Z st ->
  redeemedMeetMinimum (planWeeks weeklyBudget startDate rnd todo week st).
Proof.
  revert week st. induction todo as [|todo IH]; intros week st HI HG HD;
    cbn [planWeeks]; [done|].
  destruct (Js.le _ _) eqn:Hle; [done|].
  destruct (week_good week st Hle HI HG HD) as (HI' & HG' & HD').
  destruct (Js.ge _ _); [done|].
  apply IH; [done..|].
  replace (startDate + Z.of_nat (S week) * 7)%Z
    with (startDate + Z.of_nat week * 7 + 7)%Z by lia.
  done.
Qed.

End RedeemedMinimum.

(** C1. In the plan returned, an entry that records a redeemed coupon plans
    at least that coupon's minimum spend: neither the threshold adjustment
    nor the clamp to the remaining overall budget, nor the rounding to cents,
    takes the spend below it. *)
Theorem redeemed_entry_meets_minimum (b : Q) (s : Date)
  (rnd : nat -> string) (i : nat) (e : ShoppingEntry) (r : ref) :
  Result.entries (optimizeShoppingPlan b s rnd) !! i = Some e ->
  couponUsed e = Some r ->
  exists c,
    Result.coupons (optimizeShoppingPlan b s rnd) !! r = Some c
    /\ minSpend c <= plannedAmount e.
Proof.
  unfold optimizeShoppingPlan, resultOf.
  cbn [Result.entries Result.coupons].
  intros He Hr.
  assert (HG : redeemedMeetMinimum (finalState b s rnd)).
  { unfold finalState. apply planWeeks_good; [apply Inv_initial|..].
    - intros e' He'. cbn in He'. by apply elem_of_nil in He'.
    - intros e' He'. cbn in He'. by apply elem_of_nil in He'. }
  eapply HG; [|done]. by eapply list_elem_of_lookup_2.
Qed.

Lemma redeemed_entry_meets_minimum_witness :
  let p := optimizeShoppingPlan 30 0%Z (fun _ => EmptyString) in
  exists e,
    Result.entries p !! 1%nat = Some e
    /\ couponUsed e = Some 0%nat
    /\ exists c, Result.coupons p !! 0%nat = Some c
                 /\ minSpend c <= plannedAmount e.
Proof.
  cbv zeta. eexists. split; [vm_compute; reflexivity|].
  split; [reflexivity|].
  apply (redeemed_entry_meets_minimum 30 0%Z (fun _ => EmptyString) 1%nat);
    [vm_compute; reflexivity | reflexivity].
Defined.

(** ** Two runs differ in the random identifiers only *)

Section Erasure.

Lemma lookup_erase (h : list Coupon) (r : ref) :
  (eraseId <$> h) !! r = eraseId <$> (h !! r).
Proof. apply list_lookup_fmap. Qed.

Lemma isExpiredUnused_erase (h : list Coupon) (d : Date) (r : ref) :
  isExpiredUnused (eraseId <$> h) d r = isExpiredUnused h d r.
Proof.
  unfold isExpiredUnused. rewrite lookup_erase. by destruct (h !! r).
Qed.

Lemma isUsable_erase (h : list Coupon) (d : Date) (r : ref) :
  isUsable (eraseId <$> h) d r = isUsable h d r.
Proof. unfold isUsable. rewrite lookup_erase. by destruct (h !! r). Qed.

Lemma valueOf_erase (h : list Coupon) (r : ref) :
  valueOf (eraseId <$> h) r = valueOf h r.
Proof. unfold valueOf. rewrite lookup_erase. by destruct (h !! r). Qed.

Lemma compareCoupons_erase (h : list Coupon) (a b : ref) :
  compareCoupons (eraseId <$> h) a b = compareCoupons h a b.
Proof.
  unfold compareCoupons. rewrite !lookup_erase.
  by destruct (h !! a), (h !! b).
Qed.

Lemma sortBy_ext {A} (cmp cmp' : A -> A -> Q) (l : list A) :
  (forall a b, cmp a b = cmp' a b) -> sortBy cmp l = sortBy cmp' l.
Proof.
  intros Hext. induction l as [|x l IH]; [done|].
  cbn [sortBy foldr]. fold (sortBy cmp l). fold (sortBy cmp' l).
  rewrite IH. generalize (sortBy cmp' l). intros s.
  induction s as [|y s IHs]; [done|].
  cbn [insertBy]. by rewrite Hext, IHs.
Qed.

Lemma usableCoupons_erase (d : Date) (st : PlanState) :
  usableCoupons d (eraseState st) = usableCoupons d st.
Proof.
  unfold usableCoupons. cbn [eraseState heap activeCoupons].
  rewrite (filter_ext _ _ (isUsable_erase (heap st) d)).
  apply sortBy_ext, compareCoupons_erase.
Qed.

Lemma dropExpired_erase (st : PlanState) (r : ref) :
  dropExpired (eraseState st) r = eraseState (dropExpired st r).
Proof.
  unfold dropExpired, eraseState. fields. by rewrite valueOf_erase.
Qed.

Lemma removeExpired_erase (d : Date) (st : PlanState) :
  removeExpired d (eraseState st) = eraseState (removeExpired d st).
Proof.
  unfold removeExpired. cbn [eraseState heap activeCoupons].
  rewrite (filter_ext _ _ (isExpiredUnused_erase (heap st) d)).
  generalize (List.filter (isExpiredUnused (heap st) d) (activeCoupons st)).
  intros E. revert st. induction E as [|r E IH]; intros st; [done|].
  cbn [fold_left]. rewrite <- IH. f_equal. apply dropExpired_erase.
Qed.

Lemma redeem_erase (d : Date) (p : Q) (st : PlanState) :
  redeem d p (eraseState st) = eraseRedemption (redeem d p st).
Proof.
  unfold redeem. rewrite usableCoupons_erase.
  destruct (usableCoupons d st) as [|best rest]; [done|].
  cbn [eraseState heap]. rewrite lookup_erase.
  destruct (heap st !! best) as [c|]; [|done]. cbn [fmap option_fmap option_map].
  change (minSpend (eraseId c)) with (minSpend c).
  destruct (Js.ge p (minSpend c)); [|done].
  unfold eraseRedemption, eraseState. cbn. f_equal. f_equal.
  by rewrite list_fmap_insert.
Qed.

Lemma getCouponEarned_erase (sfx : string) (f : Q) (d : Date) :
  eraseId <$> getCouponEarned sfx f d = getCouponEarned EmptyString f d.
Proof. unfold getCouponEarned. by repeat case_match. Qed.

Lemma recordShop_erase (rnd : nat -> string) (d : Date) (f : Q)
  (cu : option ref) (sv : Q) (st : PlanState) :
  recordShop blank d f cu sv (eraseState st)
  = eraseState (recordShop rnd d f cu sv st).
Proof.
  unfold recordShop, eraseState. fields. rewrite length_fmap.
  unfold blank. rewrite <- (getCouponEarned_erase (rnd (length (heap st)))).
  destruct (getCouponEarned (rnd (length (heap st))) f d) as [c|];
    cbn [fmap option_fmap option_map]; [|done].
  by rewrite fmap_app.
Qed.

End Erasure.

Section Determinism.

Variable weeklyBudget : Q.
Variable startDate : Date.
Variable rnd : nat -> string.

Lemma planShop_erase (ws : Date) (wa : Q) (shops i : nat) (st : PlanState) :
  planShop weeklyBudget blank ws wa shops i (eraseState st)
  = eraseState (planShop weeklyBudget rnd ws wa shops i st).
Proof.
  unfold planShop. rewrite removeExpired_erase, redeem_erase.
  cbn [eraseState entries totalSpend eraseRedemption red_amount red_coupon
       red_savings red_state].
  apply recordShop_erase.
Qed.

Lemma planShops_erase (ws : Date) (wa : Q) (shops todo i : nat)
  (st : PlanState) :
  planShops weeklyBudget blank ws wa shops todo i (eraseState st)
  = eraseState (planShops weeklyBudget rnd ws wa shops todo i st).
Proof.
  revert i st. induction todo as [|todo IH]; intros i st; [done|].
  cbn [planShops]. rewrite planShop_erase.
  cbn [eraseState totalSpend]. destruct (Js.ge _ _); [done|]. apply IH.
Qed.

Lemma planWeeks_erase (todo week : nat) (st : PlanState) :
  planWeeks weeklyBudget startDate blank todo week (eraseState st)
  = eraseState (planWeeks weeklyBudget startDate rnd todo week st).
Proof.
  revert week st. induction todo as [|todo IH]; intros week st; [done|].
  cbn [planWeeks]. cbn [eraseState totalSpend].
  destruct (Js.le _ _); [done|].
  rewrite planShops_erase. cbn [eraseState totalSpend].
  destruct (Js.ge _ _); [done|]. apply IH.
Qed.

Lemma planWeeks_erase_initial (todo : nat) :
  planWeeks weeklyBudget startDate blank todo 0 initialState
  = eraseState (planWeeks weeklyBudget startDate rnd todo 0 initialState).
Proof. by rewrite <- planWeeks_erase. Qed.

Lemma finalState_erase :
  finalState weeklyBudget startDate blank
  = eraseState (finalState weeklyBudget startDate rnd).
Proof. apply planWeeks_erase_initial. Qed.

Lemma resultOf_erase (st : PlanState) :
  eraseResult (resultOf st) = resultOf (eraseState st).
Proof. reflexivity. Qed.

Lemma optimizeShoppingPlan_erase :
  eraseResult (optimizeShoppingPlan weeklyBudget startDate rnd)
  = optimizeShoppingPlan weeklyBudget startDate blank.
Proof.
  unfold optimizeShoppingPlan. rewrite finalState_erase.
  apply resultOf_erase.
Qed.

Lemma idsAsCreated_planShop (ws : Date) (wa : Q) (shops i : nat)
  (st : PlanState) :
  idsAsCreated rnd st ->
  idsAsCreated rnd (planShop weeklyBudget rnd ws wa shops i st).
Proof.
  intros Hid.
  assert (Hrec : forall d f cu sv st0,
            idsAsCreated rnd st0 ->
            idsAsCreated rnd (recordShop rnd d f cu sv st0)).
  { intros d f cu sv st0 H0 x c. unfold recordShop. fields.
    destruct (getCouponEarned _ f d) as [c0|] eqn:Ec; [|apply H0].
    apply getCouponEarned_inv in Ec as [t ->].
    intros [Hx|[Hx Hc]]%lookup_app_Some; [by apply H0|].
    apply list_lookup_singleton_Some in Hc as [Hn <-].
    cbn [id type earnedDate createCoupon]. f_equal. f_equal. lia. }
  pose proof (planShop_cases weeklyBudget rnd ws wa shops i st) as Hcases.
  cbv zeta in Hcases.
  assert (H0 : idsAsCreated rnd
                 (removeExpired (ws + dayOffset shops i)%Z st)).
  { intros x c. rewrite removeExpired_heap. apply Hid. }
  destruct Hcases as [->|(best & rest & c & Hu & Hc & Hp & ->)].
  - by apply Hrec.
  - apply Hrec. intros x c'. unfold useCoupon. fields.
    destruct (decide (x = best)) as [->|Hne].
    + rewrite list_lookup_insert_eq by by eapply lookup_lt_Some.
      intros [= <-]. cbn [id type earnedDate markUsed]. by apply H0.
    + rewrite list_lookup_insert_ne by done. apply H0.
Qed.

End Determinism.

(** In a state the planner can reach, the references held by the entries
    resolve, to coupons that carry their creation identifier and that some
    entry earned. *)
Lemma references_resolve (rnd : nat -> string) (st : PlanState) :
  Inv st -> idsAsCreated rnd st ->
  forall i e x,
    entries st !! i = Some e ->
    couponUsed e = Some x \/ couponEarned e = Some x ->
    exists c,
      heap st !! x = Some c
      /\ id c = mkCouponId (type c) (earnedDate c) (rnd x)
      /\ exists e', e' ∈ entries st /\ couponEarned e' = Some x.
Proof.
  intros [Hval Hnd Hua Ht Hec Her Huc Hue Hrn Hru Hsv Hsw Hsp Hms] Hid
    i e x He Hx.
  change (option_list None) with (@nil nat) in Hru.
  apply list_elem_of_lookup_2 in He.
  assert (Hlt : (x < length (heap st))%nat).
  { destruct Hx as [Hx|Hx].
    - assert (x ∈ redeemedRefs (entries st) ++ []) as Hin.
      { rewrite app_nil_r. unfold redeemedRefs. apply list_elem_of_omap.
        by exists e. }
      apply Hru in Hin as (c & Hc & _). by eapply lookup_lt_Some.
    - assert (x ∈ earnedRefs (entries st)) as Hin.
      { unfold earnedRefs. apply list_elem_of_omap. by exists e. }
      rewrite Her in Hin. apply elem_of_seq in Hin. lia. }
  destruct (lookup_lt_is_Some_2 (heap st) x Hlt) as [c Hc].
  exists c. split; [done|]. split; [by apply Hid|].
  assert (x ∈ earnedRefs (entries st)) as Hin.
  { rewrite Her. apply elem_of_seq. lia. }
  unfold earnedRefs in Hin. apply list_elem_of_omap in Hin as (e' & ? & ?).
  by exists e'.
Qed.

Lemma entries_eraseResult (r : Result.t) :
  Result.entries (eraseResult r) = Result.entries r.
Proof. reflexivity. Qed.

(** C10. Two runs on the same budget and start date return the same plan
    once the random suffix of every coupon identifier is blanked: the same
    entries, coupon for coupon the same fields, the same totals.  In either
    run an entry's reference to the coupon it earned or redeemed points at a
    coupon object of the result whose identifier is the one it was created
    with, and that object is the one some entry of the plan earned. *)
Theorem plan_deterministic_up_to_identifiers (b : Q) (s : Date)
  (rnd1 rnd2 : nat -> string) :
  eraseResult (optimizeShoppingPlan b s rnd1)
  = eraseResult (optimizeShoppingPlan b s rnd2)
  /\ Result.entries (optimizeShoppingPlan b s rnd1)
     = Result.entries (optimizeShoppingPlan b s rnd2)
  /\ (forall i e x,
        Result.entries (optimizeShoppingPlan b s rnd1) !! i = Some e ->
        couponUsed e = Some x \/ couponEarned e = Some x ->
        exists c,
          Result.coupons (optimizeShoppingPlan b s rnd1) !! x = Some c
          /\ id c = mkCouponId (type c) (earnedDate c) (rnd1 x)
          /\ exists e',
               e' ∈ Result.entries (optimizeShoppingPlan b s rnd1)
               /\ couponEarned e' = Some x).
Proof.
  assert (E : eraseResult (optimizeShoppingPlan b s rnd1)
              = eraseResult (optimizeShoppingPlan b s rnd2))
    by by rewrite !optimizeShoppingPlan_erase.
  split; [done|]. split.
  { rewrite <- (entries_eraseResult (optimizeShoppingPlan b s rnd1)).
    rewrite <- (entries_eraseResult (optimizeShoppingPlan b s rnd2)).
    by rewrite E. }
  clear E. unfold optimizeShoppingPlan, resultOf.
  cbn [Result.entries Result.coupons].
  apply references_resolve; [apply Inv_finalState|].
  unfold finalState.
  apply (planWeeks_preserves b s rnd1 (idsAsCreated rnd1)).
  - intros. by apply idsAsCreated_planShop.
  - by intros y c Hy.
Qed.

(** * Further properties of the planner and of its callers *)

(** ** Every shop runs in a [ShopContext] *)

Section InContext.

Variable weeklyBudget : Q.
Variable startDate : Date.
Variable rnd : nat -> string.
Variable G : PlanState -> Prop.

Hypothesis G_planShop :
  forall ws wa shops i st,
    ShopContext weeklyBudget startDate ws wa shops i st -> G st ->
    G (planShop weeklyBudget rnd ws wa shops i st).

Lemma week_in_context (week : nat) (st : PlanState) :
  let ws := (startDate + Z.of_nat week * 7)%Z in
  let wa := Js.min weeklyBudget (totalBudget weeklyBudget - totalSpend st) in
  let shops := determineOptimalShopsPerWeek wa in
  let st' := planShops weeklyBudget rnd ws wa shops shops 0 st in
  (week < 10)%nat -> Js.le wa 0 = false ->
  Inv st -> G st -> datedBefore ws st ->
  Inv st' /\ G st' /\ datedBefore (ws + 7)%Z st'.
Proof.
  intros ws wa shops st' Hweek Hpos%JsFacts.le_false HI HG HD. subst st'.
  assert (wa <= totalBudget weeklyBudget - totalSpend st
          /\ wa <= weeklyBudget) as [Hrem Hwb].
  { subst wa.
    destruct (JsFacts.min_case weeklyBudget
                (totalBudget weeklyBudget - totalSpend st))
      as [[? ->]|[? ->]]; split; lra. }
  pose proof (spentInWeek_none ws (entries st) HD) as Hspent.
  assert (Hw : exists w : nat,
             (w < 10)%nat /\ ws = (startDate + Z.of_nat w * 7)%Z)
    by by exists week.
  assert (Hctx0 : ShopContext weeklyBudget startDate ws wa shops 0 st).
  { assert (Ht0 : tentative ws wa shops 0 st == wa
                  \/ tentative ws wa shops 0 st == wa * 0.5).
    { destruct (shops_one_or_two wa) as [E|[E _]]; fold shops in E;
        rewrite E.
      - left. rewrite tentative_only_shop, Hspent. lra.
      - right. rewrite tentative_first_of_two, Hspent. qdiv. lra. }
    split.
    - done.
    - intros m _ Hm. destruct Ht0 as [Ht0|Ht0]; rewrite Ht0 in Hm; lra.
    - cbn [dayOffset Nat.eqb]. by rewrite Z.add_0_r.
    - done.
    - destruct (shops_one_or_two wa) as [E|[E _]]; fold shops in E; lia.
    - split; lra.
    - destruct Ht0 as [Ht0|Ht0]; rewrite Ht0; split; lra.
    - lra. }
  pose proof (Inv_planShop weeklyBudget rnd ws wa shops 0 st HI) as HI1.
  pose proof (G_planShop ws wa shops 0 st Hctx0 HG) as HG1.
  destruct (planShop_effect weeklyBudget rnd ws wa shops 0 st)
    as (e0 & Hes0 & Hd0 & Hpl0 & Hts0 & _).
  cbn [dayOffset Nat.eqb] in Hd0. rewrite Z.add_0_r in Hd0.
  assert (HD1 : datedBefore (ws + 6)%Z
                  (planShop weeklyBudget rnd ws wa shops 0 st)).
  { eapply datedBefore_snoc; [done| |lia].
    intros e' He'. specialize (HD e' He'). lia. }
  assert (HD1' : datedBefore (ws + 7)%Z
                   (planShop weeklyBudget rnd ws wa shops 0 st)).
  { intros e' He'. specialize (HD1 e' He'). lia. }
  destruct (shops_one_or_two wa) as [E|[E Hwa]]; fold shops in E.
  - rewrite E in *. cbn [planShops]. by destruct (Js.ge _ _).
  - rewrite E in *. cbn [planShops].
    destruct (Js.ge _ _) eqn:Hbreak; [done|]. apply JsFacts.ge_false in Hbreak.
    set (st1 := planShop weeklyBudget rnd ws wa 2 0 st) in *.
    set (p0 := tentative ws wa 2 0 st) in *.
    assert (Hp0 : p0 == wa / 2).
    { subst p0. rewrite tentative_first_of_two, Hspent. qdiv. lra. }
    set (f0 := adjustSpend p0 (totalBudget weeklyBudget - totalSpend st))
      in *.
    pose proof (round2_close f0) as [Hr1 Hr2].
    assert (Ht1 : tentative ws wa 2 1 st1 == wa - Js.round2 f0).
    { rewrite tentative_second_of_two, Hes0.
      rewrite (spentInWeek_snoc ws (entries st) e0 HD Hd0), Hpl0. lra. }
    assert (Hf0 : (wa <= 100 /\ Js.round2 f0 == 50 /\ f0 == 50)
                  \/ (100 <= wa /\ f0 == wa * 0.5)).
    { destruct (adjustSpend_first_of_two p0 wa
                  (totalBudget weeklyBudget - totalSpend st) Hp0 Hwa Hrem)
        as [[Hw' Hf]|[Hw' Hf]]; fold f0 in Hf.
      - left. pose proof (round2_whole f0 50 Hf) as Hr.
        split; [done|]. split; [|done]. by rewrite Hr.
      - right. split; [done|]. clearbody f0 p0. qdiv. lra. }
    clearbody f0 p0.
    assert (Hctx1 : ShopContext weeklyBudget startDate ws wa 2 1 st1).
    { split.
      - done.
      - intros m Hm Hle. rewrite Ht1 in Hle. rewrite Hts0.
        destruct Hf0 as [(? & ? & ?)|(? & ?)], Hm as [-> | ->]; lra.
      - change (dayOffset 2 1) with 6%Z. exact HD1.
      - done.
      - lia.
      - split; lra.
      - rewrite Ht1. destruct Hf0 as [(? & ? & ?)|(? & ?)]; split; lra.
      - lra. }
    pose proof (Inv_planShop weeklyBudget rnd ws wa 2 1 st1 HI1) as HI2.
    pose proof (G_planShop ws wa 2 1 st1 Hctx1 HG1) as HG2.
    destruct (planShop_effect weeklyBudget rnd ws wa 2 1 st1)
      as (e1 & Hes1 & Hd1 & _).
    change (dayOffset 2 1) with 6%Z in Hd1.
    assert (HD2 : datedBefore (ws + 7)%Z
                    (planShop weeklyBudget rnd ws wa 2 1 st1)).
    { eapply datedBefore_snoc; [done| |lia]. apply HD1'. }
    by destruct (Js.ge _ _).
Qed.

Lemma planWeeks_in_context (todo week : nat) (st : PlanState) :
  (week + todo <= 10)%nat ->
  Inv st -> G st -> datedBefore (startDate + Z.of_nat week * 7)%Z st ->
  G (planWeeks weeklyBudget startDate rnd todo week st).
Proof.
  revert week st.
  induction todo as [|todo IH]; intros week st Hw HI HG HD;
    cbn [planWeeks]; [done|].
  destruct (Js.le _ _) eqn:Hle; [done|].
  destruct (week_in_context week st ltac:(lia) Hle HI HG HD)
    as (HI' & HG' & HD').
  destruct (Js.ge _ _); [done|].
  apply IH; [lia | done..|].
  replace (startDate + Z.of_nat (S week) * 7)%Z
    with (startDate + Z.of_nat week * 7 + 7)%Z by lia.
  done.
Qed.

(** A property that every shop keeps, given its context, holds of the
    state the planner ends in. *)
Lemma finalState_in_context :
  G initialState -> G (finalState weeklyBudget startDate rnd).
Proof.
  intros H0. unfold finalState.
  apply planWeeks_in_context; [lia | apply Inv_initial | done |].
  intros e He. cbn in He. by apply elem_of_nil in He.
Qed.

End InContext.

(** ** The schedule: dates, identifiers, number of entries *)

Lemma planShop_new_entry (b : Q) (rnd : nat -> string) (ws : Date) (wa : Q)
  (shops i : nat) (st : PlanState) :
  exists e,
    entries (planShop b rnd ws wa shops i st) = entries st ++ [e]
    /\ entry_id e = entryId st
    /\ date e = (ws + dayOffset shops i)%Z
    /\ status e = planned
    /\ entryId (planShop b rnd ws wa shops i st) = S (entryId st).
Proof.
  pose proof (planShop_cases b rnd ws wa shops i st) as Hcases.
  cbv zeta in Hcases.
  pose proof (removeExpired_eq (ws + dayOffset shops i)%Z st) as Hsw.
  destruct Hcases as [->|(best & rest & c & Hu & Hc & Hp & ->)];
    unfold recordShop, useCoupon; fields; rewrite Hsw; fields;
    eexists; by repeat split.
Qed.

Lemma dayOffset_slot (shops i : nat) :
  (i < shops)%nat -> (shops <= 2)%nat ->
  dayOffset shops i = 0%Z \/ (i = 1%nat /\ dayOffset shops i = 6%Z).
Proof.
  intros Hi Hs.
  destruct shops as [|[|[|?]]], i as [|[|?]]; try lia;
    first [by left | by right].
Qed.

Lemma planShops_length (b : Q) (rnd : nat -> string) (ws : Date) (wa : Q)
  (shops todo i : nat) (st : PlanState) :
  (length (entries (planShops b rnd ws wa shops todo i st))
   <= length (entries st) + todo)%nat.
Proof.
  revert i st. induction todo as [|todo IH]; intros i st; cbn [planShops].
  - lia.
  - destruct (planShop_new_entry b rnd ws wa shops i st) as (e & He & _).
    assert (length (entries (planShop b rnd ws wa shops i st))
            = S (length (entries st))) as Hlen.
    { rewrite He, length_app. cbn. lia. }
    destruct (Js.ge _ _); [lia|].
    specialize (IH (S i) (planShop b rnd ws wa shops i st)). lia.
Qed.

Lemma planWeeks_length (b : Q) (s : Date) (rnd : nat -> string)
  (todo week : nat) (st : PlanState) :
  (length (entries (planWeeks b s rnd todo week st))
   <= length (entries st) + 2 * todo)%nat.
Proof.
  revert week st. induction todo as [|todo IH]; intros week st;
    cbn [planWeeks]; [lia|].
  destruct (Js.le _ _); [lia|].
  set (wa := Js.min b (totalBudget b - totalSpend st)).
  set (ws := (s + Z.of_nat week * 7)%Z).
  pose proof (planShops_length b rnd ws wa (determineOptimalShopsPerWeek wa)
                (determineOptimalShopsPerWeek wa) 0 st) as Hweek.
  assert ((determineOptimalShopsPerWeek wa <= 2)%nat) as Hshops.
  { destruct (shops_one_or_two wa) as [->|[-> _]]; lia. }
  destruct (Js.ge _ _); [lia|].
  match goal with
  | |- context [planWeeks b s rnd todo (S week) ?st1] =>
      specialize (IH (S week) st1)
  end.
  lia.
Qed.

Lemma finalState_length (b : Q) (s : Date) (rnd : nat -> string) :
  (length (entries (finalState b s rnd)) <= 20)%nat.
Proof.
  unfold finalState. etrans; [apply planWeeks_length|]. cbn. lia.
Qed.

Lemma scheduled_planShop (b : Q) (s : Date) (rnd : nat -> string)
  (ws : Date) (wa : Q) (shops i : nat) (st : PlanState) :
  ShopContext b s ws wa shops i st -> scheduled s st ->
  scheduled s (planShop b rnd ws wa shops i st).
Proof.
  intros Hctx (Hid & Hall & Hord).
  destruct (planShop_new_entry b rnd ws wa shops i st)
    as (e & He & Heid & Hed & Hes & Hnext).
  destruct (ctx_week _ _ _ _ _ _ _ Hctx) as (w & Hw & Hws).
  destruct (ctx_slot _ _ _ _ _ _ _ Hctx) as [Hi Hs].
  pose proof (ctx_dated _ _ _ _ _ _ _ Hctx) as Hdated.
  unfold scheduled. rewrite He. split; [|split].
  - rewrite Hnext, Hid, length_app. cbn. lia.
  - intros k e' [Hk|[Hk He']]%lookup_app_Some; [by apply Hall|].
    apply list_lookup_singleton_Some in He' as [Hk' <-].
    split; [lia|]. split; [done|]. exists w. split; [done|]. rewrite Hed.
    destruct (dayOffset_slot shops i Hi Hs) as [->|[_ ->]]; lia.
  - intros j k ej ek Hjk Hj Hk.
    apply lookup_app_Some in Hk as [Hk|[Hlen Hk]].
    + assert (j < length (entries st))%nat
        by (apply lookup_lt_Some in Hk; lia).
      rewrite lookup_app_l in Hj by done. exact (Hord j k ej ek Hjk Hj Hk).
    + apply list_lookup_singleton_Some in Hk as [Hk' <-].
      rewrite lookup_app_l in Hj by lia.
      rewrite Hed. apply Hdated. by eapply list_elem_of_lookup_2.
Qed.

Lemma finalState_scheduled (b : Q) (s : Date) (rnd : nat -> string) :
  scheduled s (finalState b s rnd).
Proof.
  apply finalState_in_context.
  - intros ws wa shops i st Hctx Hst. by apply scheduled_planShop.
  - split; [done|split].
    + intros k e Hk. cbn in Hk. by rewrite lookup_nil in Hk.
    + intros j k ej ek _ Hj. cbn in Hj. by rewrite lookup_nil in Hj.
Qed.

(** X1.  The plan has at most twenty entries.  They are numbered 0, 1, 2, ...
    in list order, all have status planned, each is dated on the first or
    the seventh day of one of the ten weeks that begin at the start date,
    and the dates increase strictly along the list. *)
Theorem plan_schedule (b : Q) (s : Date) (rnd : nat -> string) :
  let es := Result.entries (optimizeShoppingPlan b s rnd) in
  (length es <= 20)%nat
  /\ (forall k e, es !! k = Some e ->
        entry_id e = k /\ status e = planned
        /\ exists w : nat,
             (w < 10)%nat
             /\ (date e = s + Z.of_nat w * 7
                 \/ date e = s + Z.of_nat w * 7 + 6)%Z)
  /\ (forall j k ej ek,
        (j < k)%nat -> es !! j = Some ej -> es !! k = Some ek ->
        (date ej < date ek)%Z).
Proof.
  unfold optimizeShoppingPlan, resultOf; cbn [Result.entries].
  pose proof (finalState_length b s rnd) as Hlen.
  pose proof (finalState_scheduled b s rnd) as (_ & Hall & Hord).
  revert Hlen Hall Hord. generalize (finalState b s rnd). intros st.
  cbn. intros Hlen Hall Hord. split; [lia|]. by split.
Qed.

Lemma one_per_date (es : list ShoppingEntry) (d : Date) :
  (forall j k ej ek,
     (j < k)%nat -> es !! j = Some ej -> es !! k = Some ek ->
     (date ej < date ek)%Z) ->
  (length (CalendarView.getEntriesForDate es d) <= 1)%nat.
Proof.
  unfold CalendarView.getEntriesForDate.
  induction es as [|a es IH]; intros Hord; cbn [List.filter]; [cbn; lia|].
  assert (forall j k ej ek,
            (j < k)%nat -> es !! j = Some ej -> es !! k = Some ek ->
            (date ej < date ek)%Z) as Htl.
  { intros j k ej ek Hjk Hj Hk.
    apply (Hord (S j) (S k) ej ek); [lia|done|done]. }
  destruct (Z.eqb_spec (date a) d) as [Had|Had]; [|by apply IH].
  assert (List.filter (fun entry => (date entry =? d)%Z) es = []) as ->;
    [|cbn; lia].
  clear IH Htl. induction es as [|a' es IH]; [done|]. cbn [List.filter].
  assert (date a < date a')%Z as Hlt.
  { apply (Hord 0%nat 1%nat a a'); [lia|done|done]. }
  destruct (Z.eqb_spec (date a') d) as [Ha'|Ha']; [lia|].
  apply IH. intros j k ej ek Hjk Hj Hk.
  destruct j as [|j].
  - destruct k as [|k]; [lia|].
    apply (Hord 0%nat (S (S k)) ej ek); [lia|done|done].
  - destruct k as [|k]; [lia|].
    apply (Hord (S (S j)) (S (S k)) ej ek); [lia|done|done].
Qed.

(** X2.  A day cell of the calendar shows at most one entry of the plan,
    and none for a day before the start date or seventy or more days
    after it. *)
Theorem calendar_day_has_at_most_one_entry (b : Q) (s : Date)
  (rnd : nat -> string) (d : Date) :
  let shown :=
    CalendarView.getEntriesForDate
      (Result.entries (optimizeShoppingPlan b s rnd)) d in
  (length shown <= 1)%nat
  /\ ((d < s \/ s + 70 <= d)%Z -> shown = []).
Proof.
  unfold optimizeShoppingPlan, resultOf; cbn [Result.entries].
  pose proof (finalState_scheduled b s rnd) as (_ & Hall & Hord).
  revert Hall Hord. generalize (finalState b s rnd). intros st Hall Hord.
  cbv zeta. split; [by apply one_per_date|].
  intros Hd. unfold CalendarView.getEntriesForDate.
  destruct (List.filter _ _) as [|e l] eqn:Hf; [done|exfalso].
  assert (List.In e (List.filter (fun entry => (date entry =? d)%Z)
                       (entries st))) as Hin by (rewrite Hf; by left).
  apply List.filter_In in Hin as [Hin Hde].
  apply Z.eqb_eq in Hde.
  apply list_elem_of_In, list_elem_of_lookup in Hin as [k Hk].
  destruct (Hall k e Hk) as (_ & _ & w & Hw & Hdate). lia.
Qed.

(** ** What one shop does, in terms of the state it starts from *)

Lemma planShop_outcome (b : Q) (rnd : nat -> string) (ws : Date) (wa : Q)
  (shops i : nat) (st : PlanState) :
  let d := (ws + dayOffset shops i)%Z in
  let p := tentative ws wa shops i st in
  let f := adjustSpend p (totalBudget b - totalSpend st) in
  let st0 := removeExpired d st in
  planShop b rnd ws wa shops i st = recordShop rnd d f None 0 st0
  \/ exists best c,
       best ∈ activeCoupons st /\ heap st !! best = Some c
       /\ used c = false /\ (validFrom c <= d)%Z /\ (d <= validUntil c)%Z
       /\ minSpend c <= p
       /\ planShop b rnd ws wa shops i st
          = recordShop rnd d f (Some best) (value c)
              (useCoupon d best c st0).
Proof.
  intros d p f st0. subst st0.
  pose proof (removeExpired_heap d st) as Hh.
  pose proof (removeExpired_entries d st) as He.
  pose proof (removeExpired_totalSpend d st) as Hts.
  assert (Ht : tentative ws wa shops i (removeExpired d st) = p).
  { unfold tentative, p, tentative. by rewrite He. }
  pose proof (planShop_cases b rnd ws wa shops i st) as Hcases.
  cbv zeta in Hcases. fold d in Hcases. rewrite Ht, Hts in Hcases.
  fold f in Hcases.
  destruct Hcases as [->|(best & rest & c & Hu & Hc & Hp & ->)];
    [by left|right].
  exists best, c. apply usable_head in Hu as [Hact Hus].
  apply removeExpired_active in Hact as [Hact _].
  rewrite Hh in Hc, Hus.
  apply isUsable_inv in Hus as (c' & Hc' & Hun & H1 & H2).
  rewrite Hc in Hc'. injection Hc' as <-.
  by repeat split.
Qed.

Ltac adjust_cases p :=
  unfold adjustSpend, optimizeSpendForCoupon;
  destruct (JsFacts.min_case 49.99 p) as [[? ->]|[? ->]];
  destruct (JsFacts.max_case 50 p) as [[? ->]|[? ->]];
  js_cases; cbn [andb];
  repeat match goal with
  | |- context [Js.min ?a ?b] =>
      destruct (JsFacts.min_case a b) as [[? ->]|[? ->]]
  end.

Lemma adjustSpend_bounds (p r : Q) :
  0 < p -> 0 < r -> 0 < adjustSpend p r /\ adjustSpend p r <= r.
Proof. intros Hp Hr. adjust_cases p; split; lra. Qed.

(** ** The budget is never overspent *)





Lemma planShop_step (b : Q) (rnd : nat -> string) (ws : Date) (wa : Q)
  (shops i : nat) (st : PlanState) :
  let d := (ws + dayOffset shops i)%Z in
  let p := tentative ws wa shops i st in
  let f := adjustSpend p (totalBudget b - totalSpend st) in
  exists e,
    ShopStep d p f (getCouponEarned (rnd (length (heap st))) f d)
      st (planShop b rnd ws wa shops i st) e.
Proof.
  intros d p f.
  pose proof (removeExpired_eq d st) as Hsw.
  destruct (planShop_outcome b rnd ws wa shops i st)
    as [->|(best & c & Hact & Hc & Hun & H1 & H2 & Hp & ->)];
    fold d; fold p; fold f; unfold recordShop, useCoupon; fields;
    rewrite Hsw; fields; rewrite ?length_insert;
    eexists; split; fields;
    cbn [entry_id date plannedAmount couponEarned couponUsed savings status];
    try reflexivity.
  - destruct (getCouponEarned _ _ _); cbn; by rewrite ?app_nil_r.
  - exists c. repeat (split; [done|]).
    destruct (getCouponEarned _ _ _); cbn; by rewrite ?app_nil_r.
Qed.

(** ** The life cycle of a coupon *)

Lemma couponOk_unused (c : Coupon) :
  couponOk c -> used c = false -> exists sfx t D, c = createCoupon sfx t D.
Proof.
  intros (sfx & t & D & [->|(d & -> & _)]) Hun; [by eauto|done].
Qed.

Lemma heap_step (d : Date) (p f : Q) (earned : option Coupon)
  (st st' : PlanState) (e : ShoppingEntry) :
  ShopStep d p f earned st st' e ->
  forall x c, heap st !! x = Some c ->
    exists c',
      heap st' !! x = Some c'
      /\ type c' = type c /\ value c' = value c
      /\ earnedDate c' = earnedDate c
      /\ (used c = true -> c' = c).
Proof.
  intros Hstep x c Hx. pose proof (step_used _ _ _ _ _ _ _ Hstep) as Hu.
  destruct (couponUsed e) as [y|].
  - destruct Hu as (cy & Hy & _ & Hun & _ & _ & _ & _ & -> & _).
    destruct (decide (x = y)) as [->|Hne].
    + exists (markUsed d cy). rewrite Hy in Hx. injection Hx as <-.
      split; [|by rewrite Hun].
      apply lookup_app_l_Some, list_lookup_insert_eq.
      by eapply lookup_lt_Some.
    + exists c. split; [|done].
      apply lookup_app_l_Some. by rewrite list_lookup_insert_ne.
  - destruct Hu as (_ & -> & _). exists c. split; [|done].
    by apply lookup_app_l_Some.
Qed.

Lemma lifecycle_step (d : Date) (p f : Q) (sfx : string)
  (st st' : PlanState) (e : ShoppingEntry) :
  ShopStep d p f (getCouponEarned sfx f d) st st' e ->
  lifecycle st -> lifecycle st'.
Proof.
  intros Hstep [Hok Hlinked].
  pose proof (heap_step _ _ _ _ _ _ _ Hstep) as Hheap.
  pose proof (step_used _ _ _ _ _ _ _ Hstep) as Hu.
  pose proof (step_earned _ _ _ _ _ _ _ Hstep) as He.
  pose proof (step_date _ _ _ _ _ _ _ Hstep) as Hd.
  split.
  - assert (Forall couponOk (option_list (getCouponEarned sfx f d))) as Hnew.
    { destruct (getCouponEarned sfx f d) as [c|] eqn:Hg; [|by constructor].
      apply getCouponEarned_inv in Hg as [t ->].
      apply Forall_singleton. exists sfx, t, d. by left. }
    destruct (couponUsed e) as [y|].
    + destruct Hu as (cy & Hy & _ & Hun & H1 & H2 & _ & _ & -> & _).
      apply Forall_app. split; [|done].
      apply Forall_insert; [done|].
      assert (couponOk cy) as Hcy.
      { eapply (proj1 (Forall_forall _ _) Hok).
        by eapply list_elem_of_lookup_2. }
      destruct (couponOk_unused cy Hcy Hun) as (sfx' & t & D & ->).
      exists sfx', t, D. right. exists d. split; [done|].
      cbn in H1, H2. lia.
    + destruct Hu as (_ & -> & _). by apply Forall_app.
  - rewrite (step_entries _ _ _ _ _ _ _ Hstep). apply Forall_app. split.
    + eapply Forall_impl; [exact Hlinked|].
      intros e0 [Hearn Huse]. split.
      * intros x Hx. destruct (Hearn x Hx) as (c & Hc & Hdate).
        destruct (Hheap x c Hc) as (c' & Hc' & _ & _ & Hed & _).
        exists c'. split; [done|congruence].
      * destruct (couponUsed e0) as [x|]; [|done].
        destruct Huse as (c & Hc & Hused & Hud & Hsv).
        destruct (Hheap x c Hc) as (c' & Hc' & _ & _ & _ & Hsame).
        rewrite (Hsame Hused) in Hc'. by exists c.
    + apply Forall_singleton. split.
      * intros x Hx. rewrite He in Hx.
        destruct (getCouponEarned sfx f d) as [c|] eqn:Hg; [|done].
        injection Hx as <-. exists c.
        apply getCouponEarned_inv in Hg as [t ->]. split; [|by rewrite Hd].
        destruct (couponUsed e) as [y|].
        -- destruct Hu as (cy & _ & _ & _ & _ & _ & _ & _ & -> & _).
           rewrite lookup_app_r; rewrite length_insert; [|done].
           by rewrite Nat.sub_diag.
        -- destruct Hu as (_ & -> & _).
           rewrite lookup_app_r; [|done]. by rewrite Nat.sub_diag.
      * destruct (couponUsed e) as [y|]; [|by destruct Hu].
        destruct Hu as (cy & Hy & _ & _ & _ & _ & _ & Hsv & -> & _).
        exists (markUsed d cy). split; [|by rewrite Hd].
        apply lookup_app_l_Some, list_lookup_insert_eq.
        by eapply lookup_lt_Some.
Qed.

Lemma finalState_lifecycle (b : Q) (s : Date) (rnd : nat -> string) :
  lifecycle (finalState b s rnd).
Proof.
  apply finalState_in_context.
  - intros ws wa shops i st _.
    destruct (planShop_step b rnd ws wa shops i st) as [e He].
    by eapply lifecycle_step.
  - split; by constructor.
Qed.

(** X4.  Every coupon of the plan is as [createCoupon] built it: valid from
    the day after it was earned, a small one worth 5 on a spend of 25 for
    six more days, a large one worth 10 on a spend of 50 for nine more
    days.  A coupon without a day of use is unused; a coupon with one is
    used, and that day lies within its validity window. *)
Theorem plan_coupons_life_cycle (b : Q) (s : Date) (rnd : nat -> string)
  (c : Coupon) :
  c ∈ Result.coupons (optimizeShoppingPlan b s rnd) ->
  validFrom c = (earnedDate c + 1)%Z
  /\ ((type c = small /\ value c = 5 /\ minSpend c = 25
       /\ validUntil c = (earnedDate c + 7)%Z)
      \/ (type c = large /\ value c = 10 /\ minSpend c = 50
          /\ validUntil c = (earnedDate c + 10)%Z))
  /\ match usedDate c with
     | None => used c = false
     | Some d => used c = true /\ (validFrom c <= d <= validUntil c)%Z
     end.
Proof.
  unfold optimizeShoppingPlan, resultOf; cbn [Result.coupons].
  pose proof (finalState_lifecycle b s rnd) as [Hok _].
  revert Hok. generalize (finalState b s rnd). intros st Hok Hc.
  apply (proj1 (Forall_forall _ _) Hok) in Hc.
  destruct Hc as (sfx & t & D & [->|(d & -> & H1 & H2)]).
  - split; [done|]. split; [|done].
    destruct t; [left|right]; repeat split; cbn; lia.
  - split; [done|]. split.
    + destruct t; [left|right]; repeat split; cbn; lia.
    + cbn [usedDate markUsed used validFrom validUntil createCoupon].
      split; [done|]. lia.
Qed.

Lemma plan_coupons_life_cycle_witness :
  exists c,
    Result.coupons (optimizeShoppingPlan 30 0%Z (fun _ => EmptyString))
      !! 0%nat = Some c
    /\ validFrom c = (earnedDate c + 1)%Z
    /\ ((type c = small /\ value c = 5 /\ minSpend c = 25
         /\ validUntil c = (earnedDate c + 7)%Z)
        \/ (type c = large /\ value c = 10 /\ minSpend c = 50
            /\ validUntil c = (earnedDate c + 10)%Z))
    /\ match usedDate c with
       | None => used c = false
       | Some d => used c = true /\ (validFrom c <= d <= validUntil c)%Z
       end.
Proof.
  eexists. split; [vm_compute; reflexivity|].
  apply (plan_coupons_life_cycle 30 0%Z (fun _ => EmptyString)).
  apply list_elem_of_In. vm_compute. left. reflexivity.
Defined.

(** X5.  The references of an entry of the plan resolve in its coupon
    list: the coupon it earns was earned on the entry's day; the coupon it
    uses is marked used on the entry's day and its value is the entry's
    saving; an entry that uses no coupon saves nothing. *)
Theorem plan_entries_linked (b : Q) (s : Date) (rnd : nat -> string)
  (e : ShoppingEntry) :
  let r := optimizeShoppingPlan b s rnd in
  e ∈ Result.entries r ->
  (forall x, couponEarned e = Some x ->
     exists c, Result.coupons r !! x = Some c /\ earnedDate c = date e)
  /\ (forall x, couponUsed e = Some x ->
        exists c, Result.coupons r !! x = Some c /\ used c = true
                  /\ usedDate c = Some (date e) /\ savings e = value c)
  /\ (couponUsed e = None -> savings e = 0).
Proof.
  unfold optimizeShoppingPlan, resultOf;
    cbn [Result.coupons Result.entries].
  pose proof (finalState_lifecycle b s rnd) as [_ Hlinked].
  revert Hlinked. generalize (finalState b s rnd). intros st Hlinked He.
  apply (proj1 (Forall_forall _ _) Hlinked) in He as [Hearn Huse].
  split; [done|]. destruct (couponUsed e) as [x|].
  - split; [|done]. by intros ? [= <-].
  - by split.
Qed.

Lemma plan_entries_linked_witness :
  let r := optimizeShoppingPlan 30 0%Z (fun _ => EmptyString) in
  exists e,
    Result.entries r !! 1%nat = Some e
    /\ (forall x, couponEarned e = Some x ->
          exists c, Result.coupons r !! x = Some c /\ earnedDate c = date e)
    /\ (forall x, couponUsed e = Some x ->
          exists c, Result.coupons r !! x = Some c /\ used c = true
                    /\ usedDate c = Some (date e) /\ savings e = value c)
    /\ (couponUsed e = None -> savings e = 0).
Proof.
  cbv zeta. eexists. split; [vm_compute; reflexivity|].
  apply (plan_entries_linked 30 0%Z (fun _ => EmptyString)).
  apply list_elem_of_In. vm_compute. right. left. reflexivity.
Defined.

(** X6.  A coupon is redeemed at a later entry of the plan than the one
    that earned it, on a later day, and at most ten days later. *)
Theorem redeemed_after_earned (b : Q) (s : Date) (rnd : nat -> string)
  (i j : nat) (ei ej : ShoppingEntry) (x : ref) :
  let r := optimizeShoppingPlan b s rnd in
  Result.entries r !! i = Some ei -> couponUsed ei = Some x ->
  Result.entries r !! j = Some ej -> couponEarned ej = Some x ->
  (j < i)%nat /\ (date ej < date ei)%Z /\ (date ei <= date ej + 10)%Z.
Proof.
  unfold optimizeShoppingPlan, resultOf;
    cbn [Result.coupons Result.entries].
  pose proof (finalState_lifecycle b s rnd) as [Hok Hlinked].
  pose proof (finalState_scheduled b s rnd) as (_ & _ & Hord).
  revert Hok Hlinked Hord. generalize (finalState b s rnd).
  intros st Hok Hlinked Hord Hi Hui Hj Hej.
  pose proof (proj1 (Forall_forall _ _) Hlinked ei
                (list_elem_of_lookup_2 _ _ _ Hi)) as [_ Huse].
  pose proof (proj1 (Forall_forall _ _) Hlinked ej
                (list_elem_of_lookup_2 _ _ _ Hj)) as [Hearn _].
  rewrite Hui in Huse. destruct Huse as (c & Hc & Hused & Hud & _).
  destruct (Hearn x Hej) as (c' & Hc' & Hed).
  rewrite Hc in Hc'. injection Hc' as <-.
  pose proof (proj1 (Forall_forall _ _) Hok c
                (list_elem_of_lookup_2 _ _ _ Hc)) as Hcok.
  assert ((date ej < date ei)%Z /\ (date ei <= date ej + 10)%Z)
    as [Hlt Hle].
  { destruct Hcok as (sfx & t & D & [->|(d & -> & H1 & H2)]); [done|].
    cbn in Hed, Hud. injection Hud as ->. subst D.
    destruct t; cbn in H2; lia. }
  split; [|done].
  destruct (Nat.lt_trichotomy j i) as [Hlt'|[->|Hgt]]; [done| |].
  - rewrite Hi in Hj. injection Hj as ->. lia.
  - pose proof (Hord i j ei ej Hgt Hi Hj). lia.
Qed.

Lemma redeemed_after_earned_witness :
  let r := optimizeShoppingPlan 30 0%Z (fun _ => EmptyString) in
  exists ei ej,
    Result.entries r !! 1%nat = Some ei /\ couponUsed ei = Some 0%nat
    /\ Result.entries r !! 0%nat = Some ej /\ couponEarned ej = Some 0%nat
    /\ (0 < 1)%nat /\ (date ej < date ei)%Z /\ (date ei <= date ej + 10)%Z.
Proof.
  cbv zeta. eexists _, _.
  split; [vm_compute; reflexivity|]. split; [reflexivity|].
  split; [vm_compute; reflexivity|]. split; [reflexivity|].
  apply (redeemed_after_earned 30 0%Z (fun _ => EmptyString)
           1%nat 0%nat _ _ 0%nat);
    first [reflexivity | vm_compute; reflexivity].
Defined.

(** ** Earning goes with the amount, and with every redemption *)

Lemma adjustSpend_tier_gap (p r : Q) :
  p < 50 \/ 50 <= r -> 50 <= adjustSpend p r \/ adjustSpend p r <= 49.99.
Proof.
  intros H. adjust_cases p;
    first [left; lra | right; lra | destruct H; [left|right]; lra
          | destruct H; [right|left]; lra].
Qed.

Lemma step_new_coupon (d : Date) (p f : Q) (c : Coupon)
  (st st' : PlanState) (e : ShoppingEntry) :
  ShopStep d p f (Some c) st st' e ->
  couponEarned e = Some (length (heap st))
  /\ heap st' !! length (heap st) = Some c.
Proof.
  intros Hstep. pose proof (step_used _ _ _ _ _ _ _ Hstep) as Hu.
  split; [exact (step_earned _ _ _ _ _ _ _ Hstep)|].
  destruct (couponUsed e) as [y|].
  - destruct Hu as (cy & _ & _ & _ & _ & _ & _ & _ & -> & _).
    rewrite lookup_app_r; rewrite length_insert; [|done].
    by rewrite Nat.sub_diag.
  - destruct Hu as (_ & -> & _).
    rewrite lookup_app_r; [|done]. by rewrite Nat.sub_diag.
Qed.

Lemma getCouponEarned_cases (sfx : string) (f : Q) (d : Date) :
  (50 <= f /\ getCouponEarned sfx f d = Some (createCoupon sfx large d))
  \/ (25 <= f /\ f < 50
      /\ getCouponEarned sfx f d = Some (createCoupon sfx small d))
  \/ (f < 25 /\ getCouponEarned sfx f d = None).
Proof.
  unfold getCouponEarned. cbn [rule_minSpend COUPON_RULES]. js_cases.
  - by left.
  - right. by left.
  - right. by right.
Qed.

Lemma tiered_step (d : Date) (p f : Q) (sfx : string)
  (st st' : PlanState) (e : ShoppingEntry) :
  ShopStep d p f (getCouponEarned sfx f d) st st' e ->
  Inv st ->
  (forall m, m = 25 \/ m = 50 -> m <= p -> m <= f) ->
  50 <= f \/ f <= 49.99 -> 0 <= f ->
  tiered st -> tiered st'.
Proof.
  intros Hstep HI Hmin Hgap Hf0 (Hamt & Hred & Hcnt & Hsav0 & Hsav).
  pose proof (heap_step _ _ _ _ _ _ _ Hstep) as Hheap.
  pose proof (step_used _ _ _ _ _ _ _ Hstep) as Hu.
  pose proof (step_amount _ _ _ _ _ _ _ Hstep) as Ha.
  pose proof (step_couponsEarned _ _ _ _ _ _ _ Hstep) as Hce.
  pose proof (step_totalSpend _ _ _ _ _ _ _ Hstep) as Hts.
  pose proof (step_totalSavings _ _ _ _ _ _ _ Hstep) as Htv.
  pose proof (step_earned _ _ _ _ _ _ _ Hstep) as Hearned.
  assert (forall c, getCouponEarned sfx f d = Some c ->
                    heap st' !! length (heap st) = Some c) as Hnew.
  { intros c Hc. rewrite Hc in Hstep.
    by destruct (step_new_coupon _ _ _ _ _ _ _ Hstep). }
  assert (Js.round2 49.99 == 49.99) as H4999 by reflexivity.
  assert (Js.round2 25 == 25) as H25 by (by apply (round2_whole _ 25)).
  (* the coupon used, if any *)
  assert (match couponUsed e with
          | None => savings e = 0 /\ couponsUsed st' = couponsUsed st
          | Some x =>
              exists c, heap st !! x = Some c
                /\ heap st' !! x = Some (markUsed d c)
                /\ savings e = value c /\ tierOk c /\ minSpend c <= f
                /\ couponsUsed st' = S (couponsUsed st)
          end) as Hu'.
  { destruct (couponUsed e) as [x|]; [|by destruct Hu as (? & _ & ?)].
    destruct Hu as (c & Hc & _ & _ & _ & _ & Hp & Hsv & Hh & Hcu).
    assert (tierOk c) as Ht.
    { eapply (proj1 (Forall_forall _ _) (tiers _ _ HI)).
      by eapply list_elem_of_lookup_2. }
    exists c. split; [done|]. split.
    { rewrite Hh. apply lookup_app_l_Some, list_lookup_insert_eq.
      by eapply lookup_lt_Some. }
    split; [done|]. split; [done|]. split; [|done].
    apply Hmin; [|done]. destruct Ht as [[_ ->]|[_ ->]]; [by left|by right]. }
  clear Hu. split; [|split; [|split; [|split]]].
  - rewrite (step_entries _ _ _ _ _ _ _ Hstep). apply Forall_app. split.
    + eapply Forall_impl; [exact Hamt|]. intros e0 He0.
      unfold earnsByAmount in *. destruct (couponEarned e0) as [x|]; [|done].
      destruct He0 as (c & Hc & Hcase).
      destruct (Hheap x c Hc) as (c' & Hc' & Hty & _).
      exists c'. split; [done|]. by rewrite Hty.
    + apply Forall_singleton. unfold earnsByAmount. rewrite Hearned, Ha.
      destruct (getCouponEarned_cases sfx f d)
        as [[Hge Hg]|[(Hge & Hlt & Hg)|[Hlt Hg]]]; rewrite Hg.
      * eexists. split; [by apply Hnew|]. left. split; [done|].
        apply round2_keeps_minimum; [by right|done].
      * eexists. split; [by apply Hnew|]. right. split; [done|]. split.
        -- apply round2_keeps_minimum; [by left|done].
        -- rewrite <- H4999. apply round2_mono. lra.
      * rewrite <- H25. apply round2_mono. lra.
  - rewrite (step_entries _ _ _ _ _ _ _ Hstep). apply Forall_app. split.
    + eapply Forall_impl; [exact Hred|]. intros e0 He0 x Hx.
      destruct (He0 x Hx) as (cx & y & cy & Hcx & Hy & Hcy & Hv).
      destruct (Hheap x cx Hcx) as (cx' & Hcx' & _ & Hvx & _).
      destruct (Hheap y cy Hcy) as (cy' & Hcy' & _ & Hvy & _).
      exists cx', y, cy'. repeat (split; [done|]). by rewrite Hvx, Hvy.
    + apply Forall_singleton. intros x Hx. rewrite Hx in Hu'.
      destruct Hu' as (c & Hc & Hc' & _ & Ht & Hm & _).
      exists (markUsed d c), (length (heap st)). rewrite Hearned.
      destruct (getCouponEarned_cases sfx f d)
        as [[Hge Hg]|[(Hge & Hlt & Hg)|[Hlt Hg]]]; rewrite Hg.
      * eexists. split; [done|]. split; [done|]. split; [by apply Hnew|].
        cbn. destruct Ht as [[-> _]|[-> _]]; lra.
      * eexists. split; [done|]. split; [done|]. split; [by apply Hnew|].
        cbn. destruct Ht as [[-> _]|[_ Hms]]; [lra|]. rewrite Hms in Hm. lra.
      * exfalso. destruct Ht as [[_ Hms]|[_ Hms]]; rewrite Hms in Hm; lra.
  - rewrite Hce. rewrite (earned_count _ _ HI) in *.
    destruct (couponUsed e) as [x|].
    + destruct Hu' as (c & Hc & _ & _ & Ht & Hm & ->).
      apply lookup_lt_Some in Hc.
      destruct (getCouponEarned_cases sfx f d)
        as [[Hge Hg]|[(Hge & Hlt & Hg)|[Hlt Hg]]]; rewrite Hg.
      * left. lia.
      * left. lia.
      * exfalso. destruct Ht as [[_ Hms]|[_ Hms]]; rewrite Hms in Hm; lra.
    + destruct Hu' as [_ ->]. destruct (getCouponEarned sfx f d); lia.
  - rewrite Htv. destruct (couponUsed e) as [x|].
    + destruct Hu' as (c & _ & _ & -> & Ht & _).
      destruct Ht as [[-> _]|[-> _]]; lra.
    + destruct Hu' as [-> _]. lra.
  - rewrite Hts, Htv. destruct (couponUsed e) as [x|].
    + destruct Hu' as (c & _ & _ & -> & Ht & Hm & _).
      destruct Ht as [[-> Hms]|[-> Hms]]; rewrite Hms in Hm; lra.
    + destruct Hu' as [-> _]. lra.
Qed.

Lemma tiered_planShop (b : Q) (s : Date) (rnd : nat -> string)
  (ws : Date) (wa : Q) (shops i : nat) (st : PlanState) :
  ShopContext b s ws wa shops i st -> tiered st ->
  tiered (planShop b rnd ws wa shops i st).
Proof.
  intros Hctx Hst.
  destruct (planShop_step b rnd ws wa shops i st) as [e He].
  destruct (ctx_tentative _ _ _ _ _ _ _ Hctx) as [Hp _].
  pose proof (ctx_remaining _ _ _ _ _ _ _ Hctx) as Hrem.
  pose proof (ctx_covers _ _ _ _ _ _ _ Hctx) as Hcov.
  destruct (adjustSpend_bounds _ _ Hp Hrem) as [Hf0 _].
  eapply tiered_step; [exact He|exact (ctx_inv _ _ _ _ _ _ _ Hctx)| | | |done].
  - intros m Hm Hmp. apply adjustSpend_keeps_minimum; [done|done|].
    by apply Hcov.
  - apply adjustSpend_tier_gap.
    destruct (Qlt_le_dec (tentative ws wa shops i st) 50) as [Hlt|Hge];
      [by left|right].
    apply Hcov; [by right|done].
  - lra.
Qed.

Lemma finalState_tiered (b : Q) (s : Date) (rnd : nat -> string) :
  tiered (finalState b s rnd).
Proof.
  apply finalState_in_context.
  - intros ws wa shops i st. apply tiered_planShop.
  - split; [by constructor|]. split; [by constructor|].
    split; [by right|]. cbn. split; lra.
Qed.

(** X7.  In the plan the coupon an entry earns goes by the amount the entry
    records: a large coupon with an amount of 50 or more, a small one with
    an amount from 25 to 49.99, and none with an amount of at most 25.  No
    entry records an amount strictly between 49.99 and 50. *)
Theorem plan_amount_decides_coupon (b : Q) (s : Date) (rnd : nat -> string)
  (e : ShoppingEntry) :
  let r := optimizeShoppingPlan b s rnd in
  e ∈ Result.entries r ->
  match couponEarned e with
  | Some x =>
      exists c,
        Result.coupons r !! x = Some c
        /\ ((type c = large /\ 50 <= plannedAmount e)
            \/ (type c = small /\ 25 <= plannedAmount e
                /\ plannedAmount e <= 49.99))
  | None => plannedAmount e <= 25
  end.
Proof.
  unfold optimizeShoppingPlan, resultOf;
    cbn [Result.coupons Result.entries].
  pose proof (finalState_tiered b s rnd) as (Hamt & _).
  revert Hamt. generalize (finalState b s rnd). intros st Hamt He.
  exact (proj1 (Forall_forall _ _) Hamt e He).
Qed.

Lemma plan_amount_decides_coupon_witness :
  let r := optimizeShoppingPlan 30 0%Z (fun _ => EmptyString) in
  exists e,
    Result.entries r !! 0%nat = Some e
    /\ match couponEarned e with
       | Some x =>
           exists c,
             Result.coupons r !! x = Some c
             /\ ((type c = large /\ 50 <= plannedAmount e)
                 \/ (type c = small /\ 25 <= plannedAmount e
                     /\ plannedAmount e <= 49.99))
       | None => plannedAmount e <= 25
       end.
Proof.
  cbv zeta. eexists. split; [vm_compute; reflexivity|].
  apply (plan_amount_decides_coupon 30 0%Z (fun _ => EmptyString)).
  apply list_elem_of_In. vm_compute. left. reflexivity.
Defined.

(** X8.  An entry of the plan that uses a coupon also earns one, worth at
    least as much as the one it uses. *)
Theorem redeeming_entry_earns (b : Q) (s : Date) (rnd : nat -> string)
  (e : ShoppingEntry) (x : ref) :
  let r := optimizeShoppingPlan b s rnd in
  e ∈ Result.entries r -> couponUsed e = Some x ->
  exists cx y cy,
    Result.coupons r !! x = Some cx /\ couponEarned e = Some y
    /\ Result.coupons r !! y = Some cy /\ value cx <= value cy.
Proof.
  unfold optimizeShoppingPlan, resultOf;
    cbn [Result.coupons Result.entries].
  pose proof (finalState_tiered b s rnd) as (_ & Hred & _).
  revert Hred. generalize (finalState b s rnd). intros st Hred He.
  exact (proj1 (Forall_forall _ _) Hred e He x).
Qed.

Lemma redeeming_entry_earns_witness :
  let r := optimizeShoppingPlan 30 0%Z (fun _ => EmptyString) in
  exists e,
    Result.entries r !! 1%nat = Some e /\ couponUsed e = Some 0%nat
    /\ exists cx y cy,
         Result.coupons r !! 0%nat = Some cx /\ couponEarned e = Some y
         /\ Result.coupons r !! y = Some cy /\ value cx <= value cy.
Proof.
  cbv zeta. eexists. split; [vm_compute; reflexivity|].
  split; [reflexivity|].
  apply (redeeming_entry_earns 30 0%Z (fun _ => EmptyString));
    [|reflexivity].
  apply list_elem_of_In. vm_compute. right. left. reflexivity.
Defined.

(** ** The summary of a plan *)

(** X9.  Fewer coupons are used than earned in a plan, unless none is
    earned and none used; so the efficiency the summary shows is from 0
    to below 100 percent. *)
Theorem efficiency_below_100 (b : Q) (s : Date) (rnd : nat -> string) :
  let r := optimizeShoppingPlan b s rnd in
  ((Result.couponsUsed r < Result.couponsEarned r)%nat
   \/ (Result.couponsEarned r = 0%nat /\ Result.couponsUsed r = 0%nat))
  /\ 0 <= SavingsSummary.efficiency r
  /\ SavingsSummary.efficiency r < 100.
Proof.
  unfold optimizeShoppingPlan, resultOf, SavingsSummary.efficiency;
    cbn [Result.couponsUsed Result.couponsEarned].
  pose proof (finalState_tiered b s rnd) as (_ & _ & Hcnt & _).
  revert Hcnt. generalize (finalState b s rnd). intros st Hcnt.
  split; [done|].
  destruct (Nat.ltb_spec 0 (couponsEarned st)) as [Hpos|Hzero];
    [|split; lra].
  destruct Hcnt as [Hlt|[Hz _]]; [|lia].
  assert (0 < inject_Z (Z.of_nat (couponsEarned st))) as He.
  { change 0 with (inject_Z 0). rewrite <- Zlt_Qlt. lia. }
  assert (0 <= inject_Z (Z.of_nat (couponsUsed st))) as Hu.
  { change 0 with (inject_Z 0). rewrite <- Zle_Qle. lia. }
  assert (inject_Z (Z.of_nat (couponsUsed st))
          < inject_Z (Z.of_nat (couponsEarned st))) as Hue.
  { rewrite <- Zlt_Qlt. lia. }
  set (u := inject_Z (Z.of_nat (couponsUsed st))) in *.
  set (n := inject_Z (Z.of_nat (couponsEarned st))) in *.
  clearbody u n.
  assert (0 <= u / n) as H0.
  { apply Qle_shift_div_l; [done|]. lra. }
  assert (u / n < 1) as H1.
  { apply Qlt_shift_div_r; [done|]. lra. }
  set (q := u / n) in *. clearbody q. split; lra.
Qed.


(** ** A budget below the smallest minimum spend *)

Lemma nothingRedeemed_planShop (b : Q) (s : Date) (rnd : nat -> string)
  (ws : Date) (wa : Q) (shops i : nat) (st : PlanState) :
  b < 25 ->
  ShopContext b s ws wa shops i st -> nothingRedeemed st ->
  nothingRedeemed (planShop b rnd ws wa shops i st).
Proof.
  intros Hb Hctx (Hcu & Hsv & Hes).
  destruct (planShop_step b rnd ws wa shops i st) as [e He].
  destruct (ctx_tentative _ _ _ _ _ _ _ Hctx) as [_ Hp].
  destruct (ctx_amount _ _ _ _ _ _ _ Hctx) as [_ Hwa].
  pose proof (tiers _ _ (ctx_inv _ _ _ _ _ _ _ Hctx)) as Htiers.
  pose proof (step_used _ _ _ _ _ _ _ He) as Hu.
  pose proof (step_totalSavings _ _ _ _ _ _ _ He) as Htv.
  unfold nothingRedeemed. rewrite (step_entries _ _ _ _ _ _ _ He), Htv.
  destruct (couponUsed e) as [x|] eqn:Hx.
  - exfalso. destruct Hu as (c & Hc & _ & _ & _ & _ & Hm & _).
    assert (tierOk c) as Ht.
    { eapply (proj1 (Forall_forall _ _) Htiers).
      by eapply list_elem_of_lookup_2. }
    destruct Ht as [[_ Hms]|[_ Hms]]; rewrite Hms in Hm; lra.
  - destruct Hu as (Hs0 & _ & ->). split; [done|]. split.
    + rewrite Hs0. lra.
    + apply Forall_app. split; [done|]. by apply Forall_singleton.
Qed.

Lemma finalState_nothingRedeemed (b : Q) (s : Date) (rnd : nat -> string) :
  b < 25 -> nothingRedeemed (finalState b s rnd).
Proof.
  intros Hb. apply finalState_in_context.
  - intros ws wa shops i st. by apply nothingRedeemed_planShop.
  - split; [done|]. split; [done|]. by constructor.
Qed.

(** X11.  With a weekly budget below 25, the smallest minimum spend of a
    coupon, the plan redeems nothing: no entry uses a coupon or saves
    anything, and the plan reports no coupon used and no savings. *)
Theorem no_redemption_below_25 (b : Q) (s : Date) (rnd : nat -> string) :
  b < 25 ->
  let r := optimizeShoppingPlan b s rnd in
  Result.couponsUsed r = 0%nat
  /\ Result.totalSavings r == 0
  /\ forall e, e ∈ Result.entries r -> couponUsed e = None /\ savings e = 0.
Proof.
  intros Hb. unfold optimizeShoppingPlan, resultOf.
  cbn [Result.couponsUsed Result.totalSavings Result.entries].
  pose proof (finalState_nothingRedeemed b s rnd Hb) as (Hcu & Hsv & Hes).
  revert Hcu Hsv Hes. generalize (finalState b s rnd).
  intros st Hcu Hsv Hes. split; [done|]. split.
  - transitivity (totalSavings st); [|exact Hsv].
    apply (round2_whole _ 0%Z). exact Hsv.
  - intros e He. exact (proj1 (Forall_forall _ _) Hes e He).
Qed.

Lemma no_redemption_below_25_witness :
  20 < 25
  /\ let r := optimizeShoppingPlan 20 0%Z (fun _ => EmptyString) in
     Result.couponsUsed r = 0%nat
     /\ Result.totalSavings r == 0
     /\ forall e, e ∈ Result.entries r ->
                  couponUsed e = None /\ savings e = 0.
Proof.
  split; [lra|].
  apply (no_redemption_below_25 20 0%Z (fun _ => EmptyString)). lra.
Defined.

(** ** What the application hands to the coupon tracker *)

Lemma omap_lookup_seq (pre h : list Coupon) :
  omap (fun r : nat => (pre ++ h) !! r) (seq (length pre) (length h)) = h.
Proof.
  revert pre. induction h as [|c h IH]; intros pre; [done|].
  cbn [length seq]. change (omap ?f (?x :: ?l))
    with (match f x with Some y => y :: omap f l | None => omap f l end).
  cbn beta. rewrite list_lookup_middle by done.
  f_equal. specialize (IH (pre ++ [c])).
  rewrite <- app_assoc, length_app in IH. cbn [length app] in IH.
  by rewrite Nat.add_1_r in IH.
Qed.

Lemma getAllCoupons_state (st : PlanState) :
  Inv st -> App.getAllCoupons (Some (resultOf st)) = heap st.
Proof.
  intros HI. unfold App.getAllCoupons, resultOf.
  cbn [Result.coupons Result.entries].
  pose proof (earned_refs _ _ HI) as Hrefs. unfold earnedRefs in Hrefs.
  transitivity (omap (fun r : nat => heap st !! r)
                  (omap couponEarned (entries st))).
  - generalize (heap st). intros h. clear.
    induction (entries st) as [|e es IH]; [done|].
    change (omap ?f (?x :: ?l))
      with (match f x with Some y => y :: omap f l | None => omap f l end).
    cbn beta. destruct (couponEarned e) as [r|]; [|done].
    change (omap ?f (?x :: ?l))
      with (match f x with Some y => y :: omap f l | None => omap f l end).
    cbn beta. destruct (h !! r); by rewrite IH.
  - rewrite Hrefs. exact (omap_lookup_seq [] (heap st)).
Qed.

(** X12.  The list of coupons the application collects from the entries
    of a plan is the plan's coupons, each once, in the order they were
    earned; there are as many as the plan reports earned.  Without a plan
    the list is empty. *)
Theorem getAllCoupons_of_plan (b : Q) (s : Date) (rnd : nat -> string) :
  let r := optimizeShoppingPlan b s rnd in
  App.getAllCoupons (Some r) = Result.coupons r
  /\ length (App.getAllCoupons (Some r)) = Result.couponsEarned r
  /\ App.getAllCoupons None = [].
Proof.
  cbv zeta. unfold optimizeShoppingPlan.
  pose proof (Inv_finalState b s rnd) as HI. revert HI.
  generalize (finalState b s rnd). intros st HI.
  rewrite (getAllCoupons_state st HI). cbn [resultOf Result.coupons
    Result.couponsEarned]. split; [done|]. split; [|done].
  by rewrite (earned_count _ _ HI).
Qed.

(** ** The coupon tracker *)

Lemma buckets_cover (today : Date) (coupons : list Coupon) :
  Forall (fun c => (validFrom c <= validUntil c)%Z) coupons ->
  coupons ≡ₚ CouponTracker.activeCoupons today coupons
             ++ CouponTracker.upcomingCoupons today coupons
             ++ CouponTracker.usedCoupons coupons
             ++ CouponTracker.expiredCoupons today coupons.
Proof.
  assert (forall (x : Coupon) A U S E,
            x :: A ++ U ++ S ++ E ≡ₚ A ++ x :: U ++ S ++ E) as HU.
  { intros. apply Permutation_middle. }
  assert (forall (x : Coupon) A U S E,
            x :: A ++ U ++ S ++ E ≡ₚ A ++ U ++ x :: S ++ E) as HS.
  { intros x A U S E. rewrite !(app_assoc A U).
    apply Permutation_middle. }
  assert (forall (x : Coupon) A U S E,
            x :: A ++ U ++ S ++ E ≡ₚ A ++ U ++ S ++ x :: E) as HE.
  { intros x A U S E.
    rewrite !(app_assoc A U), !(app_assoc (A ++ U) S).
    apply Permutation_middle. }
  unfold CouponTracker.activeCoupons, CouponTracker.upcomingCoupons,
    CouponTracker.usedCoupons, CouponTracker.expiredCoupons.
  induction 1 as [|c l Hc _ IH]; [done|]. cbn [List.filter].
  unfold CouponTracker.isActive, CouponTracker.isUpcoming,
    CouponTracker.isExpired in *.
  destruct (used c); cbn [negb andb].
  - etrans; [apply perm_skip; exact IH|]. apply HS.
  - destruct (Z.leb_spec (validFrom c) today),
      (Z.leb_spec today (validUntil c)),
      (Z.ltb_spec today (validFrom c)),
      (Z.ltb_spec (validUntil c) today); try lia; cbn [andb].
    + cbn [app]. apply perm_skip. exact IH.
    + etrans; [apply perm_skip; exact IH|]. apply HE.
    + etrans; [apply perm_skip; exact IH|]. apply HU.
Qed.

(** X13.  When no coupon of the list ends before it begins, the four
    buckets of the tracker split the list: every coupon is in exactly one
    of active, upcoming, used and expired, so the four counts shown add
    up to the number of coupons. *)
Theorem buckets_partition (today : Date) (coupons : list Coupon) :
  Forall (fun c => (validFrom c <= validUntil c)%Z) coupons ->
  coupons ≡ₚ CouponTracker.activeCoupons today coupons
             ++ CouponTracker.upcomingCoupons today coupons
             ++ CouponTracker.usedCoupons coupons
             ++ CouponTracker.expiredCoupons today coupons
  /\ (length (CouponTracker.activeCoupons today coupons)
      + length (CouponTracker.upcomingCoupons today coupons)
      + length (CouponTracker.usedCoupons coupons)
      + length (CouponTracker.expiredCoupons today coupons)
      = length coupons)%nat.
Proof.
  intros H. pose proof (buckets_cover today coupons H) as Hp.
  split; [done|]. apply Permutation_length in Hp.
  rewrite !length_app in Hp. lia.
Qed.

Lemma buckets_partition_witness :
  let coupons :=
    [createCoupon EmptyString small 0%Z;
     markUsed 3%Z (createCoupon EmptyString large 0%Z);
     createCoupon EmptyString small 14%Z] in
  Forall (fun c => (validFrom c <= validUntil c)%Z) coupons
  /\ coupons ≡ₚ CouponTracker.activeCoupons 9%Z coupons
                ++ CouponTracker.upcomingCoupons 9%Z coupons
                ++ CouponTracker.usedCoupons coupons
                ++ CouponTracker.expiredCoupons 9%Z coupons
  /\ (length (CouponTracker.activeCoupons 9%Z coupons)
      + length (CouponTracker.upcomingCoupons 9%Z coupons)
      + length (CouponTracker.usedCoupons coupons)
      + length (CouponTracker.expiredCoupons 9%Z coupons)
      = length coupons)%nat.
Proof.
  cbv zeta.
  assert (Forall (fun c => (validFrom c <= validUntil c)%Z)
            [createCoupon EmptyString small 0%Z;
             markUsed 3%Z (createCoupon EmptyString large 0%Z);
             createCoupon EmptyString small 14%Z]) as H.
  { repeat constructor; cbn; lia. }
  split; [exact H|]. exact (buckets_partition 9%Z _ H).
Defined.

(** X14.  The colour and the icon of a coupon card go by the bucket of the
    coupon: green with a check mark for a used one, red with a cross for
    an expired one, blue with a clock for an upcoming one, and for an
    active one orange with a warning when at most two days are left,
    green with a gift otherwise. *)
Theorem card_style_matches_bucket (differenceInDays : Date -> Date -> Z)
  (today : Date) (c : Coupon) :
  (validFrom c <= validUntil c)%Z ->
  let colour := CouponTracker.getCouponStatusColor differenceInDays today c in
  let icon := CouponTracker.getCouponIcon differenceInDays today c in
  (used c = true ->
     colour = "border-green-300 bg-green-50"%string
     /\ icon.1 = CouponTracker.CheckCircle)
  /\ (CouponTracker.isExpired today c = true ->
        colour = "border-red-300 bg-red-50"%string
        /\ icon.1 = CouponTracker.XCircle)
  /\ (CouponTracker.isUpcoming today c = true ->
        colour = "border-blue-300 bg-blue-50"%string
        /\ icon.1 = CouponTracker.Clock)
  /\ (CouponTracker.isActive today c = true ->
        if (differenceInDays (validUntil c) today <=? 2)%Z then
          colour = "border-orange-300 bg-orange-50"%string
          /\ icon.1 = CouponTracker.AlertTriangle
        else
          colour = "border-green-300 bg-green-50"%string
          /\ icon.1 = CouponTracker.Gift).
Proof.
  intros Hc. cbv zeta.
  unfold CouponTracker.getCouponStatusColor, CouponTracker.getCouponIcon,
    CouponTracker.isExpired, CouponTracker.isUpcoming,
    CouponTracker.isActive.
  destruct (used c); cbn [negb andb].
  - repeat split; done.
  - destruct (Z.leb_spec (validFrom c) today),
      (Z.leb_spec today (validUntil c)),
      (Z.ltb_spec today (validFrom c)),
      (Z.ltb_spec (validUntil c) today); try lia; cbn [andb];
      repeat split; try done;
      intros _; destruct (_ <=? 2)%Z; by split.
Qed.

Lemma card_style_matches_bucket_witness :
  let c := createCoupon EmptyString small 0%Z in
  (validFrom c <= validUntil c)%Z
  /\ CouponTracker.getCouponStatusColor (fun a b => (a - b)%Z) 6%Z c
     = "border-orange-300 bg-orange-50"%string.
Proof.
  cbv zeta. split; [cbn; lia|].
  assert (validFrom (createCoupon EmptyString small 0%Z)
          <= validUntil (createCoupon EmptyString small 0%Z))%Z as H
    by (cbn; lia).
  destruct (card_style_matches_bucket (fun a b => (a - b)%Z) 6%Z
              (createCoupon EmptyString small 0%Z) H)
    as (_ & _ & _ & Hact).
  exact (proj1 (Hact eq_refl)).
Defined.

(** X15.  The tracker fed with the coupons of a plan shows, whatever the
    day, as many used coupons as the plan reports used, and its four
    counts add up to the number of coupons the plan reports earned. *)
Theorem tracker_counts_of_plan (b : Q) (s : Date) (rnd : nat -> string)
  (today : Date) :
  let r := optimizeShoppingPlan b s rnd in
  let coupons := App.getAllCoupons (Some r) in
  length (CouponTracker.usedCoupons coupons) = Result.couponsUsed r
  /\ (length (CouponTracker.activeCoupons today coupons)
      + length (CouponTracker.upcomingCoupons today coupons)
      + length (CouponTracker.usedCoupons coupons)
      + length (CouponTracker.expiredCoupons today coupons)
      = Result.couponsEarned r)%nat.
Proof.
  cbv zeta. unfold optimizeShoppingPlan.
  pose proof (Inv_finalState b s rnd) as HI.
  pose proof (finalState_lifecycle b s rnd) as [Hok _].
  revert HI Hok. generalize (finalState b s rnd). intros st HI Hok.
  rewrite (getAllCoupons_state st HI).
  cbn [resultOf Result.couponsUsed Result.couponsEarned].
  split.
  - by rewrite (used_count _ _ HI).
  - rewrite (earned_count _ _ HI).
    assert (Forall (fun c => (validFrom c <= validUntil c)%Z) (heap st))
      as Hwin.
    { eapply Forall_impl; [exact Hok|].
      intros c (sfx & t & D & [->|(d & -> & _)]); destruct t; cbn; lia. }
    pose proof (buckets_cover today (heap st) Hwin) as Hp.
    apply Permutation_length in Hp. rewrite !length_app in Hp. lia.
Qed.

(** ** The list of entries *)

(** X16.  An entry of a plan is never shown as completed or missed: it is
    orange with a clock once its date is past, otherwise blue on its day
    and white with a grey calendar before. *)
Theorem plan_entry_style (b : Q) (s : Date) (rnd : nat -> string)
  (isPast isToday : Date -> bool) (e : ShoppingEntry) :
  e ∈ Result.entries (optimizeShoppingPlan b s rnd) ->
  ShoppingCalendar.getEntryStatusColor isPast isToday e
  = (if isPast (date e) then "bg-orange-100 border-orange-300"
     else if isToday (date e) then "bg-blue-100 border-blue-300"
     else "bg-white border-gray-200")%string
  /\ ShoppingCalendar.getStatusIcon isPast isToday e
     = (if isPast (date e) then
          (ShoppingCalendar.Clock, "w-5 h-5 text-orange-600")
        else if isToday (date e) then
          (ShoppingCalendar.Calendar, "w-5 h-5 text-blue-600")
        else (ShoppingCalendar.Calendar, "w-5 h-5 text-gray-400"))%string.
Proof.
  unfold optimizeShoppingPlan, resultOf; cbn [Result.entries].
  pose proof (finalState_scheduled b s rnd) as (_ & Hall & _).
  revert Hall. generalize (finalState b s rnd). intros st Hall He.
  apply list_elem_of_lookup in He as [k Hk].
  destruct (Hall k e Hk) as (_ & Hst & _).
  unfold ShoppingCalendar.getEntryStatusColor,
    ShoppingCalendar.getStatusIcon.
  rewrite Hst. cbn [ShoppingCalendar.Status_eqb].
  by destruct (isPast (date e)), (isToday (date e)).
Qed.

Lemma plan_entry_style_witness :
  exists e,
    Result.entries (optimizeShoppingPlan 30 0%Z (fun _ => EmptyString))
      !! 0%nat = Some e
    /\ ShoppingCalendar.getEntryStatusColor
         (fun d => (d <? 3)%Z) (fun d => (d =? 3)%Z) e
       = "bg-orange-100 border-orange-300"%string.
Proof.
  eexists. split; [vm_compute; reflexivity|].
  refine (proj1 (plan_entry_style 30 0%Z (fun _ => EmptyString)
                   (fun d => (d <? 3)%Z) (fun d => (d =? 3)%Z) _ _)).
  apply list_elem_of_In. vm_compute. left. reflexivity.
Defined.

(** ** Using a coupon under the coupon rules *)

Lemma canUseCoupon_true (c : Coupon) (s : Q) (d : Date) :
  canUseCoupon c s d = true
  <-> used c = false /\ minSpend c <= s
      /\ (validFrom c <= d)%Z /\ (d <= validUntil c)%Z.
Proof.
  unfold canUseCoupon. rewrite !andb_true_iff, negb_true_iff.
  rewrite JsFacts.ge_spec, Z.leb_le, Z.leb_le. tauto.
Qed.

(** X17.  Under the coupon rules a coupon fresh from [createCoupon] for a
    day D can be used exactly with a spend of at least its minimum (25 for
    a small one, 50 for a large one) on a day from D+1 to D+7 (small) or
    D+10 (large): not on the day it is earned.  A coupon that can be used
    is not expired, and one marked used can never be used again. *)
Theorem canUseCoupon_life_cycle :
  (forall sfx t D s d,
     canUseCoupon (createCoupon sfx t D) s d = true
     <-> match t with
         | small => 25 <= s /\ (D + 1 <= d <= D + 7)%Z
         | large => 50 <= s /\ (D + 1 <= d <= D + 10)%Z
         end)
  /\ (forall c s d,
        canUseCoupon c s d = true -> isCouponExpired c d = false)
  /\ (forall c d s d', canUseCoupon (markUsed d c) s d' = false).
Proof.
  split; [|split].
  - intros sfx t D s d. rewrite canUseCoupon_true.
    destruct t; cbn; intuition lia.
  - intros c s d (_ & _ & _ & Hd)%canUseCoupon_true.
    unfold isCouponExpired. lia.
  - intros c d s d'. done.
Qed.

(** X18.  The coupon a spend earns can be used with that same spend on
    every day of its validity window, and on no other day. *)
Theorem earning_spend_redeems (sfx : string) (s : Q) (D d : Date)
  (c : Coupon) :
  getCouponEarned sfx s D = Some c ->
  canUseCoupon c s d = true <-> (validFrom c <= d <= validUntil c)%Z.
Proof.
  intros Hc. rewrite canUseCoupon_true.
  destruct (getCouponEarned_cases sfx s D)
    as [[Hge Hg]|[(Hge & Hlt & Hg)|[Hlt Hg]]];
    rewrite Hg in Hc; [| |done]; injection Hc as <-; cbn; intuition lia.
Qed.

Lemma earning_spend_redeems_witness :
  exists c,
    getCouponEarned EmptyString 30 0%Z = Some c
    /\ (canUseCoupon c 30 7%Z = true
        <-> (validFrom c <= 7 <= validUntil c)%Z).
Proof.
  eexists. split; [reflexivity|].
  apply (earning_spend_redeems EmptyString 30 0%Z 7%Z). reflexivity.
Defined.

(** ** How far the adjustment moves a spend *)

(** X19.  [optimizeSpendForCoupon] moves a spend by less than a cent down
    or at most 5 up.  It raises a spend only to 25 or to 50, and only when
    the remaining budget covers that; it lowers a spend only to 49.99;
    a spend that reaches 25, or 50, still does after it. *)
Theorem optimizeSpendForCoupon_moves (p r : Q) :
  let o := optimizeSpendForCoupon p r in
  p - 0.01 < o /\ o <= p + 5
  /\ (p < o -> (o == 25 \/ o == 50) /\ o <= r)
  /\ (o < p -> o == 49.99)
  /\ (25 <= p -> 25 <= o)
  /\ (50 <= p -> 50 <= o).
Proof.
  cbv zeta. unfold optimizeSpendForCoupon.
  destruct (JsFacts.min_case 49.99 p) as [[? ->]|[? ->]];
    destruct (JsFacts.max_case 50 p) as [[? ->]|[? ->]];
    js_cases; cbn [andb];
    (split; [lra|]); (split; [lra|]);
    (split; [intros ?; split; [first [left; lra | right; lra] | lra]|]);
    (split; [intros ?; lra|]); split; intros ?; lra.
Qed.

(** ** From the budget form to the first shop *)

Lemma planShops_prefix (b : Q) (rnd : nat -> string) (ws : Date) (wa : Q)
  (shops todo i : nat) (st : PlanState) :
  entries st `prefix_of` entries (planShops b rnd ws wa shops todo i st).
Proof.
  revert i st. induction todo as [|todo IH]; intros i st; cbn [planShops];
    [done|].
  destruct (planShop_new_entry b rnd ws wa shops i st) as (e & He & _).
  assert (entries st `prefix_of`
            entries (planShop b rnd ws wa shops i st)) as Hp.
  { rewrite He. by apply prefix_app_r. }
  destruct (Js.ge _ _); [done|]. etrans; [exact Hp|apply IH].
Qed.

Lemma planWeeks_prefix (b : Q) (s : Date) (rnd : nat -> string)
  (todo week : nat) (st : PlanState) :
  entries st `prefix_of` entries (planWeeks b s rnd todo week st).
Proof.
  revert week st. induction todo as [|todo IH]; intros week st;
    cbn [planWeeks]; [done|].
  destruct (Js.le _ _); [done|].
  match goal with
  | |- context [planShops b rnd ?ws ?wa ?sh ?td 0 st] =>
      pose proof (planShops_prefix b rnd ws wa sh td 0 st) as Hp
  end.
  destruct (Js.ge _ _); [done|]. etrans; [exact Hp|apply IH].
Qed.

Lemma adjustSpend_reaches_25 (p r : Q) :
  20 <= p -> 25 <= r -> 25 <= adjustSpend p r.
Proof. intros Hp Hr. adjust_cases p; lra. Qed.

Lemma first_shop (b : Q) (s : Date) (rnd : nat -> string) :
  0 < b ->
  entries (planShop b rnd (s + 0)%Z b (determineOptimalShopsPerWeek b) 0
             initialState)
  `prefix_of` entries (finalState b s rnd).
Proof.
  intros Hb. unfold finalState. change 10%nat with (S 9).
  generalize 9%nat. intros todo. cbn [planWeeks].
  change (Z.of_nat 0 * 7)%Z with 0%Z.
  assert (Js.min b (totalBudget b - totalSpend initialState) = b) as ->.
  { destruct (JsFacts.min_case b (totalBudget b - totalSpend initialState))
      as [[_ ->]|[Hlt _]]; [done|].
    unfold totalBudget in Hlt. cbn in Hlt. lra. }
  assert (Js.le b 0 = false) as -> by (apply JsFacts.le_false; lra).
  set (shops := determineOptimalShopsPerWeek b).
  assert (exists k, shops = S k) as [k Hk].
  { subst shops. destruct (shops_one_or_two b) as [->|[-> _]]; by eexists. }
  set (st1 := planShop b rnd (s + 0)%Z b shops 0 initialState).
  match goal with
  | |- _ `prefix_of`
         entries (if Js.ge (totalSpend ?st2) _ then _ else _) =>
      assert (entries st1 `prefix_of` entries st2) as Hp1;
      [|etrans; [exact Hp1|];
        destruct (Js.ge (totalSpend st2) (totalBudget b));
        [done|apply planWeeks_prefix]]
  end.
  assert (forall td,
            td = S k ->
            entries st1 `prefix_of`
              entries (planShops b rnd (s + 0)%Z b shops td 0 initialState))
    as Hgen.
  { intros td ->. cbn [planShops]. fold st1.
    destruct (Js.ge _ _); [done|]. apply planShops_prefix. }
  by apply Hgen.
Qed.

(** X20.  A budget the form hands on is between 20 and 500, and the plan
    made for it opens with a shop on the start date that uses no coupon,
    records an amount of at least 25 and earns the first coupon. *)
Theorem accepted_budget_first_shop (budgetNum : option Q) (b : Q)
  (s : Date) (rnd : nat -> string) :
  BudgetInput.handleSubmit budgetNum = BudgetInput.onBudgetSet b ->
  budgetNum = Some b /\ 20 <= b /\ b <= 500
  /\ exists e,
       Result.entries (optimizeShoppingPlan b s rnd) !! 0%nat = Some e
       /\ date e = s /\ couponUsed e = None
       /\ couponEarned e = Some 0%nat /\ 25 <= plannedAmount e.
Proof.
  intros Hsub.
  assert (budgetNum = Some b /\ 20 <= b /\ b <= 500) as (-> & H20 & H500).
  { unfold BudgetInput.handleSubmit in Hsub.
    destruct budgetNum as [n|]; [|done].
    destruct (Js.le n 0) eqn:E1; [done|].
    destruct (Js.lt n 20) eqn:E2; [done|].
    destruct (Js.gt n 500) eqn:E3; [done|].
    injection Hsub as ->.
    apply JsFacts.lt_false in E2. apply gt_false in E3. by repeat split. }
  split; [done|]. split; [done|]. split; [done|].
  assert (0 < b) as Hb by lra.
  pose proof (first_shop b s rnd Hb) as [k Hk].
  unfold optimizeShoppingPlan, resultOf; cbn [Result.entries].
  rewrite Hk. clear Hk.
  set (shops := determineOptimalShopsPerWeek b).
  destruct (planShop_step b rnd (s + 0)%Z b shops 0 initialState)
    as [e He].
  cbv zeta in He.
  set (p := tentative (s + 0)%Z b shops 0 initialState) in *.
  set (f := adjustSpend p (totalBudget b - totalSpend initialState)) in *.
  assert (20 <= p) as Hp.
  { subst p shops. destruct (shops_one_or_two b) as [->|[-> H90]].
    - rewrite tentative_only_shop. cbn. lra.
    - rewrite tentative_first_of_two. cbn. qdiv. lra. }
  assert (25 <= f) as Hf.
  { apply adjustSpend_reaches_25; [done|]. unfold totalBudget. cbn. lra. }
  exists e. rewrite (step_entries _ _ _ _ _ _ _ He). cbn [entries initialState].
  split; [done|]. split.
  { rewrite (step_date _ _ _ _ _ _ _ He). cbn [dayOffset Nat.eqb]. lia. }
  pose proof (step_used _ _ _ _ _ _ _ He) as Hu.
  pose proof (step_earned _ _ _ _ _ _ _ He) as Hearn.
  split.
  { destruct (couponUsed e) as [x|]; [|done].
    destruct Hu as (c & Hc & _). cbn in Hc. by rewrite lookup_nil in Hc. }
  split.
  - rewrite Hearn.
    destruct (getCouponEarned_cases (rnd (length (heap initialState))) f
                (s + 0 + dayOffset shops 0)%Z)
      as [[Hge Hg]|[(Hge & Hlt & Hg)|[Hlt Hg]]]; rewrite Hg; [done|done|lra].
  - rewrite (step_amount _ _ _ _ _ _ _ He).
    apply round2_keeps_minimum; [by left|done].
Qed.

Lemma accepted_budget_first_shop_witness :
  BudgetInput.handleSubmit (Some 30) = BudgetInput.onBudgetSet 30
  /\ exists e,
       Result.entries (optimizeShoppingPlan 30 0%Z (fun _ => EmptyString))
         !! 0%nat = Some e
       /\ date e = 0%Z /\ couponUsed e = None
       /\ couponEarned e = Some 0%nat /\ 25 <= plannedAmount e.
Proof.
  split; [reflexivity|].
  apply (accepted_budget_first_shop (Some 30) 30 0%Z (fun _ => EmptyString)).
  reflexivity.
Defined.

(** ** The start date only moves the plan *)

Section Shift.

Variable k : Z.











Lemma markUsed_shift (d : Date) (c : Coupon) :
  markUsed (d + k)%Z (shiftCoupon k c) = shiftCoupon k (markUsed d c).
Proof. reflexivity. Qed.










End Shift.

